(** * NativeSpark AI: a shallow embedding of the browser-side modules

    The development follows the JavaScript sources module by module:
    - [AIAssistant]           (js/ai-assistant.js)
    - [Dictionary]            (js/dictionary.js)
    - [PageConnectionManager] (js/page-connection.js)
    - [AIPracticeMode]        (practice mode, [parseAIResponse])
    - [LearningEngine]        ([getUserJourneyWithCache])
    - [ProgressTracker]       (progress tracker)
    - [TranslationWidget]     (translation widget)
    - [Translator], [Navigation]  (js/page-connection.js)
    - [PracticeFeedback]      (practice mode, [getAIFeedback])
    - [LessonCompletion]      (learning engine, [updateLessonCompletion])

    Conventions.  JavaScript numbers are finite rationals ([Q]) or, where a
    claim depends on the rounding, IEEE doubles; a JavaScript string is the
    [string] of the bytes of its UTF-8 encoding; a JavaScript object used as a dictionary is a
    [gmap] or, where the iteration order of its keys matters, an association
    list.  An [async] method is cut at its network [await]: the part that
    runs before the request is sent and the part that runs once the request
    has settled are two functions, and the outcome of the request is an
    argument of the second. *)

From Stdlib Require Import ZArith QArith Qround Qminmax Lia Lqa Ascii.
From stdpp Require Import gmap strings list fin_maps.

Local Open Scope string_scope.
Local Open Scope list_scope.

(** ** JavaScript built-ins used by the sources *)

Module JS.

(** [Math.round]: the nearest integer, halves rounded up. *)
Definition Math_round (x : Q) : Z := Qfloor (x + (1 # 2)).

Definition Math_min (x y : Q) : Q := Qmin x y.
Definition Math_max (x y : Q) : Q := Qmax x y.

(** [v || 0] for a number [v] that may be missing ([undefined]). *)
Definition or_zero (v : option Q) : Q :=
  match v with
  | Some q => if Qeq_bool q 0 then 0%Q else q
  | None => 0%Q
  end.

(** [v || false]. *)
Definition or_false (v : option bool) : bool :=
  match v with
  | Some b => b
  | None => false
  end.

(** [Array.prototype.slice(start)]: a negative [start] counts from the end. *)
Definition Array_slice {A} (start : Z) (l : list A) : list A :=
  let len := Z.of_nat (length l) in
  let k := if (start <? 0)%Z then Z.max (len + start) 0 else Z.min start len in
  drop (Z.to_nat k) l.

(** A string stands for the UTF-8 encoding of the JavaScript string (one
    without unpaired surrogates).  White space as [String.prototype.trim]
    and the regular expression class [\s] see it: the characters of one
    byte U+0009 to U+000D and U+0020, *)
Definition is_space (c : ascii) : bool :=
  let n := nat_of_ascii c in
  (n =? 32)%nat || ((9 <=? n)%nat && (n <=? 13)%nat).

(** of two bytes U+00A0, *)
Definition is_space2 (a b : ascii) : bool :=
  (nat_of_ascii a =? 194)%nat && (nat_of_ascii b =? 160)%nat.

(** and of three bytes U+1680, U+2000 to U+200A, U+2028, U+2029, U+202F,
    U+205F, U+3000 and U+FEFF. *)
Definition is_space3 (a b c : ascii) : bool :=
  let x := nat_of_ascii a in
  let y := nat_of_ascii b in
  let z := nat_of_ascii c in
  ((x =? 225)%nat && (y =? 154)%nat && (z =? 128)%nat)
  || ((x =? 226)%nat && (y =? 128)%nat
      && (((128 <=? z)%nat && (z <=? 138)%nat)
          || (z =? 168)%nat || (z =? 169)%nat || (z =? 175)%nat))
  || ((x =? 226)%nat && (y =? 129)%nat && (z =? 159)%nat)
  || ((x =? 227)%nat && (y =? 128)%nat && (z =? 128)%nat)
  || ((x =? 239)%nat && (y =? 187)%nat && (z =? 191)%nat).

Fixpoint trimStart (s : string) : string :=
  match s with
  | String a s1 =>
      if is_space a then trimStart s1
      else
        match s1 with
        | String b s2 =>
            if is_space2 a b then trimStart s2
            else
              match s2 with
              | String c s3 => if is_space3 a b c then trimStart s3 else s
              | EmptyString => s
              end
        | EmptyString => s
        end
  | EmptyString => EmptyString
  end.

(** The suffix that is white space only is cut. *)
Fixpoint trimEnd (s : string) : string :=
  match s with
  | String c s' =>
      match trimStart s with
      | EmptyString => EmptyString
      | String _ _ => String c (trimEnd s')
      end
  | EmptyString => EmptyString
  end.

Definition trim (s : string) : string := trimEnd (trimStart s).

(** [s.split(sep)] for a one-character separator: never the empty list. *)
Fixpoint split (sep : ascii) (s : string) : list string :=
  match s with
  | EmptyString => [EmptyString]
  | String c s' =>
      if Ascii.eqb c sep then EmptyString :: split sep s'
      else match split sep s' with
           | piece :: pieces => String c piece :: pieces
           | [] => [String c EmptyString]
           end
  end.

(** A string is truthy when it is not empty. *)
Definition truthy (s : string) : bool :=
  match s with
  | EmptyString => false
  | String _ _ => true
  end.

Fixpoint startsWith (p s : string) : bool :=
  match p, s with
  | EmptyString, _ => true
  | String a p', String b s' => Ascii.eqb a b && startsWith p' s'
  | String _ _, EmptyString => false
  end.

(** Case folding of the regular expression flag [i]: the letters a-z. *)
Definition toUpper (c : ascii) : ascii :=
  let n := nat_of_ascii c in
  if (97 <=? n)%nat && (n <=? 122)%nat then ascii_of_nat (n - 32) else c.

(** [/^label/i.test(s)] for a literal [label]. *)
Fixpoint test_prefix_i (label s : string) : bool :=
  match label, s with
  | EmptyString, _ => true
  | String a l', String b s' =>
      Ascii.eqb (toUpper a) (toUpper b) && test_prefix_i l' s'
  | String _ _, EmptyString => false
  end.

Fixpoint substring_from (n : nat) (s : string) : string :=
  match n, s with
  | O, _ => s
  | S n', String _ s' => substring_from n' s'
  | S _, EmptyString => EmptyString
  end.

(** [s.replace(/^label\s*/i, '')]: the label and the white space after
    it are removed when [s] starts with the label, else [s] is kept. *)
Definition replace_prefix_i (label s : string) : string :=
  if test_prefix_i label s
  then trimStart (substring_from (String.length label) s)
  else s.

(** A character of one byte (U+0000 to U+007F). *)
Definition one_byte (c : ascii) : bool := (nat_of_ascii c <? 128)%nat.

(** [s.length]: the number of UTF-16 code units of the string, one for
    a character of one to three bytes and two for one of four bytes. *)
Definition units (c : ascii) : nat :=
  let n := nat_of_ascii c in
  if (n <? 128)%nat then 1%nat
  else if (n <? 192)%nat then 0%nat
  else if (n <? 240)%nat then 1%nat
  else 2%nat.

Fixpoint String_length (s : string) : nat :=
  match s with
  | String c s' => (units c + String_length s')%nat
  | EmptyString => 0%nat
  end.

Definition newline : ascii := ascii_of_nat 10.
Definition bar : ascii := ascii_of_nat 124.

End JS.

(** ** The chat assistant (js/ai-assistant.js) *)

Module AIAssistant.

Record HistoryEntry := {
  user : string;
  assistant : string;
  timestamp : string;
  language : string
}.

Record t := {
  apiProvider : string;
  currentOllamaModel : string;
  conversationHistory : list HistoryEntry;
  maxHistoryLength : Z;
  isProcessing : bool;
  selectedLanguage : string
}.

(** The state built by the constructor. *)
Definition constructor : t := {|
  apiProvider := "groq";
  currentOllamaModel := "phi3:mini";
  conversationHistory := [];
  maxHistoryLength := 10;
  isProcessing := false;
  selectedLanguage := "auto"
|}.

Definition set_isProcessing (b : bool) (a : t) : t := {|
  apiProvider := apiProvider a;
  currentOllamaModel := currentOllamaModel a;
  conversationHistory := conversationHistory a;
  maxHistoryLength := maxHistoryLength a;
  isProcessing := b;
  selectedLanguage := selectedLanguage a
|}.

Definition set_conversationHistory (h : list HistoryEntry) (a : t) : t := {|
  apiProvider := apiProvider a;
  currentOllamaModel := currentOllamaModel a;
  conversationHistory := h;
  maxHistoryLength := maxHistoryLength a;
  isProcessing := isProcessing a;
  selectedLanguage := selectedLanguage a
|}.

(** [addToHistory(userMessage, assistantResponse)]; [now] is the value of
    [new Date().toISOString()]. *)
Definition addToHistory (now userMessage assistantResponse : string) (a : t) : t :=
  let pushed :=
    conversationHistory a ++
      [ {| user := userMessage;
           assistant := assistantResponse;
           timestamp := now;
           language := selectedLanguage a |} ] in
  if (maxHistoryLength a <? Z.of_nat (length pushed))%Z
  then set_conversationHistory (JS.Array_slice (- maxHistoryLength a) pushed) a
  else set_conversationHistory pushed a.

(** [clearHistory()] *)
Definition clearHistory (a : t) : t := set_conversationHistory [] a.

(** What the caller of [sendMessage] sees before any network answer:
    either the method has already returned a string, or a request to the
    selected provider is in flight. *)
Inductive started :=
| Returned (reply : string)
| Requested (provider : string).

Definition validProvider (p : string) : bool :=
  String.eqb p "groq" || String.eqb p "huggingface" || String.eqb p "ollama".

Definition busy_reply : string :=
  "⏳ I'm still processing your previous message. Please wait a moment...".

(** [sendMessage(prompt)] up to the request.  For an unknown provider the
    [switch] throws before anything is sent; the [catch] turns the error
    into the reply and [finally] clears the flag. *)
Definition sendMessage_start (prompt : string) (a : t) : t * started :=
  if negb (JS.truthy prompt) || negb (JS.truthy (JS.trim prompt))
  then (a, Returned "⚠️ Please type something!")
  else if isProcessing a
  then (a, Returned busy_reply)
  else
    let a1 := set_isProcessing true a in
    if validProvider (apiProvider a1)
    then (a1, Requested (apiProvider a1))
    else (set_isProcessing false a1, Returned "⚠️ Unknown provider").

(** The outcome of [queryGroq], [queryHuggingFace] or [queryOllama]: the
    trimmed answer, or the message of the error they throw. *)
Inductive outcome :=
| Answer (response : string)
| Thrown (message : string).

(** [sendMessage(prompt)] from the settled request to its return. *)
Definition sendMessage_finish (now prompt : string) (o : outcome) (a : t) : t * string :=
  match o with
  | Answer response =>
      (set_isProcessing false (addToHistory now prompt response a), response)
  | Thrown message =>
      (set_isProcessing false a,
       "⚠️ " +:+ (if JS.truthy message then message
                  else "Connection error. Please check your internet and try again."))
  end.

End AIAssistant.

(** ** The dictionary (js/dictionary.js) *)

Module Dictionary.

(** The object built from the model's answer.  The fields that
    [parseAIResponse] extracts from the answer by regular expressions
    (translation, definition, examples, part of speech, notes) are
    functions of [fullResponse] and [word] and are not materialised. *)
Record LookupResult := {
  word : string;
  resultSourceLang : string;
  resultTargetLang : string;
  fullResponse : string;
  timestamp : Z
}.

Record CacheEntry := {
  data : LookupResult;
  savedAt : Z
}.

Record t := {
  apiProvider : string;
  apiKey : option string;
  apiEndpoint : string;
  supportedLanguages : gmap string string;
  cache : gmap string CacheEntry;
  cacheExpiry : Z;
  isOpen : bool;
  currentWord : string;
  sourceLang : string;
  targetLang : string;
  isProcessing : bool
}.

Definition constructor : t := {|
  apiProvider := "groq";
  apiKey := None;
  apiEndpoint := "https://api.groq.com/openai/v1/chat/completions";
  supportedLanguages :=
    <["en" := "English"]> (<["ta" := "Tamil"]> (<["hi" := "Hindi"]>
      (<["fr" := "French"]> (<["de" := "German"]> ∅))));
  cache := ∅;
  cacheExpiry := 3600000;
  isOpen := false;
  currentWord := "";
  sourceLang := "en";
  targetLang := "ta";
  isProcessing := false
|}.

Definition set_isProcessing (b : bool) (d : t) : t := {|
  apiProvider := apiProvider d;
  apiKey := apiKey d;
  apiEndpoint := apiEndpoint d;
  supportedLanguages := supportedLanguages d;
  cache := cache d;
  cacheExpiry := cacheExpiry d;
  isOpen := isOpen d;
  currentWord := currentWord d;
  sourceLang := sourceLang d;
  targetLang := targetLang d;
  isProcessing := b
|}.

Definition set_cache (c : gmap string CacheEntry) (d : t) : t := {|
  apiProvider := apiProvider d;
  apiKey := apiKey d;
  apiEndpoint := apiEndpoint d;
  supportedLanguages := supportedLanguages d;
  cache := c;
  cacheExpiry := cacheExpiry d;
  isOpen := isOpen d;
  currentWord := currentWord d;
  sourceLang := sourceLang d;
  targetLang := targetLang d;
  isProcessing := isProcessing d
|}.

(** The user message of a request: the template the source renders, kept
    by its arguments. *)
Inductive prompt :=
| LookupPrompt (word sourceLangName targetLangName : string)
| TranslatePrompt (sourceLangName targetLangName text : string).

(** The POST that [queryAI] sends. *)
Record request := {
  endpoint : string;
  bearer : option string;
  content : prompt
}.

(** How the request settles, as [queryAI] tells the cases apart. *)
Inductive response :=
| FetchRejected (message : string)
| NotOk (detail : string)
| InvalidFormat
| Content (text : string).

Inductive result (A : Type) :=
| Return (value : A)
| Throw (message : string).
Arguments Return {A} value.
Arguments Throw {A} message.

(** An [async] method before its request settles. *)
Inductive started (A : Type) :=
| Done (r : result A)
| Requested (req : request).
Arguments Done {A} r.
Arguments Requested {A} req.

Definition busy_message : string := "Dictionary AI is busy. Please wait...".

(** [queryAI] before its request settles: it threw at once, or the
    request is in flight. *)
Inductive query :=
| Refused (message : string)
| Sent (req : request).

(** [queryAI(prompt)] up to the [fetch]. *)
Definition queryAI_start (p : prompt) (d : t) : t * query :=
  if isProcessing d
  then (d, Refused busy_message)
  else
    let d1 := set_isProcessing true d in
    (d1, Sent {| endpoint := apiEndpoint d1;
                      bearer := apiKey d1;
                      content := p |}).

(** [queryAI(prompt)] after the [fetch]: the [try] body, the rethrowing
    [catch], and [finally]. *)
Definition queryAI_finish (r : response) (d : t) : t * result string :=
  let res :=
    match r with
    | FetchRejected message => Throw message
    | NotOk detail => Throw ("API error: " +:+ detail)
    | InvalidFormat => Throw "Invalid response format"
    | Content text => Return (JS.trim text)
    end in
  (set_isProcessing false d, res).

Definition languageName (d : t) (code : string) : string :=
  match supportedLanguages d !! code with
  | Some name => if JS.truthy name then name else code
  | None => code
  end.

(** [getFromCache(key)] at time [now]. *)
Definition getFromCache (now : Z) (key : string) (d : t) : t * option LookupResult :=
  match cache d !! key with
  | None => (d, None)
  | Some cached =>
      if (cacheExpiry d <? now - savedAt cached)%Z
      then (set_cache (delete key (cache d)) d, None)
      else (d, Some (data cached))
  end.

Definition saveToCache (now : Z) (key : string) (r : LookupResult) (d : t) : t :=
  set_cache (<[key := {| data := r; savedAt := now |}]> (cache d)) d.

Definition cacheKey (word sourceLang targetLang : string) : string :=
  word +:+ "-" +:+ sourceLang +:+ "-" +:+ targetLang.

(** [performAILookup] up to the request; an error of [queryAI] is
    wrapped. *)
Definition performAILookup_start (word sourceLang targetLang : string) (d : t)
  : t * started LookupResult :=
  let p := LookupPrompt word (languageName d sourceLang) (languageName d targetLang) in
  match queryAI_start p d with
  | (d1, Refused message) =>
      (d1, Done (Throw ("Dictionary AI lookup failed: " +:+ message)))
  | (d1, Sent req) => (d1, Requested req)
  end.

Definition performAILookup_finish (now : Z) (word sourceLang targetLang : string)
    (r : response) (d : t) : t * result LookupResult :=
  match queryAI_finish r d with
  | (d1, Return aiResponse) =>
      (d1, Return {| word := word;
                     resultSourceLang := sourceLang;
                     resultTargetLang := targetLang;
                     fullResponse := JS.trim aiResponse;
                     timestamp := now |})
  | (d1, Throw message) => (d1, Throw ("Dictionary AI lookup failed: " +:+ message))
  end.

(** [lookup(word, sourceLang, targetLang)] up to the request. *)
Definition lookup_start (now : Z) (word sourceLang targetLang : string) (d : t)
  : t * started LookupResult :=
  if negb (JS.truthy word) || negb (JS.truthy (JS.trim word))
  then (d, Done (Throw "Word cannot be empty"))
  else
    let word := JS.trim word in
    match getFromCache now (cacheKey word sourceLang targetLang) d with
    | (d1, Some cached) => (d1, Done (Return cached))
    | (d1, None) => performAILookup_start word sourceLang targetLang d1
    end.

(** [lookup] once the request has settled: [now] is read by
    [parseAIResponse], [now'] by [saveToCache]. *)
Definition lookup_finish (now now' : Z) (word sourceLang targetLang : string)
    (r : response) (d : t) : t * result LookupResult :=
  let word := JS.trim word in
  match performAILookup_finish now word sourceLang targetLang r d with
  | (d1, Return res) =>
      (saveToCache now' (cacheKey word sourceLang targetLang) res d1, Return res)
  | (d1, Throw message) => (d1, Throw message)
  end.

Record Translation := {
  text : string;
  service : string
}.

Definition quote : ascii := ascii_of_nat 34.

Fixpoint remove_quotes (s : string) : string :=
  match s with
  | EmptyString => EmptyString
  | String c s' =>
      if Ascii.eqb c quote then remove_quotes s' else String c (remove_quotes s')
  end.

(** [translate(text, sourceLang, targetLang)] up to the request. *)
Definition translate_start (txt sourceLang targetLang : string) (d : t)
  : t * started Translation :=
  if negb (JS.truthy txt) || negb (JS.truthy (JS.trim txt))
  then (d, Done (Throw "Text cannot be empty"))
  else
    let p := TranslatePrompt (languageName d sourceLang) (languageName d targetLang) txt in
    match queryAI_start p d with
    | (d1, Refused message) => (d1, Done (Throw message))
    | (d1, Sent req) => (d1, Requested req)
    end.

Definition translate_finish (r : response) (d : t) : t * result Translation :=
  match queryAI_finish r d with
  | (d1, Return translation) =>
      (d1, Return {| text := JS.trim (remove_quotes translation);
                     service := "Dictionary AI" |})
  | (d1, Throw message) => (d1, Throw message)
  end.

End Dictionary.

(** The page holds both singletons ([window.aiAssistant],
    [window.dictionary]); a method of one runs on the whole page. *)
Module Window.

Record t := {
  aiAssistant : AIAssistant.t;
  dictionary : Dictionary.t
}.

Definition initial : t := {|
  aiAssistant := AIAssistant.constructor;
  dictionary := Dictionary.constructor
|}.


(** Running a method of [window.aiAssistant]. *)
Definition on_aiAssistant {A} (m : AIAssistant.t -> AIAssistant.t * A) (w : t) : t * A :=
  let '(a, x) := m (aiAssistant w) in
  ({| aiAssistant := a; dictionary := dictionary w |}, x).


(** What the caller observes of a call. *)
Inductive value :=
| VString (s : string)
| VLookup (r : Dictionary.LookupResult)
| VTranslation (t : Dictionary.Translation).






End Window.

(** ** The progress tracker *)

Module ProgressTracker.

Local Open Scope Q_scope.

(** An entry of [this.modules].  [progress] is a percentage; the field
    may be missing ([None]), which the readers treat as 0. *)
Record LearningModule := {
  name : string;
  completed : bool;
  progress : option Q;
  order : Z
}.

(** A module as it is read back from storage: only the two fields the
    loaders use, either of which may be missing. *)
Record SavedModule := {
  savedCompleted : option bool;
  savedProgress : option Q
}.

Record User := {
  uid : string;
  email : string
}.

Record t := {
  modules : list (string * LearningModule);
  currentUser : option User;
  userId : option string;
  initialized : bool
}.

Definition constructor : t := {|
  modules :=
    [ ("alphabets",
        {| name := "AI Alphabets"; completed := false; progress := Some 0; order := 1 |});
      ("vocabulary",
        {| name := "Smart Vocabulary"; completed := false; progress := Some 0; order := 2 |});
      ("grammar",
        {| name := "Intelligent Grammar"; completed := false; progress := Some 0; order := 3 |});
      ("assessment",
        {| name := "Adaptive Assessment"; completed := false; progress := Some 0; order := 4 |}) ];
  currentUser := None;
  userId := None;
  initialized := false
|}.

Definition set_modules (ms : list (string * LearningModule)) (p : t) : t := {|
  modules := ms;
  currentUser := currentUser p;
  userId := userId p;
  initialized := initialized p
|}.

(** [this.modules[key]] *)
Fixpoint get (key : string) (ms : list (string * LearningModule)) : option LearningModule :=
  match ms with
  | [] => None
  | (k, m) :: rest => if String.eqb k key then Some m else get key rest
  end.

(** An assignment to fields of [this.modules[key]]. *)
Definition update (key : string) (f : LearningModule -> LearningModule)
    (ms : list (string * LearningModule)) : list (string * LearningModule) :=
  map (fun km => if String.eqb (fst km) key then (fst km, f (snd km)) else km) ms.

Definition set_progress (q : Q) (m : LearningModule) : LearningModule :=
  {| name := name m; completed := completed m; progress := Some q; order := order m |}.

Definition set_completed (b : bool) (m : LearningModule) : LearningModule :=
  {| name := name m; completed := b; progress := progress m; order := order m |}.

(** The tracker with the two stores it writes: the [learningProgress]
    item of [sessionStorage] and the [userProgress] collection. *)
Inductive item :=
| Unparseable
| Parsed (savedModules : list (string * SavedModule)).

Record World := {
  tracker : t;
  sessionStorage : option item;
  firestore : gmap string (list (string * SavedModule))
}.

Definition initial : World := {|
  tracker := constructor;
  sessionStorage := None;
  firestore := ∅
|}.

(** What the environment decides during a call. *)
Record Env := {
  firestoreAvailable : bool;
  firestoreThrows : bool;
  userConfirms : bool
}.

Definition with_tracker (p : t) (w : World) : World :=
  {| tracker := p; sessionStorage := sessionStorage w; firestore := firestore w |}.

(** [JSON.stringify(this.modules)], as the loaders will read it. *)
Definition stringify (ms : list (string * LearningModule)) : list (string * SavedModule) :=
  map (fun km => (fst km, {| savedCompleted := Some (completed (snd km));
                             savedProgress := progress (snd km) |})) ms.

(** [this.userId || this.currentUser?.uid] *)
Definition effectiveUserId (p : t) : option string :=
  match userId p with
  | Some u => if JS.truthy u then Some u else uid <$> currentUser p
  | None => uid <$> currentUser p
  end.

Definition has_key (key : string) (l : list (string * SavedModule)) : bool :=
  existsb (fun ks => String.eqb (fst ks) key) l.

(** [setDoc(..., { merge: true })] on the [modules] field: written
    modules replace the stored ones, other stored modules stay. *)
Definition merge (written stored : list (string * SavedModule)) : list (string * SavedModule) :=
  written ++ filter (fun ks => negb (has_key (fst ks) written)) stored.

Definition saveProgress (e : Env) (w : World) : World :=
  let saved := stringify (modules (tracker w)) in
  let fs :=
    match effectiveUserId (tracker w) with
    | Some u =>
        if JS.truthy u && firestoreAvailable e && negb (firestoreThrows e)
        then <[u := merge saved (default [] (firestore w !! u))]> (firestore w)
        else firestore w
    | None => firestore w
    end in
  {| tracker := tracker w; sessionStorage := Some (Parsed saved); firestore := fs |}.

(** The loop shared by [loadProgress] and [loadLocalProgress]:
    [Object.keys(savedModules).forEach(key => ...)]. *)
Definition restore (savedModules : list (string * SavedModule))
    (ms : list (string * LearningModule)) : list (string * LearningModule) :=
  fold_left
    (fun ms ks =>
       match get (fst ks) ms with
       | Some _ =>
           update (fst ks)
             (fun m => set_progress (JS.or_zero (savedProgress (snd ks)))
                         (set_completed (JS.or_false (savedCompleted (snd ks))) m))
             ms
       | None => ms
       end)
    savedModules ms.

Definition loadLocalProgress (w : World) : World :=
  match sessionStorage w with
  | Some (Parsed savedModules) =>
      with_tracker (set_modules (restore savedModules (modules (tracker w))) (tracker w)) w
  | Some Unparseable => w
  | None => w
  end.

Definition loadProgress (e : Env) (w : World) : World :=
  match effectiveUserId (tracker w) with
  | Some u =>
      if negb (JS.truthy u) then loadLocalProgress w
      else if negb (firestoreAvailable e) then loadLocalProgress w
      else if firestoreThrows e then loadLocalProgress w
      else match firestore w !! u with
           | Some savedModules =>
               with_tracker
                 (set_modules (restore savedModules (modules (tracker w))) (tracker w)) w
           | None => saveProgress e w
           end
  | None => loadLocalProgress w
  end.

(** [updateModuleProgress(moduleName, percentage)] *)
Definition updateModuleProgress (e : Env) (moduleName : string) (percentage : Q)
    (w : World) : World :=
  match get moduleName (modules (tracker w)) with
  | Some _ =>
      let ms1 := update moduleName
                   (set_progress (JS.Math_min 100 (JS.Math_max 0 percentage)))
                   (modules (tracker w)) in
      let ms2 := if Qle_bool 100 percentage
                 then update moduleName (set_completed true) ms1
                 else ms1 in
      saveProgress e (with_tracker (set_modules ms2 (tracker w)) w)
  | None => w
  end.

(** [getModuleProgress(moduleName)] *)
Definition getModuleProgress (moduleName : string) (p : t) : Q :=
  match get moduleName (modules p) with
  | Some m => JS.or_zero (progress m)
  | None => 0
  end.

(** [markComplete(moduleName)] *)
Definition markComplete (e : Env) (moduleName : string) (w : World) : World :=
  match get moduleName (modules (tracker w)) with
  | Some _ =>
      let ms1 := update moduleName (set_completed true) (modules (tracker w)) in
      let ms2 := update moduleName (set_progress 100) ms1 in
      saveProgress e (with_tracker (set_modules ms2 (tracker w)) w)
  | None => w
  end.

(** [resetProgress()] *)
Definition resetProgress (e : Env) (w : World) : World :=
  if userConfirms e
  then
    let ms := fold_left
                (fun ms key => update key (set_progress 0)
                                 (update key (set_completed false) ms))
                (map fst (modules (tracker w))) (modules (tracker w)) in
    saveProgress e (with_tracker (set_modules ms (tracker w)) w)
  else w.

Definition moduleWeights : gmap string Q :=
  <["alphabets" := 1 # 4]> (<["vocabulary" := 1 # 4]>
    (<["grammar" := 1 # 4]> (<["assessment" := 1 # 4]> ∅))).

(** [moduleWeights[key] || 0.25] *)
Definition weight (key : string) : Q :=
  match moduleWeights !! key with
  | Some w => if Qeq_bool w 0 then 1 # 4 else w
  | None => 1 # 4
  end.

(** The percentage [updateProgressBar()] writes to the progress bar. *)
Definition updateProgressBar (p : t) : Z :=
  let totalProgress :=
    fold_left
      (fun totalProgress key =>
         match get key (modules p) with
         | Some m => totalProgress + JS.or_zero (progress m) * weight key
         | None => totalProgress
         end)
      (map fst (modules p)) 0 in
  JS.Math_round totalProgress.

(** The figures [generateMenuHTML()] interpolates into the header of the
    menu: the overall percentage and "[completed] of [total]". *)
Record MenuHeader := {
  percentage : Z;
  completedCount : nat;
  total : nat
}.

Definition generateMenuHTML (p : t) : MenuHeader :=
  let totalProgress :=
    fold_left
      (fun totalProgress key =>
         let w := weight key in
         match get key (modules p) with
         | Some m => totalProgress + JS.or_zero (progress m) * w
         | None => totalProgress
         end)
      (map fst (modules p)) 0 in
  {| percentage := JS.Math_round totalProgress;
     completedCount := length (filter (fun km => completed (snd km) = true) (modules p));
     total := length (map fst (modules p)) |}.

(** The operations that write module progress. *)
Inductive operation :=
| UpdateModuleProgress (moduleName : string) (percentage : Q)
| MarkComplete (moduleName : string)
| ResetProgress
| SaveProgress
| LoadProgress
| LoadLocalProgress.

Definition run (e : Env) (o : operation) (w : World) : World :=
  match o with
  | UpdateModuleProgress moduleName percentage =>
      updateModuleProgress e moduleName percentage w
  | MarkComplete moduleName => markComplete e moduleName w
  | ResetProgress => resetProgress e w
  | SaveProgress => saveProgress e w
  | LoadProgress => loadProgress e w
  | LoadLocalProgress => loadLocalProgress w
  end.

(** The invariant: every progress value held in memory or in either
    store lies in [0, 100]. *)
Definition in_range (q : Q) : Prop := 0 <= q /\ q <= 100.

Definition module_ok (m : LearningModule) : Prop :=
  forall q, progress m = Some q -> in_range q.

Definition saved_ok (s : SavedModule) : Prop :=
  forall q, savedProgress s = Some q -> in_range q.

Definition item_ok (i : option item) : Prop :=
  match i with
  | Some (Parsed savedModules) => Forall (fun ks => saved_ok (snd ks)) savedModules
  | Some Unparseable => True
  | None => True
  end.

Definition Inv (w : World) : Prop :=
  Forall (fun km => module_ok (snd km)) (modules (tracker w)) /\
  item_ok (sessionStorage w) /\
  (forall u savedModules,
      firestore w !! u = Some savedModules ->
      Forall (fun ks => saved_ok (snd ks)) savedModules).

(** The four module keys of the constructor. *)
Definition moduleKeys : list string := ["alphabets"; "vocabulary"; "grammar"; "assessment"].

End ProgressTracker.

(** ** The translation widget *)

Module TranslationWidget.

Record t := {
  isTranslated : bool;
  targetLanguage : string;
  translationCache : gmap string string;
  translationAPIs : list string;
  currentAPIIndex : nat
}.

Definition constructor (targetLanguage : string) : t := {|
  isTranslated := false;
  targetLanguage := targetLanguage;
  translationCache := ∅;
  translationAPIs := ["MyMemory"; "GoogleTranslate"; "LibreTranslate"];
  currentAPIIndex := 0
|}.

Definition set_currentAPIIndex (i : nat) (w : t) : t := {|
  isTranslated := isTranslated w;
  targetLanguage := targetLanguage w;
  translationCache := translationCache w;
  translationAPIs := translationAPIs w;
  currentAPIIndex := i
|}.

Definition set_translationCache (c : gmap string string) (w : t) : t := {|
  isTranslated := isTranslated w;
  targetLanguage := targetLanguage w;
  translationCache := c;
  translationAPIs := translationAPIs w;
  currentAPIIndex := currentAPIIndex w
|}.

(** The network during one call of [translateWithFallback]: what
    [api.method(text)] of the API at an index yields, [None] when it
    returns [null] or throws.  Each API is asked at most once per call. *)
Definition network := nat -> option string.

(** A computation that may call translation APIs: the indices of the
    APIs invoked are logged in order. *)
Definition M (A : Type) : Type := t -> list nat -> (A * t * list nat).

Definition ret {A} (x : A) : M A := fun w log => (x, w, log).

Definition bind {A B} (m : M A) (k : A -> M B) : M B :=
  fun w log => let '(x, w', log') := m w log in k x w' log'.

Notation "x <- m ;; k" := (bind m (fun x => k))
  (at level 100, m at next level, right associativity).

Definition get_widget : M t := fun w log => (w, w, log).
Definition put_widget (w' : t) : M unit := fun _ log => (tt, w', log).

(** [translateWithAPI(text, apiIndex)]: an index outside the list makes
    [api.method] throw, which the [catch] turns into [null]. *)
Definition translateWithAPI (net : network) (text : string) (apiIndex : nat)
  : M (option string) :=
  fun w log =>
    match translationAPIs w !! apiIndex with
    | Some _ => (net apiIndex, w, log ++ [apiIndex])
    | None => (None, w, log)
    end.

(** [translated && translated !== text] *)
Definition usable (text : string) (translated : option string) : bool :=
  match translated with
  | Some s => JS.truthy s && negb (String.eqb s text)
  | None => false
  end.

(** The [for] loop over the other APIs, from index [i]; [fuel] is the
    number of indices left. *)
Fixpoint fallback (net : network) (text : string) (fuel i : nat)
    (translated : option string) : M (option string) :=
  match fuel with
  | O => ret translated
  | S fuel' =>
      w <- get_widget ;;
      if (i =? currentAPIIndex w)%nat
      then fallback net text fuel' (S i) translated
      else
        translated' <- translateWithAPI net text i ;;
        if usable text translated'
        then _ <- put_widget (set_currentAPIIndex i w) ;; ret translated'
        else fallback net text fuel' (S i) translated'
  end.

(** [translateWithFallback(text)] *)
Definition translateWithFallback (net : network) (text : string) : M string :=
  w <- get_widget ;;
  match translationCache w !! text with
  | Some cached => ret cached
  | None =>
      translated <- translateWithAPI net text (currentAPIIndex w) ;;
      translated <-
        (if usable text translated then ret translated
         else fallback net text (length (translationAPIs w)) 0 translated) ;;
      w <- get_widget ;;
      match translated with
      | Some s =>
          if JS.truthy s
          then _ <- put_widget
                      (set_translationCache (<[text := s]> (translationCache w)) w) ;;
               ret s
          else ret text
      | None => ret text
      end
  end.

(** Running a call on a widget: the result, the widget after, and the
    APIs that were invoked. *)
Definition run {A} (m : M A) (w : t) : A * t * list nat := m w [].

(** What a call sees of the API at index [i]: the network's answer, and
    [null] for an index outside the list. *)
Definition answer (net : network) (w : t) (i : nat) : option string :=
  match translationAPIs w !! i with
  | Some _ => net i
  | None => None
  end.

(** An API fails, or gives back the text it was given. *)
Definition fails (text : string) (translated : option string) : Prop :=
  translated = None \/ translated = Some text.




(** A network on which every API fails, and one on which the first API
    answers. *)
Definition offline : network := fun _ => None.
Definition online : network :=
  fun i => match i with O => Some "Bonjour" | _ => None end.


(** MyMemory fails, Google gives the text back, LibreTranslate
    translates. *)
Definition third_api_answers : network :=
  fun i => match i with
           | 0%nat => None
           | 1%nat => Some "Hello"
           | _ => Some "Hallo"
           end.

End TranslationWidget.

(** ** Objects read by property name *)

Module JSObject.

(** The property names every object inherits from [Object.prototype]:
    [object[name]] is a function, or the prototype, for these names also
    when the object has no such property of its own. *)
Definition inherited : list string :=
  [ "constructor"; "hasOwnProperty"; "isPrototypeOf"; "propertyIsEnumerable";
    "toLocaleString"; "toString"; "valueOf"; "__proto__";
    "__defineGetter__"; "__defineSetter__"; "__lookupGetter__"; "__lookupSetter__" ].

End JSObject.

(** ** The page router (js/page-connection.js) *)

Module PageConnectionManager.

Definition pageMap : gmap string string :=
  <["home" := "../pages/home-ai.html"]>
  (<["alphabets" := "../pages/alphabets-ai.html"]>
  (<["vocabulary" := "../pages/vocabulary-ai.html"]>
  (<["grammar" := "../pages/grammar-ai.html"]>
  (<["assessment" := "../pages/final-assessment-ai.html"]>
  (<["results" := "../pages/results.html"]>
  (<["profile" := "../pages/botinteraction.html"]> ∅)))))).

(** What [pageMap[page] || pageMap['home']] evaluates to and [fetch] is
    given: the URL of an own property of the object or, for a name the
    object inherits from [Object.prototype], the inherited function or
    object (each of them truthy). *)
Inductive target :=
| Url (url : string)
| Inherited (name : string).

(** [pageMap[page] || pageMap['home']]; [None] stands for [undefined]. *)
Definition pageUrl (page : string) : option target :=
  match pageMap !! page with
  | Some url => if JS.truthy url then Some (Url url) else Url <$> pageMap !! "home"
  | None =>
      if bool_decide (page ∈ JSObject.inherited)
      then Some (Inherited page)
      else Url <$> pageMap !! "home"
  end.

(** How an awaited promise settles; an error is given by its message. *)
Inductive settled (A : Type) :=
| Fulfilled (value : A)
| Rejected (error : string).

Arguments Fulfilled {A} value.
Arguments Rejected {A} error.

(** The HTTP response [fetch] resolves to; [text] is what
    [response.text()] settles to. *)
Record Response := {
  ok : bool;
  status : string;
  text : settled string
}.

Inductive result :=
| Return (content : string)
| Throw (message : string).

(** [fetchPageContent(page)], where [fetch] maps what is requested to the
    outcome of the request.  Nothing is caught: a rejection of [fetch] or
    of [response.text()] is the rejection of the method. *)
Definition fetchPageContent (fetch : option target -> settled Response) (page : string)
  : result :=
  match fetch (pageUrl page) with
  | Rejected error => Throw error
  | Fulfilled response =>
      if negb (ok response)
      then Throw ("Failed to fetch page: " +:+ status response)
      else match text response with
           | Fulfilled content => Return content
           | Rejected error => Throw error
           end
  end.

(** The readings of "any key outside the map resolves to the home page
    URL" and of "throws exactly when the HTTP response is not ok". *)
Definition outside_is_home : Prop :=
  forall page, pageMap !! page = None -> pageUrl page = Some (Url "../pages/home-ai.html").

Definition throws_exactly_when_not_ok : Prop :=
  forall fetch page,
    (exists message, fetchPageContent fetch page = Throw message)
    <-> (exists response, fetch (pageUrl page) = Fulfilled response /\ ok response = false).


Definition unreachable (url : option target) : settled Response :=
  Rejected "Failed to fetch".

Definition interrupted (url : option target) : settled Response :=
  Fulfilled {| ok := true; status := "200"; text := Rejected "network error" |}.

End PageConnectionManager.

(** ** The learning engine: the cached user journey *)

Module LearningEngine.

(** A journey document; [lastUpdated] is the time in milliseconds that
    [new Date(lastUpdated).getTime()] yields, [None] when that is not a
    time (the field is missing or is not a date). *)
Record Journey := {
  lastUpdated : option Z;
  body : string
}.

(** An item of [localStorage], by what the function makes of it: the
    empty string; a string on which [JSON.parse] throws, or whose value is
    [null] so that reading its [lastUpdated] throws, with the message of the
    error; or a stored journey. *)
Inductive item :=
| Empty
| Throwing (message : string)
| Stored (journey : Journey).

(** The outcome of [getDoc]. *)
Inductive snapshot :=
| Rejected (message : string)
| Missing
| Exists (data : Journey).

Inductive source := cache | firebase.

Inductive result :=
| Success (data : Journey) (src : source)
| Failure (error : string).

Definition journeyKey (userId : string) : string := "userJourney_" +:+ userId.

(** [getUserJourneyWithCache(userId)] at time [now]; [firestore] gives
    the outcome of reading [userJourneys/userId].  The function returns
    its result, the [localStorage] after the call, and whether the
    document was read. *)
Definition getUserJourneyWithCache (now : Z) (firestore : string -> snapshot)
    (localStorage : gmap string item) (userId : string)
  : result * gmap string item * bool :=
  let fetchFromFirebase :=
    match firestore userId with
    | Rejected message => (Failure message, localStorage, true)
    | Missing => (Failure "Journey not found", localStorage, true)
    | Exists data =>
        (Success data firebase, <[journeyKey userId := Stored data]> localStorage, true)
    end in
  match localStorage !! journeyKey userId with
  | None => fetchFromFirebase
  | Some Empty => fetchFromFirebase
  | Some (Throwing message) => (Failure message, localStorage, false)
  | Some (Stored parsedCache) =>
      match lastUpdated parsedCache with
      | Some t =>
          if (now - t <? 5 * 60 * 1000)%Z
          then (Success parsedCache cache, localStorage, false)
          else fetchFromFirebase
      | None => fetchFromFirebase
      end
  end.

(** A cached journey that is less than five minutes old. *)
Definition fresh (now : Z) (localStorage : gmap string item) (userId : string)
    (journey : Journey) : Prop :=
  localStorage !! journeyKey userId = Some (Stored journey) /\
  exists t, lastUpdated journey = Some t /\ (now - t < 5 * 60 * 1000)%Z.

(** The reading of "otherwise it reads the Firestore document, and either
    returns 'Journey not found' or stores the fetched data and returns it
    with source 'firebase'". *)
Definition otherwise_reads_firestore : Prop :=
  forall now firestore localStorage userId,
    (forall journey, ~ fresh now localStorage userId journey) ->
    let '(r, localStorage', read) :=
      getUserJourneyWithCache now firestore localStorage userId in
    read = true /\
    (r = Failure "Journey not found" \/
     exists data,
       r = Success data firebase /\
       localStorage' = <[journeyKey userId := Stored data]> localStorage).

(** Firestore cannot be reached. *)
Definition unreachable : string -> snapshot :=
  fun _ => Rejected "Failed to get document because the client is offline.".

End LearningEngine.

(** ** Practice mode: parsing the model's answer *)

Module AIPracticeMode.

(** A property value of the [exercise] object. *)
Inductive value :=
| Str (s : string)
| Arr (items : list string).

(** [!v] for a property that may be missing. *)
Definition falsy (v : option value) : bool :=
  match v with
  | Some (Str s) => negb (JS.truthy s)
  | Some (Arr _) => false
  | None => true
  end.

(** [if (/^LABEL:/i.test(trimmedLine))
       exercise.field = trimmedLine.replace(/^LABEL:\s*/i, '').trim();] *)
Definition assign (label field trimmedLine : string) (exercise : gmap string value)
  : gmap string value :=
  if JS.test_prefix_i label trimmedLine
  then <[field := Str (JS.trim (JS.replace_prefix_i label trimmedLine))]> exercise
  else exercise.

(** [str.split('|').map(o => o.trim()).filter(o => o)] *)
Definition splitBars (str : string) : list string :=
  filter (fun o => JS.truthy o = true) (map JS.trim (JS.split JS.bar str)).

(** The same for [OPTIONS:] and [WORDS:], whose remainder is split. *)
Definition assignList (label field trimmedLine : string) (exercise : gmap string value)
  : gmap string value :=
  if JS.test_prefix_i label trimmedLine
  then
    let optionsStr := JS.trim (JS.replace_prefix_i label trimmedLine) in
    <[field := Arr (splitBars optionsStr)]> exercise
  else exercise.

(** The body of [lines.forEach(line => ...)]. *)
Definition parseLine (exercise : gmap string value) (line : string) : gmap string value :=
  let trimmedLine := JS.trim line in
  let exercise := assign "QUESTION:" "question" trimmedLine exercise in
  let exercise := assign "ANSWER:" "answer" trimmedLine exercise in
  let exercise := assign "WORD:" "word" trimmedLine exercise in
  let exercise := assign "DEFINITION:" "definition" trimmedLine exercise in
  let exercise := assignList "OPTIONS:" "options" trimmedLine exercise in
  let exercise := assignList "WORDS:" "words" trimmedLine exercise in
  let exercise := assign "SENTENCE:" "sentence" trimmedLine exercise in
  let exercise := assign "CORRECT:" "correct" trimmedLine exercise in
  let exercise := assign "EXPLANATION:" "explanation" trimmedLine exercise in
  let exercise := assign "TRANSLATION:" "translation" trimmedLine exercise in
  let exercise := assign "EXAMPLE:" "example" trimmedLine exercise in
  let exercise := assign "SCENARIO:" "scenario" trimmedLine exercise in
  let exercise := assign "PROMPT:" "prompt" trimmedLine exercise in
  let exercise := assign "SAMPLE_ANSWER:" "sampleAnswer" trimmedLine exercise in
  let exercise := assign "TIP:" "tip" trimmedLine exercise in
  let exercise := assign "AUDIO_TEXT:" "audioText" trimmedLine exercise in
  let exercise := assign "ERROR_TYPE:" "errorType" trimmedLine exercise in
  exercise.

(** [response.split('\n').filter(line => line.trim())] *)
Definition responseLines (response : string) : list string :=
  filter (fun line => JS.truthy (JS.trim line) = true) (JS.split JS.newline response).

(** [l.length > 10 && !l.startsWith('//')] *)
Definition meaningful (l : string) : bool :=
  (10 <? JS.String_length l)%nat && negb (JS.startsWith "//" l).

(** Strategy 2 of [parseAIResponse]. *)
Definition fallback (lines : list string) (exercise : gmap string value)
  : gmap string value :=
  if falsy (exercise !! "question") && falsy (exercise !! "word")
     && falsy (exercise !! "sentence") && falsy (exercise !! "prompt")
  then
    match filter (fun l => meaningful l = true) lines with
    | [] => exercise
    | first :: rest =>
        let exercise := <["question" := Str first]> exercise in
        match rest with
        | second :: _ => <["answer" := Str second]> exercise
        | [] => exercise
        end
    end
  else exercise.

(** [parseAIResponse(response, type)] *)
Definition parseAIResponse (response type : string) : gmap string value :=
  let exercise := <["type" := Str type]> (<["raw" := Str response]> ∅) in
  let lines := responseLines response in
  let exercise := fold_left parseLine lines exercise in
  fallback lines exercise.

(** *** The description to compare with

    The labels with the field each one fills; [true] marks the two labels
    whose remainder is split on the bar. *)
Definition knownLabels : list (string * string * bool) :=
  [ ("QUESTION:", "question", false); ("ANSWER:", "answer", false);
    ("WORD:", "word", false); ("DEFINITION:", "definition", false);
    ("OPTIONS:", "options", true); ("WORDS:", "words", true);
    ("SENTENCE:", "sentence", false); ("CORRECT:", "correct", false);
    ("EXPLANATION:", "explanation", false); ("TRANSLATION:", "translation", false);
    ("EXAMPLE:", "example", false); ("SCENARIO:", "scenario", false);
    ("PROMPT:", "prompt", false); ("SAMPLE_ANSWER:", "sampleAnswer", false);
    ("TIP:", "tip", false); ("AUDIO_TEXT:", "audioText", false);
    ("ERROR_TYPE:", "errorType", false) ].

(** A line begins with a label: case-insensitively, at the start of the
    line once the white space around it is dropped. *)
Definition beginsWith (label line : string) : bool :=
  JS.test_prefix_i label (JS.trim line).

(** The trimmed remainder of a line after a label. *)
Definition remainder (label line : string) : string :=
  JS.trim (JS.substring_from (String.length label) (JS.trim line)).

(** The pieces of a remainder between bars, trimmed, the empty ones
    left out. *)
Fixpoint nonEmptyTrimmed (pieces : list string) : list string :=
  match pieces with
  | [] => []
  | p :: rest =>
      match JS.trim p with
      | EmptyString => nonEmptyTrimmed rest
      | t => t :: nonEmptyTrimmed rest
      end
  end.

Definition stored (isList : bool) (label line : string) : value :=
  if isList then Arr (nonEmptyTrimmed (JS.split JS.bar (remainder label line)))
  else Str (remainder label line).

(** What the pass over the lines leaves in the field of a label: the
    value stored for the last line that begins with the label. *)
Definition labelled (lines : list string) (entry : string * string * bool) : option value :=
  let '(label, _, isList) := entry in
  stored isList label <$> last (filter (fun line => beginsWith label line = true) lines).

(** The field's entry in the table, if it is the field of a label. *)
Definition labelOf (field : string) : option (string * string * bool) :=
  head (filter (fun entry => snd (fst entry) = field) knownLabels).

(** The described content of a field after the labelled pass. *)
Definition described (response type : string) (field : string) : option value :=
  match labelOf field with
  | Some entry => labelled (responseLines response) entry
  | None =>
      if String.eqb field "type" then Some (Str type)
      else if String.eqb field "raw" then Some (Str response)
      else None
  end.

(** The lines the fallback draws from: longer than 10 characters and
    not starting with two slashes. *)
Definition candidates (response : string) : list string :=
  filter (fun l => (10 < JS.String_length l)%nat /\ JS.startsWith "//" l = false)
    (responseLines response).

(** A field that holds nothing to show: it was not set, or it was set
    to the empty string. *)
Definition noValue (v : option value) : bool :=
  match v with
  | None => true
  | Some (Str EmptyString) => true
  | Some (Str (String _ _)) => false
  | Some (Arr _) => false
  end.

(** The described exercise when the fallback applies: the first
    candidate is the question and the next one, when present, the answer. *)
Definition withFallback (response type : string) (field : string) : option value :=
  match candidates response with
  | [] => described response type field
  | first :: rest =>
      if String.eqb field "question" then Some (Str first)
      else if String.eqb field "answer"
      then match rest with
           | second :: _ => Some (Str second)
           | [] => described response type field
           end
      else described response type field
  end.

(** The described exercise, field by field. *)
Definition describedExercise (response type : string) (field : string) : option value :=
  if noValue (described response type "question")
     && noValue (described response type "word")
     && noValue (described response type "sentence")
     && noValue (described response type "prompt")
  then withFallback response type field
  else described response type field.

(** One conditional assignment of [parseLine], by its table entry. *)
Definition assignEntry (trimmedLine : string) (exercise : gmap string value)
    (entry : string * string * bool) : gmap string value :=
  let '(label, field, isList) := entry in
  if isList then assignList label field trimmedLine exercise
  else assign label field trimmedLine exercise.

(** Two answers of the model: one in the requested format, one without
    labels. *)
Definition labelledAnswer : string :=
  "  question: I love learning new languages." +:+ String JS.newline
  ("ANSWER:   Me encanta aprender nuevos idiomas.  " +:+ String JS.newline
  ("OPTIONS: a | b ||  c |")).

Definition plainAnswer : string :=
  "// no labels" +:+ String JS.newline
  ("The capital of France is Paris." +:+ String JS.newline
  ("short" +:+ String JS.newline "   Paris is the capital.")).

End AIPracticeMode.

(** ** Notions used in the statements *)

Definition blank (s : string) : bool :=
  negb (JS.truthy s) || negb (JS.truthy (JS.trim s)).



Definition dictionary_in_flight : Dictionary.t :=
  fst (Dictionary.queryAI_start (Dictionary.TranslatePrompt "English" "Tamil" "cat")
         Dictionary.constructor).

(** The dictionary fields no operation writes. *)
Definition same_configuration (d d' : Dictionary.t) : Prop :=
  Dictionary.apiProvider d' = Dictionary.apiProvider d /\
  Dictionary.apiKey d' = Dictionary.apiKey d /\
  Dictionary.apiEndpoint d' = Dictionary.apiEndpoint d /\
  Dictionary.supportedLanguages d' = Dictionary.supportedLanguages d /\
  Dictionary.cacheExpiry d' = Dictionary.cacheExpiry d /\
  Dictionary.isOpen d' = Dictionary.isOpen d /\
  Dictionary.currentWord d' = Dictionary.currentWord d /\
  Dictionary.sourceLang d' = Dictionary.sourceLang d /\
  Dictionary.targetLang d' = Dictionary.targetLang d.

(** The tracker after [updateModuleProgress('alphabets', 50)] and
    [markComplete('grammar')]: 0.25 * (50 + 0 + 100 + 0) = 37.5, shown as 38. *)
Definition tracker_example : ProgressTracker.World :=
  ProgressTracker.markComplete
    {| ProgressTracker.firestoreAvailable := false;
       ProgressTracker.firestoreThrows := false;
       ProgressTracker.userConfirms := true |}
    "grammar"
    (ProgressTracker.updateModuleProgress
       {| ProgressTracker.firestoreAvailable := false;
          ProgressTracker.firestoreThrows := false;
          ProgressTracker.userConfirms := true |}
       "alphabets" 50 ProgressTracker.initial).


(** ** Further methods of the progress tracker *)

Module ProgressTrackerExt.

(** [isModuleComplete(moduleName)] *)
Definition isModuleComplete (moduleName : string) (p : ProgressTracker.t) : bool :=
  match ProgressTracker.get moduleName (ProgressTracker.modules p) with
  | Some m => ProgressTracker.completed m
  | None => false
  end.

(** A tracker that was just constructed for a signed-in user, on a page
    that shares the stores of [w]. *)
Definition freshTracker (user : ProgressTracker.User) (w : ProgressTracker.World)
  : ProgressTracker.World :=
  {| ProgressTracker.tracker :=
       {| ProgressTracker.modules := ProgressTracker.modules ProgressTracker.constructor;
          ProgressTracker.currentUser := Some user;
          ProgressTracker.userId := Some (ProgressTracker.uid user);
          ProgressTracker.initialized := false |};
     ProgressTracker.sessionStorage := ProgressTracker.sessionStorage w;
     ProgressTracker.firestore := ProgressTracker.firestore w |}.

(** The environment in which Firestore works and the user confirms. *)
Definition online : ProgressTracker.Env :=
  {| ProgressTracker.firestoreAvailable := true;
     ProgressTracker.firestoreThrows := false;
     ProgressTracker.userConfirms := true |}.

Definition learner : ProgressTracker.User :=
  {| ProgressTracker.uid := "u1"; ProgressTracker.email := "learner@example.org" |}.

(** The learner's tracker after [markComplete('grammar')]. *)
Definition signedIn : ProgressTracker.World :=
  ProgressTracker.markComplete online "grammar" (freshTracker learner ProgressTracker.initial).

End ProgressTrackerExt.


(** ** Further methods of the translation widget *)

Module TranslationWidgetExt.

(** The state part of [revertTranslation()]: the flag is cleared and the
    cache emptied. *)
Definition revertTranslation (w : TranslationWidget.t) : TranslationWidget.t :=
  {| TranslationWidget.isTranslated := false;
     TranslationWidget.targetLanguage := TranslationWidget.targetLanguage w;
     TranslationWidget.translationCache := ∅;
     TranslationWidget.translationAPIs := TranslationWidget.translationAPIs w;
     TranslationWidget.currentAPIIndex := TranslationWidget.currentAPIIndex w |}.

(** [textNodes.slice(i, i + batchSize)] *)
Definition slice {A} (i j : nat) (l : list A) : list A := take (j - i) (drop i l).

Definition batchSize : nat := 5.

(** The loop of [translateAllNodes] that cuts the nodes into batches:
    [for (let i = 0; i < textNodes.length; i += batchSize)
       batches.push(textNodes.slice(i, i + batchSize))].
    [fuel] bounds the number of iterations. *)
Fixpoint batchesFrom {A} (fuel i : nat) (textNodes : list A) : list (list A) :=
  match fuel with
  | O => []
  | S fuel' =>
      if (i <? length textNodes)%nat
      then slice i (i + batchSize) textNodes :: batchesFrom fuel' (i + batchSize) textNodes
      else []
  end.

Definition batches {A} (textNodes : list A) : list (list A) :=
  batchesFrom (length textNodes) 0 textNodes.

(** The character classes [\d], [\w] and the class [[\d\s\W]]. *)
Definition isDigit (c : ascii) : bool :=
  let n := nat_of_ascii c in (48 <=? n)%nat && (n <=? 57)%nat.

Definition isLetter (c : ascii) : bool :=
  let n := nat_of_ascii c in
  ((65 <=? n)%nat && (n <=? 90)%nat) || ((97 <=? n)%nat && (n <=? 122)%nat).

Definition isWord (c : ascii) : bool :=
  isLetter c || isDigit c || Ascii.eqb c "_"%char.

Definition notText (c : ascii) : bool :=
  isDigit c || JS.is_space c || negb (isWord c).

Fixpoint all (p : ascii -> bool) (s : string) : bool :=
  match s with
  | EmptyString => true
  | String c s' => p c && all p s'
  end.

(** [originalText.length < 2 || /^[\d\s\W]+$/.test(originalText)]: the
    texts [translateAllNodes] does not send to the translator. *)
Definition skipped (originalText : string) : bool :=
  (String.length originalText <? 2)%nat
  || (JS.truthy originalText && all notText originalText).

(** A string has a letter or an underscore. *)
Fixpoint hasLetter (s : string) : bool :=
  match s with
  | EmptyString => false
  | String c s' => isLetter c || Ascii.eqb c "_"%char || hasLetter s'
  end.

(** The widget keeps an index of its list and caches no empty
    translation. *)
Definition wellFormed (w : TranslationWidget.t) : Prop :=
  (TranslationWidget.currentAPIIndex w < length (TranslationWidget.translationAPIs w))%nat /\
  map_Forall (fun _ translated => translated <> "") (TranslationWidget.translationCache w).

End TranslationWidgetExt.


(** ** Further methods of the dictionary *)

Module DictionaryExt.

(** An entry of the search history kept in [localStorage] under
    [dictionaryHistory]. *)
Record SearchItem := {
  word : string;
  sourceLang : string;
  targetLang : string;
  timestamp : Z
}.

(** [this.supportedLanguages[code]] is truthy: the language objects and
    the inherited properties are. *)
Definition known (d : Dictionary.t) (code : string) : bool :=
  bool_decide (is_Some (Dictionary.supportedLanguages d !! code))
  || bool_decide (code ∈ JSObject.inherited).

(** [this.supportedLanguages[item.sourceLang] &&
     this.supportedLanguages[item.targetLang]] *)
Definition supported (d : Dictionary.t) (item : SearchItem) : bool :=
  known d (sourceLang item) && known d (targetLang item).

(** [loadSearchHistory()], as far as it writes the stored history;
    [container] tells whether the element [historyItems] is on the page. *)
Definition loadSearchHistory (container : bool) (d : Dictionary.t)
    (stored : list SearchItem) : list SearchItem :=
  if negb container then stored
  else
    match stored with
    | [] => stored
    | _ :: _ =>
        match filter (fun item => supported d item = true) stored with
        | [] => stored
        | validHistory => validHistory
        end
    end.

(** [addToHistory(word, sourceLang, targetLang)] at time [now]: the
    stored history after the call. *)
Definition addToHistory (now : Z) (container : bool) (w sl tl : string)
    (d : Dictionary.t) (stored : list SearchItem) : list SearchItem :=
  let history :=
    {| word := w; sourceLang := sl; targetLang := tl; timestamp := now |} :: stored in
  let history := take 10 history in
  loadSearchHistory container d history.

(** The number of hyphens in a string. *)
Fixpoint hyphens (s : string) : nat :=
  match s with
  | EmptyString => O
  | String c s' => (if Ascii.eqb c "-"%char then 1 else 0) + hyphens s'
  end.

(** A dictionary that has looked up a word. *)
Definition afterLookup : Dictionary.t :=
  fst (Dictionary.lookup_finish 1000 1001 " cat " "en" "ta"
         (Dictionary.Content "TRANSLATION: poonai") dictionary_in_flight).

End DictionaryExt.


(** ** Further methods of the chat assistant *)

Module AIAssistantExt.

Definition set_apiProvider (p : string) (a : AIAssistant.t) : AIAssistant.t := {|
  AIAssistant.apiProvider := p;
  AIAssistant.currentOllamaModel := AIAssistant.currentOllamaModel a;
  AIAssistant.conversationHistory := AIAssistant.conversationHistory a;
  AIAssistant.maxHistoryLength := AIAssistant.maxHistoryLength a;
  AIAssistant.isProcessing := AIAssistant.isProcessing a;
  AIAssistant.selectedLanguage := AIAssistant.selectedLanguage a
|}.

Definition set_selectedLanguage (l : string) (a : AIAssistant.t) : AIAssistant.t := {|
  AIAssistant.apiProvider := AIAssistant.apiProvider a;
  AIAssistant.currentOllamaModel := AIAssistant.currentOllamaModel a;
  AIAssistant.conversationHistory := AIAssistant.conversationHistory a;
  AIAssistant.maxHistoryLength := AIAssistant.maxHistoryLength a;
  AIAssistant.isProcessing := AIAssistant.isProcessing a;
  AIAssistant.selectedLanguage := l
|}.

(** [languageMap]: the name and the speech code of each language. *)
Definition languageMap : gmap string (string * string) :=
  <["auto" := ("Auto (User's language)", "en-US")]>
  (<["english" := ("English", "en-US")]>
  (<["tamil" := ("Tamil - தமிழ்", "ta-IN")]>
  (<["spanish" := ("Español (Spanish)", "es-ES")]>
  (<["french" := ("Français (French)", "fr-FR")]>
  (<["german" := ("Deutsch (German)", "de-DE")]>
  (<["japanese" := ("日本語 (Japanese)", "ja-JP")]>
  (<["hindi" := ("हिन्दी (Hindi)", "hi-IN")]> ∅))))))).

(** [setProvider(provider)] *)
Definition setProvider (provider : string) (a : AIAssistant.t) : AIAssistant.t * bool :=
  if AIAssistant.validProvider provider
  then (set_apiProvider provider a, true)
  else (a, false).

(** [setLanguage(language)] *)
Definition setLanguage (language : string) (a : AIAssistant.t) : AIAssistant.t * bool :=
  match languageMap !! language with
  | Some _ => (set_selectedLanguage language a, true)
  | None => (a, false)
  end.

(** [getCurrentLanguage()]: code, name and speech code, for a selected
    language that is a key of [languageMap]; for any other the method
    reads [Object.prototype] or throws, and the result is [None] here. *)
Definition getCurrentLanguage (a : AIAssistant.t) : option (string * string * string) :=
  match languageMap !! AIAssistant.selectedLanguage a with
  | Some (name, code) => Some (AIAssistant.selectedLanguage a, name, code)
  | None => None
  end.

(** A chat message of the request to Groq. *)
Record Message := {
  role : string;
  content : string
}.

(** The [messages] that [queryGroq(prompt)] sends, for the system prompt
    [systemPrompt] that [getSystemPrompt(prompt)] built. *)
Definition groqMessages (systemPrompt prompt : string) (a : AIAssistant.t) : list Message :=
  [ {| role := "system"; content := systemPrompt |} ]
  ++ concat (map (fun item =>
                    [ {| role := "user"; content := AIAssistant.user item |};
                      {| role := "assistant"; content := AIAssistant.assistant item |} ])
               (JS.Array_slice (-5) (AIAssistant.conversationHistory a)))
  ++ [ {| role := "user"; content := prompt |} ].

(** The object [testConnection] returns. *)
Record TestResult := {
  success : bool;
  provider : string;
  response : string
}.

(** [testConnection] before its request settles: it has returned, or the
    request is in flight and the method holds [originalProvider] and
    [testProvider]. *)
Inductive testing :=
| Tested (r : TestResult)
| Testing (originalProvider testProvider : string).

Definition testPrompt : string := "Hello, test connection".

(** [testConnection(provider)] up to the request; [None] is the default
    [null]. *)
Definition testConnection_start (provider : option string) (a : AIAssistant.t)
  : AIAssistant.t * testing :=
  let given := match provider with
               | Some p => if JS.truthy p then Some p else None
               | None => None
               end in
  let testProvider := default (AIAssistant.apiProvider a) given in
  let originalProvider := AIAssistant.apiProvider a in
  let a1 := match given with
            | Some p => set_apiProvider p a
            | None => a
            end in
  match AIAssistant.sendMessage_start testPrompt a1 with
  | (a2, AIAssistant.Returned reply) =>
      (set_apiProvider originalProvider a2,
       Tested {| success := true; provider := testProvider; response := reply |})
  | (a2, AIAssistant.Requested _) => (a2, Testing originalProvider testProvider)
  end.

(** [testConnection] once the request of [sendMessage] has settled. *)
Definition testConnection_finish (now originalProvider testProvider : string)
    (o : AIAssistant.outcome) (a : AIAssistant.t) : AIAssistant.t * TestResult :=
  let '(a1, reply) := AIAssistant.sendMessage_finish now testPrompt o a in
  (set_apiProvider originalProvider a1,
   {| success := true; provider := testProvider; response := reply |}).

(** The methods of the assistant other than [testConnection]. *)
Inductive operation :=
| SetProvider (provider : string)
| SetLanguage (language : string)
| ClearHistory
| SendMessage_start (prompt : string)
| SendMessage_finish (now prompt : string) (o : AIAssistant.outcome).

Definition run (a : AIAssistant.t) (o : operation) : AIAssistant.t :=
  match o with
  | SetProvider provider => fst (setProvider provider a)
  | SetLanguage language => fst (setLanguage language a)
  | ClearHistory => AIAssistant.clearHistory a
  | SendMessage_start prompt => fst (AIAssistant.sendMessage_start prompt a)
  | SendMessage_finish now prompt o => fst (AIAssistant.sendMessage_finish now prompt o a)
  end.

(** The states the constructor and these methods lead to. *)
Definition reachable (a : AIAssistant.t) : Prop :=
  exists ops, a = fold_left run ops AIAssistant.constructor.

(** What the methods keep. *)
Definition assistant_ok (a : AIAssistant.t) : Prop :=
  (length (AIAssistant.conversationHistory a) <= 10)%nat /\
  AIAssistant.maxHistoryLength a = 10%Z /\
  AIAssistant.validProvider (AIAssistant.apiProvider a) = true /\
  is_Some (languageMap !! AIAssistant.selectedLanguage a).

(** A session: the language is set, a message is sent and answered. *)
Definition session : list operation :=
  [ SetLanguage "tamil"; SetProvider "mistral"; SendMessage_start "vanakkam";
    SendMessage_finish "2024-01-01T00:00:00.000Z" "vanakkam" (AIAssistant.Answer "Hello!") ].

End AIAssistantExt.


(** ** The translator (class [Translator] of js/page-connection.js) *)

Module Translator.

(** The object [translate] resolves to; [service] is absent from the
    object of a failure and [error] from the object of a success. *)
Record Result := {
  original : string;
  translated : string;
  sourceLang : string;
  targetLang : string;
  confidence : Q;
  service : option string;
  error : bool
}.

Record t := {
  cache : gmap string Result;
  isProcessing : bool
}.

Definition constructor : t := {| cache := ∅; isProcessing := false |}.

Definition set_isProcessing (b : bool) (tr : t) : t :=
  {| cache := cache tr; isProcessing := b |}.

Definition cacheKey (text sourceLang targetLang : string) : string :=
  text +:+ "-" +:+ sourceLang +:+ "-" +:+ targetLang.

(** The object returned by the [catch] of [translate]. *)
Definition failure (text sourceLang targetLang : string) : Result := {|
  original := text;
  translated := text;
  sourceLang := sourceLang;
  targetLang := targetLang;
  confidence := 0;
  service := None;
  error := true
|}.

(** [translate] before its request settles: its promise is rejected, or
    resolved, or the request for [text] is in flight. *)
Inductive started :=
| Rejected (message : string)
| Resolved (r : Result)
| Requested (text sourceLang targetLang : string).

(** [translate(text, sourceLang, targetLang)] up to the [fetch] of
    [queryAI]; the error of a busy [queryAI] is caught. *)
Definition translate_start (text sourceLang targetLang : string) (tr : t) : t * started :=
  if negb (JS.truthy text) || negb (JS.truthy (JS.trim text))
  then (tr, Rejected "Text cannot be empty")
  else
    match cache tr !! cacheKey text sourceLang targetLang with
    | Some cached => (tr, Resolved cached)
    | None =>
        if isProcessing tr
        then (tr, Resolved (failure text sourceLang targetLang))
        else (set_isProcessing true tr, Requested text sourceLang targetLang)
    end.

(** How the request settles: [queryAI] throws (the fetch is rejected, the
    status is not ok, the body is not of the expected shape), or it
    returns the trimmed content. *)
Inductive response :=
| Failed
| Content (text : string).

(** [translate] once the request has settled. *)
Definition translate_finish (text sourceLang targetLang : string) (r : response) (tr : t)
  : t * Result :=
  match r with
  | Content c =>
      let result := {| original := text;
                       translated := JS.trim (Dictionary.remove_quotes (JS.trim c));
                       sourceLang := sourceLang;
                       targetLang := targetLang;
                       confidence := 95 # 100;
                       service := Some "Translator AI";
                       error := false |} in
      ({| cache := <[cacheKey text sourceLang targetLang := result]> (cache tr);
          isProcessing := false |},
       result)
  | Failed => (set_isProcessing false tr, failure text sourceLang targetLang)
  end.

(** The calls of [texts.map(text => this.translate(...))], each up to its
    first suspension, in the order of [texts]. *)
Fixpoint translateBatch_start (texts : list string) (sourceLang targetLang : string) (tr : t)
  : t * list started :=
  match texts with
  | [] => (tr, [])
  | text :: rest =>
      let '(tr1, s) := translate_start text sourceLang targetLang tr in
      let '(tr2, ss) := translateBatch_start rest sourceLang targetLang tr1 in
      (tr2, s :: ss)
  end.

(** What [Promise.all] settles to. *)
Inductive batch :=
| Fulfilled (results : list Result)
| RejectedWith (message : string).

(** The pending calls settle; every request of the batch gets the
    response [r]. *)
Fixpoint settle (r : response) (calls : list started) (tr : t) : t * batch :=
  match calls with
  | [] => (tr, Fulfilled [])
  | call :: rest =>
      let '(tr1, first) :=
        match call with
        | Rejected message => (tr, inr message)
        | Resolved res => (tr, inl res)
        | Requested text sourceLang targetLang =>
            let '(tr', res) := translate_finish text sourceLang targetLang r tr in
            (tr', inl res)
        end in
      let '(tr2, others) := settle r rest tr1 in
      (tr2,
       match first, others with
       | inr message, _ => RejectedWith message
       | inl res, Fulfilled results => Fulfilled (res :: results)
       | inl _, RejectedWith message => RejectedWith message
       end)
  end.

(** [translateBatch(texts, sourceLang, targetLang)] *)
Definition translateBatch (texts : list string) (sourceLang targetLang : string)
    (r : response) (tr : t) : t * batch :=
  let '(tr1, calls) := translateBatch_start texts sourceLang targetLang tr in
  settle r calls tr1.

Definition isRequested (s : started) : bool :=
  match s with
  | Requested _ _ _ => true
  | _ => false
  end.

End Translator.


(** ** Navigation of the page manager (js/page-connection.js) *)

Module Navigation.

(** [s.replace(pattern, '')] for a literal [pattern] that is not empty:
    the first occurrence is removed. *)
Fixpoint replaceFirst (pattern s : string) : string :=
  if JS.startsWith pattern s
  then JS.substring_from (String.length pattern) s
  else match s with
       | EmptyString => EmptyString
       | String c s' => String c (replaceFirst pattern s')
       end.

Definition slash : ascii := ascii_of_nat 47.

(** [path.split('/').pop()] *)
Definition lastSegment (path : string) : string :=
  List.last (JS.split slash path) EmptyString.

(** The page that [extractPageFromUrl] makes of the [pathname] of the
    parsed URL. *)
Definition pageOfPath (path : string) : string :=
  let page := replaceFirst ".html" (lastSegment path) in
  if JS.truthy page then page else "home".

Record Entry := {
  page : string;
  timestamp : Z
}.

(** The manager and the parts of the browser its navigation writes:
    the HTML of the content area, [window.location.href] once assigned,
    the calls of [history.pushState] (page and URL) and the number of
    calls of [history.back]. *)
Record t := {
  currentPage : string;
  navigationHistory : list Entry;
  content : option string;
  location : option string;
  pushState : list (string * string);
  back : nat
}.

Definition constructor : t := {|
  currentPage := "";
  navigationHistory := [];
  content := None;
  location := None;
  pushState := [];
  back := 0
|}.

Definition requiresAuthentication (page : string) : bool :=
  negb (bool_decide (page ∈ ["botinteraction"])).

Definition redirectToAuth (m : t) : t := {|
  currentPage := currentPage m;
  navigationHistory := navigationHistory m;
  content := content m;
  location := Some "../pages/botinteraction.html";
  pushState := pushState m;
  back := back m
|}.

Definition set_navigationHistory (h : list Entry) (m : t) : t := {|
  currentPage := currentPage m;
  navigationHistory := h;
  content := content m;
  location := location m;
  pushState := pushState m;
  back := back m
|}.

Section Browser.

(** The environment: [pathname url] is the [pathname] of
    [new URL(url, window.location.origin)], [None] when the constructor
    throws; [authenticated] is [authManager.isAuthenticated()]; [fetch] maps
    what is requested to the outcome of the request. *)
Variable pathname : string -> option string.
Variable authenticated : bool.
Variable fetch :
  option PageConnectionManager.target
  -> PageConnectionManager.settled PageConnectionManager.Response.

(** [extractPageFromUrl(url)] *)
Definition extractPageFromUrl (url : string) : option string :=
  match pathname url with
  | Some path => Some (pageOfPath path)
  | None => None
  end.

(** [fetchPageContent(page)] *)
Definition fetchPageContent (page : string) : PageConnectionManager.result :=
  PageConnectionManager.fetchPageContent fetch page.

(** [loadPage(page)]: an error of [fetchPageContent] is caught and
    logged. *)
Definition loadPage (page : string) (m : t) : t :=
  match fetchPageContent page with
  | PageConnectionManager.Return html => {|
      currentPage := page;
      navigationHistory := navigationHistory m;
      content := Some html;
      location := location m;
      pushState := pushState m;
      back := back m |}
  | PageConnectionManager.Throw _ => m
  end.

(** [navigateTo(url)] at time [now], run to its end; [None] when the URL
    does not parse and the method throws before it changes anything. *)
Definition navigateTo (now : Z) (url : string) (m : t) : option t :=
  match extractPageFromUrl url with
  | None => None
  | Some targetPage =>
      let m1 := set_navigationHistory
                  (navigationHistory m ++ [ {| page := currentPage m; timestamp := now |} ]) m in
      if requiresAuthentication targetPage && negb authenticated
      then Some (redirectToAuth m1)
      else
        let m2 := loadPage targetPage m1 in
        Some {| currentPage := currentPage m2;
                navigationHistory := navigationHistory m2;
                content := content m2;
                location := location m2;
                pushState := pushState m2 ++ [ (targetPage, url) ];
                back := back m2 |}
  end.

(** [goBack()] at time [now]; the promise of [navigateTo] is not
    awaited, a rejection of it changes nothing more. *)
Definition goBack (now : Z) (m : t) : t :=
  match List.last (map Some (navigationHistory m)) None with
  | Some previous =>
      let m1 := set_navigationHistory (removelast (navigationHistory m)) m in
      default m1 (navigateTo now (page previous) m1)
  | None => {|
      currentPage := currentPage m;
      navigationHistory := navigationHistory m;
      content := content m;
      location := location m;
      pushState := pushState m;
      back := S (back m) |}
  end.

(** A page name that [extractPageFromUrl] gives back when it is passed
    as a URL, as [goBack] does. *)
Definition plain (page : string) : Prop :=
  extractPageFromUrl page = Some page.

(** The page can be shown: the visitor may see it and its content
    arrives. *)
Definition loads (page : string) : Prop :=
  requiresAuthentication page && negb authenticated = false /\
  exists html, fetchPageContent page = PageConnectionManager.Return html.

End Browser.

(** The two navigation methods, each with the state of the visitor and
    of the server at the time of the call. *)
Inductive operation :=
| NavigateTo (authenticated : bool)
    (fetch : option PageConnectionManager.target
             -> PageConnectionManager.settled PageConnectionManager.Response)
    (now : Z) (url : string)
| GoBack (authenticated : bool)
    (fetch : option PageConnectionManager.target
             -> PageConnectionManager.settled PageConnectionManager.Response)
    (now : Z).

Definition run (pathname : string -> option string) (m : t) (o : operation) : t :=
  match o with
  | NavigateTo authenticated fetch now url =>
      default m (navigateTo pathname authenticated fetch now url m)
  | GoBack authenticated fetch now => goBack pathname authenticated fetch now m
  end.

(** A browser for the examples: URLs are paths from the root, the
    visitor is signed in, the server has every page. *)
Definition rooted (url : string) : option string := Some ("/" +:+ url).

Definition everyPage (url : option PageConnectionManager.target)
  : PageConnectionManager.settled PageConnectionManager.Response :=
  PageConnectionManager.Fulfilled
    {| PageConnectionManager.ok := true;
       PageConnectionManager.status := "200";
       PageConnectionManager.text :=
         PageConnectionManager.Fulfilled
           match url with
           | Some (PageConnectionManager.Url u) => u
           | _ => ""
           end |}.

Definition visited : t :=
  default constructor
    (navigateTo rooted true everyPage 2 "grammar"
       (default constructor (navigateTo rooted true everyPage 1 "home" constructor))).

End Navigation.


(** ** Practice mode: the feedback of the tutor and the session score *)

Module PracticeFeedback.

Record Feedback := {
  correct : bool;
  score : Z;
  message : string;
  improvement : string;
  encouragement : string
}.

(** The object [getAIFeedback] starts from. *)
Definition defaults : Feedback := {|
  correct := false;
  score := 0;
  message := "Good effort!";
  improvement := "Keep practicing!";
  encouragement := "You're making progress!"
|}.

Definition set_correct (b : bool) (f : Feedback) : Feedback := {|
  correct := b; score := score f; message := message f;
  improvement := improvement f; encouragement := encouragement f |}.

Definition set_score (n : Z) (f : Feedback) : Feedback := {|
  correct := correct f; score := n; message := message f;
  improvement := improvement f; encouragement := encouragement f |}.

Definition set_message (s : string) (f : Feedback) : Feedback := {|
  correct := correct f; score := score f; message := s;
  improvement := improvement f; encouragement := encouragement f |}.

Definition set_improvement (s : string) (f : Feedback) : Feedback := {|
  correct := correct f; score := score f; message := message f;
  improvement := s; encouragement := encouragement f |}.

Definition set_encouragement (s : string) (f : Feedback) : Feedback := {|
  correct := correct f; score := score f; message := message f;
  improvement := improvement f; encouragement := s |}.

(** [/pattern/i.test(s)] for a literal [pattern]: it occurs somewhere. *)
Fixpoint test_i (pattern s : string) {struct s} : bool :=
  JS.test_prefix_i pattern s ||
  match s with
  | String _ s' => test_i pattern s'
  | EmptyString => false
  end.

Definition isDigit (c : ascii) : bool :=
  let n := nat_of_ascii c in (48 <=? n)%nat && (n <=? 57)%nat.

Fixpoint takeDigits (s : string) : string :=
  match s with
  | String c s' => if isDigit c then String c (takeDigits s') else EmptyString
  | EmptyString => EmptyString
  end.

(** [s.match(/\d+/)]: the first run of digits. *)
Fixpoint matchDigits (s : string) : option string :=
  match s with
  | String c s' => if isDigit c then Some (takeDigits s) else matchDigits s'
  | EmptyString => None
  end.

Fixpoint digitsValue (acc : Z) (digits : string) : Z :=
  match digits with
  | String c s' => digitsValue (10 * acc + Z.of_nat (nat_of_ascii c - 48)) s'
  | EmptyString => acc
  end.

(** [parseInt] of a run of digits. *)
Definition parseInt (digits : string) : Z := digitsValue 0 digits.

(** [response.split('\n').map(l => l.trim()).filter(l => l)] *)
Definition lines (response : string) : list string :=
  filter (fun l => JS.truthy l = true) (map JS.trim (JS.split JS.newline response)).

(** The body of [lines.forEach(line => ...)]. *)
Definition feedbackLine (feedback : Feedback) (line : string) : Feedback :=
  let feedback :=
    if JS.test_prefix_i "CORRECT:" line
    then set_correct (test_i "yes" line) feedback else feedback in
  let feedback :=
    if JS.test_prefix_i "SCORE:" line
    then set_score (match matchDigits line with
                    | Some digits => parseInt digits
                    | None => 0%Z
                    end) feedback
    else feedback in
  let feedback :=
    if JS.test_prefix_i "FEEDBACK:" line
    then set_message (JS.trim (JS.replace_prefix_i "FEEDBACK:" line)) feedback
    else feedback in
  let feedback :=
    if JS.test_prefix_i "IMPROVEMENT:" line
    then set_improvement (JS.trim (JS.replace_prefix_i "IMPROVEMENT:" line)) feedback
    else feedback in
  let feedback :=
    if JS.test_prefix_i "ENCOURAGEMENT:" line
    then set_encouragement (JS.trim (JS.replace_prefix_i "ENCOURAGEMENT:" line)) feedback
    else feedback in
  feedback.

(** [getAIFeedback] from the answer [response] of the API on. *)
Definition getAIFeedback (response : string) : Feedback :=
  let feedback := fold_left feedbackLine (lines response) defaults in
  if negb (JS.truthy (message feedback)) || (JS.String_length (message feedback) <? 5)%nat
  then set_message (if correct feedback
                    then "Your answer is correct!"
                    else "Your answer needs some improvements.") feedback
  else feedback.

(** The answer in the format the prompt asks for. *)
Definition formatted (correct : bool) (digits message improvement encouragement : string)
  : string :=
  ("CORRECT: " +:+ (if correct then "yes" else "no")) +:+ String JS.newline
  (("SCORE: " +:+ digits) +:+ String JS.newline
  (("FEEDBACK: " +:+ message) +:+ String JS.newline
  (("IMPROVEMENT: " +:+ improvement) +:+ String JS.newline
  ("ENCOURAGEMENT: " +:+ encouragement)))).

Fixpoint all (p : ascii -> bool) (s : string) : bool :=
  match s with
  | String c s' => p c && all p s'
  | EmptyString => true
  end.

(** A text that fits on a line of the answer as it is. *)
Definition field (s : string) : Prop :=
  s <> "" /\ JS.trim s = s /\ all (fun c => negb (Ascii.eqb c JS.newline)) s = true.

(** A line that carries none of the five labels. *)
Definition unlabelled (line : string) : Prop :=
  Forall (fun label => JS.test_prefix_i label line = false)
    ["CORRECT:"; "SCORE:"; "FEEDBACK:"; "IMPROVEMENT:"; "ENCOURAGEMENT:"].

(** The session counters. *)
Record Session := {
  sessionScore : Z;
  sessionQuestions : Z
}.

(** [startPractice] resets the counters. *)
Definition startPractice : Session := {| sessionScore := 0; sessionQuestions := 0 |}.

(** [checkAnswer] once the feedback has arrived. *)
Definition checkAnswer (s : Session) (feedback : Feedback) : Session := {|
  sessionScore := if correct feedback then sessionScore s + 1 else sessionScore s;
  sessionQuestions := sessionQuestions s + 1
|}.

(** The accuracy that [backToSelection] reports, when it reports. *)
Definition accuracy (s : Session) : option Z :=
  if (0 <? sessionQuestions s)%Z
  then Some (JS.Math_round
               ((inject_Z (sessionScore s) / inject_Z (sessionQuestions s)) * 100))
  else None.

End PracticeFeedback.


(** ** The learning engine: completing a lesson *)

Module LessonCompletion.

(** The entry of a module in a journey document. *)
Record ModuleData := {
  unlocked : bool;
  completed : bool;
  progress : Q;
  lessonsCompleted : list string;
  lastAccessed : option string;
  completedAt : option string
}.

Record Completion := {
  inModule : string;
  lesson : string;
  score : Q;
  at_ : string;
  timeSpent : Q
}.

(** The fields of a journey document that [updateLessonCompletion] reads
    or writes; [modules] lists the own properties of the object in their
    order, [None] is a missing field. *)
Record JourneyData := {
  targetLanguage : string;
  modules : list (string * ModuleData);
  overallProgress : Q;
  totalTimeSpent : option Q;
  lastLessonCompleted : option Completion;
  lastUpdated : string;
  languageLearned : bool;
  journeyCompletedAt : option string
}.

(** [modules[name]] *)
Fixpoint get (name : string) (ms : list (string * ModuleData)) : option ModuleData :=
  match ms with
  | [] => None
  | (n, m) :: rest => if String.eqb n name then Some m else get name rest
  end.

(** [modules[name] = m] for a name the object has. *)
Fixpoint set (name : string) (m : ModuleData) (ms : list (string * ModuleData))
  : list (string * ModuleData) :=
  match ms with
  | [] => []
  | (n, m0) :: rest =>
      if String.eqb n name then (n, m) :: rest else (n, m0) :: set name m rest
  end.

(** The values of [new Date().toISOString()] at the five places that
    read the clock. *)
Record Clock := {
  accessed : string;
  moduleDone : string;
  lessonDone : string;
  updated : string;
  journeyDone : string
}.

(** The changes to [moduleData]: the lesson is added when it is new, the
    progress is computed from the number of lessons [totalLessons] of the
    module in the curriculum, the module is marked when it reaches 100. *)
Definition completeIn (totalLessons : nat) (clock : Clock) (lessonId : string)
    (moduleData : ModuleData) : ModuleData :=
  let lessonsCompleted :=
    if bool_decide (lessonId ∈ lessonsCompleted moduleData)
    then lessonsCompleted moduleData
    else lessonsCompleted moduleData ++ [lessonId] in
  let completedCount := length lessonsCompleted in
  let progress :=
    if (0 <? totalLessons)%nat
    then inject_Z (JS.Math_round
                     ((inject_Z (Z.of_nat completedCount) / inject_Z (Z.of_nat totalLessons))
                      * 100))
    else 0%Q in
  let finished := Qeq_bool progress 100 && negb (completed moduleData) in
  {| unlocked := unlocked moduleData;
     completed := if finished then true else completed moduleData;
     progress := progress;
     lessonsCompleted := lessonsCompleted;
     lastAccessed := Some (accessed clock);
     completedAt := if finished then Some (moduleDone clock) else completedAt moduleData |}.

(** [moduleWeights[modName] || 0], for a name that is not inherited
    from [Object.prototype]. *)
Definition weight (modName : string) : Q :=
  if bool_decide (modName ∈ ["alphabets"; "vocabulary"; "grammar"; "assessment"])
  then 25%Q else 0%Q.

(** The overall progress: the weighted sum, rounded and capped. *)
Definition overall (ms : list (string * ModuleData)) : Q :=
  JS.Math_min 100%Q
    (inject_Z (JS.Math_round
       (fold_left
          (fun sum entry => (sum + (progress (snd entry) / 100) * weight (fst entry))%Q)
          ms 0%Q))).

Definition moduleOrder : list string := ["alphabets"; "vocabulary"; "grammar"; "assessment"].

Fixpoint indexOf (x : string) (l : list string) : option nat :=
  match l with
  | [] => None
  | y :: rest => if String.eqb y x then Some 0%nat else option_map S (indexOf x rest)
  end.

(** [getNextModule(currentModule)] *)
Definition getNextModule (currentModule : string) : option string :=
  match indexOf currentModule moduleOrder with
  | None => None
  | Some currentIndex =>
      if (currentIndex =? length moduleOrder - 1)%nat then None
      else moduleOrder !! S currentIndex
  end.

(** The object returned on success. *)
Record Result := {
  moduleProgress : Q;
  resultOverallProgress : Q;
  moduleCompleted : bool;
  resultLanguageLearned : bool;
  nextModule : option string;
  completedLessons : nat;
  totalLessons : nat
}.

(** What a successful call leaves: the document in Firestore after
    [updateDoc], the journey written to [localStorage], the result. *)
Record Saved := {
  firestore : JourneyData;
  cache : JourneyData;
  result : Result
}.

(** [!userId || !module || !lessonId] *)
Definition missing (userId module lessonId : string) : bool :=
  negb (JS.truthy userId) || negb (JS.truthy module) || negb (JS.truthy lessonId).

(** [updateLessonCompletion(userId, module, lessonId, score, timeSpent)]
    for a user whose journey document [journeyData] exists, when
    [updateDoc] succeeds; [total] is the number of lessons
    [getModuleLessons(module, journeyData.targetLanguage)] has.  [None]
    when a parameter is missing or the journey has no such module, and the
    method reports a failure. *)
Definition updateLessonCompletion (total : nat) (clock : Clock)
    (userId module lessonId : string) (score timeSpent : Q) (journeyData : JourneyData)
  : option Saved :=
  if missing userId module lessonId then None else
  match get module (modules journeyData) with
  | None => None
  | Some moduleData =>
      let moduleData := completeIn total clock lessonId moduleData in
      let modules := set module moduleData (modules journeyData) in
      let overallProgress := overall modules in
      let allModulesComplete := forallb (fun entry => completed (snd entry)) modules in
      Some {|
        firestore := {|
          targetLanguage := targetLanguage journeyData;
          modules := modules;
          overallProgress := overallProgress;
          totalTimeSpent := Some (JS.or_zero (totalTimeSpent journeyData) + timeSpent)%Q;
          lastLessonCompleted := Some {| inModule := module; lesson := lessonId;
                                         score := score; at_ := lessonDone clock;
                                         timeSpent := timeSpent |};
          lastUpdated := updated clock;
          languageLearned := if allModulesComplete then true else languageLearned journeyData;
          journeyCompletedAt := if allModulesComplete then Some (journeyDone clock)
                                else journeyCompletedAt journeyData |};
        cache := {|
          targetLanguage := targetLanguage journeyData;
          modules := modules;
          overallProgress := overallProgress;
          totalTimeSpent := totalTimeSpent journeyData;
          lastLessonCompleted := lastLessonCompleted journeyData;
          lastUpdated := updated clock;
          languageLearned := languageLearned journeyData;
          journeyCompletedAt := journeyCompletedAt journeyData |};
        result := {|
          moduleProgress := progress moduleData;
          resultOverallProgress := overallProgress;
          moduleCompleted := completed moduleData;
          resultLanguageLearned := allModulesComplete;
          nextModule := getNextModule module;
          completedLessons := length (lessonsCompleted moduleData);
          totalLessons := total |}
      |}
  end.

(** The lessons [lessons] of a module completed one after the other,
    each call reading the document the call before it wrote. *)
Fixpoint study (total : nat) (clock : Clock) (userId module : string)
    (lessons : list string) (journeyData : JourneyData) : option JourneyData :=
  match lessons with
  | [] => Some journeyData
  | lessonId :: rest =>
      match updateLessonCompletion total clock userId module lessonId 100 60 journeyData with
      | Some saved => study total clock userId module rest (firestore saved)
      | None => None
      end
  end.

(** The journey [initializeUserJourney] creates, and a clock. *)
Definition fresh : ModuleData := {|
  unlocked := true; completed := false; progress := 0%Q;
  lessonsCompleted := []; lastAccessed := None; completedAt := None |}.

Definition newJourney : JourneyData := {|
  targetLanguage := "en";
  modules := [ ("alphabets", fresh); ("vocabulary", fresh);
               ("grammar", fresh); ("assessment", fresh) ];
  overallProgress := 0%Q;
  totalTimeSpent := Some 0%Q;
  lastLessonCompleted := None;
  lastUpdated := "2024-01-01T00:00:00.000Z";
  languageLearned := false;
  journeyCompletedAt := None
|}.

Definition noon : Clock := {|
  accessed := "2024-01-02T12:00:00.000Z";
  moduleDone := "2024-01-02T12:00:00.001Z";
  lessonDone := "2024-01-02T12:00:00.002Z";
  updated := "2024-01-02T12:00:00.003Z";
  journeyDone := "2024-01-02T12:00:00.004Z"
|}.

End LessonCompletion.

(** ** Theorems *)

Lemma Array_slice_last {A} (n : Z) (l : list A) :
  (0 < n)%Z ->
  JS.Array_slice (- n) l = drop (length l - Z.to_nat n) l.
Proof.
  intros Hn. unfold JS.Array_slice.
  destruct (Z.ltb_spec (- n) 0) as [_|Hge]; [|lia].
  f_equal. lia.
Qed.

(** C10. After [addToHistory] the history holds at most [maxHistoryLength]
    (10) entries, and it is the longest suffix of at most ten entries of the
    old history followed by the new entry: the most recent entries in their
    original order. *)
Theorem addToHistory_bounded (now u r : string) (a : AIAssistant.t) :
  AIAssistant.maxHistoryLength a = 10%Z ->
  let pushed := AIAssistant.conversationHistory a ++
                  [ {| AIAssistant.user := u; AIAssistant.assistant := r;
                       AIAssistant.timestamp := now;
                       AIAssistant.language := AIAssistant.selectedLanguage a |} ] in
  let h' := AIAssistant.conversationHistory (AIAssistant.addToHistory now u r a) in
  (length h' <= 10)%nat /\
  h' = drop (length pushed - 10) pushed /\
  (exists older, pushed = older ++ h') /\
  AIAssistant.maxHistoryLength (AIAssistant.addToHistory now u r a) = 10%Z.
Proof.
  intros Hmax pushed h'. subst h'. unfold AIAssistant.addToHistory.
  fold pushed. rewrite Hmax.
  destruct (Z.ltb_spec 10 (Z.of_nat (length pushed))) as [Hlt|Hle];
    cbn [AIAssistant.conversationHistory AIAssistant.set_conversationHistory
         AIAssistant.maxHistoryLength].
  - rewrite Array_slice_last by lia. change (Z.to_nat 10) with 10%nat.
    repeat split.
    + rewrite length_drop. lia.
    + exists (take (length pushed - 10) pushed). by rewrite take_drop.
    + done.
  - assert (length pushed - 10 = 0)%nat as -> by lia. rewrite drop_0.
    repeat split; [lia | by exists [] | done].
Qed.

Lemma addToHistory_bounded_witness :
  AIAssistant.maxHistoryLength AIAssistant.constructor = 10%Z /\
  (length (AIAssistant.conversationHistory
     (AIAssistant.addToHistory "t" "hi" "hello" AIAssistant.constructor)) <= 10)%nat.
Proof.
  split; [reflexivity|].
  apply (addToHistory_bounded "t" "hi" "hello" AIAssistant.constructor).
  reflexivity.
Defined.

(** The other method that writes the history empties it. *)
Lemma clearHistory_bounded (a : AIAssistant.t) :
  (length (AIAssistant.conversationHistory (AIAssistant.clearHistory a)) <= 10)%nat.
Proof. simpl. lia. Qed.

(** *** The busy flags *)




(** *** The dictionary leaves the assistant alone *)




Lemma queryAI_finish_configuration r d :
  same_configuration d (fst (Dictionary.queryAI_finish r d)).
Proof. repeat split. Qed.




(** *** The progress tracker *)

Section ProgressTrackerFacts.

Import ProgressTracker.
Local Open Scope Q_scope.

Lemma weight_quarter key : weight key = 1 # 4.
Proof.
  unfold weight, moduleWeights.
  destruct (_ !! key) as [w|] eqn:E; [|reflexivity].
  repeat (apply lookup_insert_Some in E as [[_ <-]|[_ E]]; [reflexivity|]).
  by rewrite lookup_empty in E.
Qed.


Lemma keys_update key f ms : map fst (update key f ms) = map fst ms.
Proof.
  unfold update. rewrite map_map. apply map_ext.
  intros [k m]; simpl. by destruct (String.eqb k key).
Qed.

Lemma Forall_update (P : LearningModule -> Prop) key f ms :
  (forall m, P m -> P (f m)) ->
  Forall (fun km => P (snd km)) ms ->
  Forall (fun km => P (snd km)) (update key f ms).
Proof.
  intros Hf. unfold update. induction 1 as [|[k m] ms Hm _ IH]; simpl; constructor; auto.
  destruct (String.eqb k key); simpl; auto.
Qed.

Lemma clamp_in_range percentage :
  in_range (JS.Math_min 100 (JS.Math_max 0 percentage)).
Proof.
  split.
  - apply Q.min_glb; [discriminate | apply Q.le_max_l].
  - apply Q.le_min_l.
Qed.

Lemma or_zero_in_range v :
  (forall q, v = Some q -> in_range q) -> in_range (JS.or_zero v).
Proof.
  intros H. unfold JS.or_zero. destruct v as [q|].
  - destruct (Qeq_bool q 0); [split; discriminate | by apply H].
  - split; discriminate.
Qed.

Lemma set_progress_ok q m : in_range q -> module_ok (set_progress q m).
Proof. intros Hq q' [= <-]. exact Hq. Qed.

Lemma set_completed_ok b m : module_ok m -> module_ok (set_completed b m).
Proof. intros Hm q Hq. by apply Hm. Qed.

Lemma stringify_ok ms :
  Forall (fun km => module_ok (snd km)) ms ->
  Forall (fun ks => saved_ok (snd ks)) (stringify ms).
Proof.
  unfold stringify. induction 1 as [|[k m] ms Hm _ IH]; simpl; constructor; auto.
Qed.

Lemma merge_ok written stored :
  Forall (fun ks => saved_ok (snd ks)) written ->
  Forall (fun ks => saved_ok (snd ks)) stored ->
  Forall (fun ks => saved_ok (snd ks)) (merge written stored).
Proof.
  intros Hw Hs. unfold merge. apply Forall_app. split; [done|].
  apply Forall_forall. intros x Hx. apply list_elem_of_filter in Hx as [_ Hx].
  revert x Hx. by apply Forall_forall.
Qed.


Lemma restore_keys savedModules ms :
  map fst (restore savedModules ms) = map fst ms.
Proof.
  unfold restore. revert ms.
  induction savedModules as [|[k s] savedModules IH]; intros ms; simpl; [done|].
  rewrite IH. destruct (get k ms); [apply keys_update | done].
Qed.

Lemma saveProgress_Inv e w : Inv w -> Inv (saveProgress e w).
Proof.
  intros (Hm & Hs & Hf). unfold saveProgress, Inv; simpl.
  split; [done|]. split; [by apply stringify_ok|].
  intros u savedModules.
  destruct (effectiveUserId (tracker w)) as [u'|]; [|apply Hf].
  destruct (JS.truthy u' && firestoreAvailable e && negb (firestoreThrows e)); [|apply Hf].
  rewrite lookup_insert. case_decide as Hu; [|apply Hf].
  intros [= <-]. apply merge_ok; [by apply stringify_ok|].
  destruct (firestore w !! u') as [old|] eqn:E; simpl; [by eapply Hf | constructor].
Qed.

Lemma saveProgress_tracker e w : tracker (saveProgress e w) = tracker w.
Proof. reflexivity. Qed.



Lemma with_modules_Inv ms w :
  Inv w ->
  Forall (fun km => module_ok (snd km)) ms ->
  Inv (with_tracker (set_modules ms (tracker w)) w).
Proof. intros (Hm & Hs & Hf) Hms. by split. Qed.

Lemma updateModuleProgress_Inv e moduleName percentage w :
  Inv w -> Inv (updateModuleProgress e moduleName percentage w).
Proof.
  intros HI. unfold updateModuleProgress.
  destruct (get moduleName (modules (tracker w))); [|done].
  apply saveProgress_Inv, with_modules_Inv; [done|].
  assert (Forall (fun km => module_ok (snd km))
            (update moduleName
               (set_progress (JS.Math_min 100 (JS.Math_max 0 percentage)))
               (modules (tracker w)))) as H1.
  { apply Forall_update; [|apply HI]. intros m _. apply set_progress_ok, clamp_in_range. }
  destruct (Qle_bool 100 percentage); [|done].
  apply Forall_update; [|done]. intros m. apply set_completed_ok.
Qed.

Lemma markComplete_Inv e moduleName w : Inv w -> Inv (markComplete e moduleName w).
Proof.
  intros HI. unfold markComplete.
  destruct (get moduleName (modules (tracker w))); [|done].
  apply saveProgress_Inv, with_modules_Inv; [done|].
  apply Forall_update; [intros m _; apply set_progress_ok; split; discriminate|].
  apply Forall_update; [intros m; apply set_completed_ok | apply HI].
Qed.




Lemma initial_Inv : Inv initial.
Proof.
  split; [|split; [done|]].
  - repeat (constructor; [intros q [= <-]; split; discriminate|]). constructor.
  - intros u s H. simpl in H. by apply lookup_empty_Some in H.
Qed.





End ProgressTrackerFacts.

(** The keys of [this.modules] never change. *)
Lemma run_keys e o w :
  map fst (ProgressTracker.modules (ProgressTracker.tracker (ProgressTracker.run e o w)))
  = map fst (ProgressTracker.modules (ProgressTracker.tracker w)).
Proof.
destruct o; simpl.
- unfold ProgressTracker.updateModuleProgress.
  destruct (ProgressTracker.get _ _); [|done]. simpl.
  destruct (Qle_bool 100 percentage); by rewrite ?keys_update.
- unfold ProgressTracker.markComplete.
  destruct (ProgressTracker.get _ _); [|done]. simpl. by rewrite !keys_update.
- unfold ProgressTracker.resetProgress.
  destruct (ProgressTracker.userConfirms e); [|done]. simpl.
  generalize (map fst (ProgressTracker.modules (ProgressTracker.tracker w))) at 1.
  generalize (ProgressTracker.modules (ProgressTracker.tracker w)).
  intros ms keys. revert ms.
  induction keys as [|k keys IH]; intros ms; simpl; [done|].
  by rewrite IH, !keys_update.
- done.
- unfold ProgressTracker.loadProgress, ProgressTracker.loadLocalProgress.
  repeat (case_match; simpl; try done); by rewrite restore_keys.
- unfold ProgressTracker.loadLocalProgress.
  repeat (case_match; simpl; try done); by rewrite restore_keys.
Qed.





(** *** The translation widget *)

Section TranslationWidgetFacts.

Import TranslationWidget.

Variable net : network.
Variable text : string.

Lemma translateWithAPI_answer i w log :
  exists log', translateWithAPI net text i w log = (answer net w i, w, log ++ log').
Proof.
unfold translateWithAPI, answer. destruct (translationAPIs w !! i).
- by exists [i].
- exists []. by rewrite app_nil_r.
Qed.

(** No API from [i] on gives a usable translation: the loop runs to its
    end, leaves the widget alone and ends with an unusable value. *)
Lemma fallback_unusable fuel : forall i translated w log,
  usable text translated = false ->
  (forall j, (i <= j < i + fuel)%nat -> j <> currentAPIIndex w ->
             usable text (answer net w j) = false) ->
  exists translated' log',
    fallback net text fuel i translated w log = (translated', w, log ++ log') /\
    usable text translated' = false.
Proof.
induction fuel as [|fuel IH]; intros i translated w log Hu Hall; simpl.
- exists translated, []. by rewrite app_nil_r.
- unfold bind, get_widget. destruct (Nat.eqb_spec i (currentAPIIndex w)) as [Heq|Hne].
  + apply IH; [done|]. intros j Hj. apply Hall. lia.
  + destruct (translateWithAPI_answer i w log) as [log1 ->].
    rewrite (Hall i) by (done || lia).
    destruct (IH (S i) (answer net w i) w (log ++ log1)) as (t' & log2 & -> & Ht').
    * apply Hall; [lia | done].
    * intros j Hj. apply Hall. lia.
    * exists t', (log1 ++ log2). by rewrite app_assoc.
Qed.

(** The first usable API from [i] on, other than the current one, ends
    the loop: its translation is kept and it becomes the current API. *)
Lemma fallback_first fuel : forall i k translated w log,
  (i <= k < i + fuel)%nat ->
  k <> currentAPIIndex w ->
  usable text (answer net w k) = true ->
  (forall j, (i <= j < k)%nat -> j <> currentAPIIndex w ->
             usable text (answer net w j) = false) ->
  exists log',
    fallback net text fuel i translated w log
    = (answer net w k, set_currentAPIIndex k w, log ++ log') /\
    last log' = Some k.
Proof.
induction fuel as [|fuel IH]; intros i k translated w log Hk Hne Hus Hbefore; [lia|].
simpl. unfold bind, get_widget.
destruct (Nat.eqb_spec i (currentAPIIndex w)) as [Heq|Hne'].
- apply IH; try done.
  + assert (i <> k) by congruence. lia.
  + intros j Hj. apply Hbefore. lia.
- destruct (decide (i = k)) as [->|Hik].
  + unfold translateWithAPI, answer in *.
    destruct (translationAPIs w !! k); [|discriminate Hus].
    rewrite Hus. unfold put_widget, ret. by exists [k].
  + destruct (translateWithAPI_answer i w log) as [log1 ->].
    rewrite (Hbefore i) by (done || lia).
    destruct (IH (S i) k (answer net w i) w (log ++ log1)) as (log2 & -> & Hl); try done.
    * lia.
    * intros j Hj. apply Hbefore. lia.
    * exists (log1 ++ log2). split; [by rewrite app_assoc|].
      destruct log2 as [|x log2]; [discriminate Hl|].
      by rewrite last_app, Hl.
Qed.

Lemma fallback_keeps fuel : forall i translated w log translated' w' log',
  fallback net text fuel i translated w log = (translated', w', log') ->
  translationCache w' = translationCache w /\
  translationAPIs w' = translationAPIs w.
Proof.
induction fuel as [|fuel IH]; intros i translated w log translated' w' log'; simpl.
- by intros [= _ <- _].
- unfold bind, get_widget. destruct (i =? currentAPIIndex w)%nat; [apply IH|].
  destruct (translateWithAPI_answer i w log) as [log1 ->].
  destruct (usable text (answer net w i)); [|apply IH].
  by intros [= _ <- _].
Qed.

Lemma usable_false_truthy s : usable text (Some s) = false -> JS.truthy s = true -> s = text.
Proof.
simpl. intros Hu Ht. rewrite Ht in Hu. simpl in Hu.
apply negb_false_iff, String.eqb_eq in Hu. exact Hu.
Qed.

Lemma usable_Some s : s <> "" -> s <> text -> usable text (Some s) = true.
Proof.
intros Hs Hst. unfold usable. apply andb_true_intro. split.
- by destruct s.
- by apply negb_true_iff, String.eqb_neq.
Qed.

Lemma fails_unusable translated : fails text translated -> usable text translated = false.
Proof.
intros [->| ->]; simpl; [done|]. by rewrite String.eqb_refl, andb_false_r.
Qed.





(** After a call, a cached text is cached with what the call returned. *)
Lemma translateWithFallback_result w r w1 log c :
  run (translateWithFallback net text) w = (r, w1, log) ->
  translationCache w1 !! text = Some c -> r = c.
Proof.
unfold run, translateWithFallback, bind, get_widget.
destruct (translationCache w !! text) as [cached|] eqn:Hc.
- intros [= <- <- _]. congruence.
- destruct (translateWithAPI_answer (currentAPIIndex w) w []) as [log1 ->].
  assert (forall t w2 log2,
    translationCache w2 = translationCache w ->
    match t with
    | Some s =>
        if JS.truthy s
        then bind (put_widget (set_translationCache (<[text:=s]> (translationCache w2)) w2))
               (fun _ => ret s)
        else ret text
    | None => ret text
    end w2 log2 = (r, w1, log) ->
    translationCache w1 !! text = Some c -> r = c) as Hend.
  { intros t w2 log2 Hw2. destruct t as [s|]; [destruct (JS.truthy s)|];
      unfold bind, put_widget, ret; intros [= <- <- _]; simpl.
    - rewrite lookup_insert_eq. congruence.
    - rewrite Hw2. congruence.
    - rewrite Hw2. congruence. }
  destruct (usable text (answer net w (currentAPIIndex w))).
  + unfold ret at 1. by apply Hend.
  + destruct (fallback net text _ 0 _ w _) as [[t w2] log2] eqn:Hf.
    apply fallback_keeps in Hf as [Hf _]. by apply Hend.
Qed.

End TranslationWidgetFacts.





(** C4. For a text that is not cached: when the current API and every
    other API of the list fails or gives the text back, the call returns
    the text unchanged (and the current API stays); when the current API
    does so and, in the loop over the others, the API at index [k] is the
    first to return a non-empty translation different from the text, that
    API becomes the current one ([currentAPIIndex] is [k] afterwards), its
    translation is what the cache holds for the text afterwards and what
    the call returns; the cache is unchanged at every other text, and so
    are the other fields of the widget. *)
Theorem fallback_through_the_apis (net : TranslationWidget.network) (text : string)
    (w : TranslationWidget.t) :
  TranslationWidget.translationCache w !! text = None ->
  ((forall i, (i < length (TranslationWidget.translationAPIs w))%nat ->
              TranslationWidget.fails text (net i)) ->
   exists w' log,
     TranslationWidget.run (TranslationWidget.translateWithFallback net text) w
     = (text, w', log) /\
     TranslationWidget.currentAPIIndex w' = TranslationWidget.currentAPIIndex w) /\
  (forall k s,
      TranslationWidget.fails text
        (TranslationWidget.answer net w (TranslationWidget.currentAPIIndex w)) ->
      (k < length (TranslationWidget.translationAPIs w))%nat ->
      k <> TranslationWidget.currentAPIIndex w ->
      net k = Some s -> s <> "" -> s <> text ->
      (forall j, (j < k)%nat -> j <> TranslationWidget.currentAPIIndex w ->
                 TranslationWidget.fails text (net j)) ->
      exists w' log,
        TranslationWidget.run (TranslationWidget.translateWithFallback net text) w
        = (s, w', log) /\
        TranslationWidget.currentAPIIndex w' = k /\
        TranslationWidget.translationCache w' !! text = Some s /\
        (forall key, key <> text ->
                     TranslationWidget.translationCache w' !! key
                     = TranslationWidget.translationCache w !! key) /\
        TranslationWidget.translationAPIs w' = TranslationWidget.translationAPIs w /\
        TranslationWidget.isTranslated w' = TranslationWidget.isTranslated w /\
        TranslationWidget.targetLanguage w' = TranslationWidget.targetLanguage w /\
        last log = Some k).
Proof.
intros Hmiss.
unfold TranslationWidget.run, TranslationWidget.translateWithFallback,
  TranslationWidget.bind, TranslationWidget.get_widget.
rewrite Hmiss.
destruct (translateWithAPI_answer net text (TranslationWidget.currentAPIIndex w) w [])
  as [log1 ->].
split.
- intros Hall.
  assert (forall j, TranslationWidget.usable text (TranslationWidget.answer net w j) = false)
    as Hun.
  { intros j. unfold TranslationWidget.answer.
    destruct (TranslationWidget.translationAPIs w !! j) eqn:E; [|done].
    apply fails_unusable, Hall. by eapply lookup_lt_Some. }
  rewrite Hun.
  destruct (fallback_unusable net text (length (TranslationWidget.translationAPIs w)) 0
              (TranslationWidget.answer net w (TranslationWidget.currentAPIIndex w))
              w ([] ++ log1)) as (t' & log2 & -> & Ht'); [apply Hun | intros; apply Hun |].
  destruct t' as [s|]; [|by eexists _, _].
  destruct (JS.truthy s) eqn:Hs; [|by eexists _, _].
  rewrite (usable_false_truthy text s Ht' Hs).
  unfold TranslationWidget.put_widget, TranslationWidget.ret. by eexists _, _.
- intros k s Hcur Hk Hne Hnet Hs Hst Hbefore.
  rewrite (fails_unusable _ _ Hcur).
  assert (TranslationWidget.answer net w k = Some s) as Hans.
  { unfold TranslationWidget.answer.
    destruct (lookup_lt_is_Some_2 _ _ Hk) as [x ->]. exact Hnet. }
  destruct (fallback_first net text (length (TranslationWidget.translationAPIs w)) 0 k
              (TranslationWidget.answer net w (TranslationWidget.currentAPIIndex w))
              w ([] ++ log1)) as (log2 & -> & Hl); try done.
  + lia.
  + rewrite Hans. by apply usable_Some.
  + intros j Hj Hjc. unfold TranslationWidget.answer.
    destruct (TranslationWidget.translationAPIs w !! j); [|done].
    apply fails_unusable, Hbefore; [lia | done].
  + rewrite Hans. destruct s as [|c s]; [done|]. simpl.
    unfold TranslationWidget.put_widget, TranslationWidget.ret.
    eexists _, _. split; [reflexivity|]. simpl.
    split; [reflexivity|]. split; [apply lookup_insert_eq|].
    split; [by intros key Hkey; apply lookup_insert_ne|].
    repeat (split; [reflexivity|]).
    destruct log2 as [|x log2]; [discriminate Hl|]. by rewrite last_app, Hl.
Qed.

Lemma fallback_through_the_apis_witness :
  TranslationWidget.translationCache (TranslationWidget.constructor "de") !! "Hello" = None /\
  (exists w' log,
    TranslationWidget.run
      (TranslationWidget.translateWithFallback TranslationWidget.third_api_answers "Hello")
      (TranslationWidget.constructor "de")
    = ("Hallo", w', log) /\
    TranslationWidget.currentAPIIndex w' = 2%nat /\
    TranslationWidget.translationCache w' !! "Hello" = Some "Hallo" /\
    (forall key, key <> "Hello" ->
                 TranslationWidget.translationCache w' !! key
                 = TranslationWidget.translationCache (TranslationWidget.constructor "de")
                   !! key) /\
    TranslationWidget.translationAPIs w'
    = TranslationWidget.translationAPIs (TranslationWidget.constructor "de") /\
    TranslationWidget.isTranslated w'
    = TranslationWidget.isTranslated (TranslationWidget.constructor "de") /\
    TranslationWidget.targetLanguage w'
    = TranslationWidget.targetLanguage (TranslationWidget.constructor "de") /\
    last log = Some 2%nat) /\
  (exists w' log,
    TranslationWidget.run
      (TranslationWidget.translateWithFallback TranslationWidget.offline "Hello")
      (TranslationWidget.constructor "de")
    = ("Hello", w', log) /\
    TranslationWidget.currentAPIIndex w' = 0%nat).
Proof.
split; [reflexivity|].
split.
- destruct (fallback_through_the_apis TranslationWidget.third_api_answers "Hello"
              (TranslationWidget.constructor "de") eq_refl) as [_ H].
  apply (H 2%nat "Hallo").
  + left. reflexivity.
  + simpl. lia.
  + simpl. lia.
  + reflexivity.
  + discriminate.
  + discriminate.
  + intros [|[|j]] Hj Hc; [simpl in Hc; lia | right; reflexivity | lia].
- destruct (fallback_through_the_apis TranslationWidget.offline "Hello"
              (TranslationWidget.constructor "de") eq_refl) as [H _].
  apply H. intros i _. left. reflexivity.
Defined.
(** *** The page router *)


(** C7, refuted as stated.  The method also throws when there is no
    response that is not ok: when the request itself fails, and when the
    response is ok but its body cannot be read.  A key outside the map that
    names a property inherited from [Object.prototype] does not resolve to
    the URL of the home page. *)
Lemma fetchPageContent_other_outcomes :
  PageConnectionManager.fetchPageContent PageConnectionManager.unreachable "home"
  = PageConnectionManager.Throw "Failed to fetch" /\
  PageConnectionManager.fetchPageContent PageConnectionManager.interrupted "home"
  = PageConnectionManager.Throw "network error" /\
  ~ PageConnectionManager.throws_exactly_when_not_ok /\
  PageConnectionManager.pageMap !! "constructor" = None /\
  PageConnectionManager.pageUrl "constructor"
  = Some (PageConnectionManager.Inherited "constructor") /\
  ~ PageConnectionManager.outside_is_home.
Proof.
split; [reflexivity|]. split; [reflexivity|]. split; [|split; [reflexivity|split; [reflexivity|]]].
- intros H.
  destruct (H PageConnectionManager.unreachable "home") as [H1 _].
  destruct H1 as (response & Hr & _); [by eexists|]. discriminate Hr.
- intros H. specialize (H "constructor" eq_refl). discriminate H.
Qed.


(** *** The cached user journey *)

(** C6, refuted as stated: when the read of the document fails the result
    is neither 'Journey not found' nor the fetched data, and an item that
    cannot be parsed makes the function fail without reading the
    document. *)
Lemma journey_error_paths :
  LearningEngine.getUserJourneyWithCache 1000 LearningEngine.unreachable ∅ "u1"
  = (LearningEngine.Failure "Failed to get document because the client is offline.",
     ∅, true) /\
  LearningEngine.getUserJourneyWithCache 1000 (fun _ => LearningEngine.Missing)
    {[ "userJourney_u1" := LearningEngine.Throwing "Unexpected end of JSON input" ]} "u1"
  = (LearningEngine.Failure "Unexpected end of JSON input",
     {[ "userJourney_u1" := LearningEngine.Throwing "Unexpected end of JSON input" ]},
     false) /\
  ~ LearningEngine.otherwise_reads_firestore.
Proof.
split; [reflexivity|]. split; [reflexivity|].
intros H.
specialize (H 1000%Z LearningEngine.unreachable ∅ "u1").
simpl in H. destruct H as [_ [H|(data & H & _)]].
- intros journey [Hl _]. by apply lookup_empty_Some in Hl.
- discriminate H.
- discriminate H.
Qed.

(** C6, amended.  The function returns the cached journey with source
    [cache], without reading the document, exactly when a journey is cached
    under [userJourney_<userId>] and its age is below five minutes.
    Otherwise, unless the cached item makes the function throw, it reads
    the document: it returns 'Journey not found' when the document does not
    exist, stores the data in [localStorage] and returns it with source
    [firebase] when it does, and returns the failure with the error's
    message when the read is rejected.  A cached item that makes the
    function throw yields the failure with that error's message, and the
    document is not read. *)
Theorem journey_cache_or_firestore (now : Z) (firestore : string -> LearningEngine.snapshot)
    (localStorage : gmap string LearningEngine.item) (userId : string) :
  (forall journey,
      LearningEngine.fresh now localStorage userId journey <->
      exists localStorage' read,
        LearningEngine.getUserJourneyWithCache now firestore localStorage userId
        = (LearningEngine.Success journey LearningEngine.cache, localStorage', read)) /\
  (forall journey,
      LearningEngine.fresh now localStorage userId journey ->
      LearningEngine.getUserJourneyWithCache now firestore localStorage userId
      = (LearningEngine.Success journey LearningEngine.cache, localStorage, false)) /\
  ((forall journey, ~ LearningEngine.fresh now localStorage userId journey) ->
   (forall message,
       localStorage !! LearningEngine.journeyKey userId
       <> Some (LearningEngine.Throwing message)) ->
   LearningEngine.getUserJourneyWithCache now firestore localStorage userId
   = match firestore userId with
     | LearningEngine.Missing =>
         (LearningEngine.Failure "Journey not found", localStorage, true)
     | LearningEngine.Exists data =>
         (LearningEngine.Success data LearningEngine.firebase,
          <[LearningEngine.journeyKey userId := LearningEngine.Stored data]> localStorage,
          true)
     | LearningEngine.Rejected message =>
         (LearningEngine.Failure message, localStorage, true)
     end) /\
  (forall message,
      localStorage !! LearningEngine.journeyKey userId
      = Some (LearningEngine.Throwing message) ->
      LearningEngine.getUserJourneyWithCache now firestore localStorage userId
      = (LearningEngine.Failure message, localStorage, false)).
Proof.
assert (forall journey,
  LearningEngine.fresh now localStorage userId journey ->
  LearningEngine.getUserJourneyWithCache now firestore localStorage userId
  = (LearningEngine.Success journey LearningEngine.cache, localStorage, false)) as Hfresh.
{ intros journey (Hl & t & Ht & Hage).
  unfold LearningEngine.getUserJourneyWithCache. rewrite Hl, Ht.
  destruct (Z.ltb_spec (now - t) (5 * 60 * 1000)); [reflexivity | lia]. }
split; [|split; [exact Hfresh|split]].
- intros journey. split.
  + intros Hf. rewrite (Hfresh _ Hf). by eexists _, _.
  + intros (ls' & read & H). revert H.
    unfold LearningEngine.getUserJourneyWithCache, LearningEngine.fresh.
    destruct (localStorage !! LearningEngine.journeyKey userId) as [[|message|j]|] eqn:Hl;
      try (destruct (firestore userId); discriminate).
    destruct (LearningEngine.lastUpdated j) as [t|] eqn:Ht;
      [|destruct (firestore userId); discriminate].
    destruct (Z.ltb_spec (now - t) (5 * 60 * 1000));
      [|destruct (firestore userId); discriminate].
    intros [= <- _ _]. split; [done|]. by exists t.
- intros Hstale Hparse.
  unfold LearningEngine.getUserJourneyWithCache.
  destruct (localStorage !! LearningEngine.journeyKey userId) as [[|message|j]|] eqn:Hl;
    try (destruct (firestore userId); reflexivity).
  + by destruct (Hparse message).
  + destruct (LearningEngine.lastUpdated j) as [t|] eqn:Ht;
      [|destruct (firestore userId); reflexivity].
    destruct (Z.ltb_spec (now - t) (5 * 60 * 1000));
      [|destruct (firestore userId); reflexivity].
    destruct (Hstale j). split; [done|]. by exists t.
- intros message Hl. unfold LearningEngine.getUserJourneyWithCache. by rewrite Hl.
Qed.

Lemma journey_cache_or_firestore_witness :
  LearningEngine.getUserJourneyWithCache 200000 (fun _ => LearningEngine.Missing)
    {[ "userJourney_u1" :=
         LearningEngine.Stored {| LearningEngine.lastUpdated := Some 100000%Z;
                                  LearningEngine.body := "journey" |} ]} "u1"
  = (LearningEngine.Success {| LearningEngine.lastUpdated := Some 100000%Z;
                               LearningEngine.body := "journey" |} LearningEngine.cache,
     {[ "userJourney_u1" :=
         LearningEngine.Stored {| LearningEngine.lastUpdated := Some 100000%Z;
                                  LearningEngine.body := "journey" |} ]},
     false) /\
  LearningEngine.getUserJourneyWithCache 900000 (fun _ => LearningEngine.Missing)
    {[ "userJourney_u1" :=
         LearningEngine.Stored {| LearningEngine.lastUpdated := Some 100000%Z;
                                  LearningEngine.body := "journey" |} ]} "u1"
  = (LearningEngine.Failure "Journey not found",
     {[ "userJourney_u1" :=
         LearningEngine.Stored {| LearningEngine.lastUpdated := Some 100000%Z;
                                  LearningEngine.body := "journey" |} ]},
     true).
Proof.
split.
- apply journey_cache_or_firestore. split; [reflexivity|].
  exists 100000%Z. split; [reflexivity | lia].
- apply (journey_cache_or_firestore 900000 (fun _ => LearningEngine.Missing)).
  + intros journey (Hl & t & Ht & Hage).
    vm_compute in Hl. injection Hl as <-. simpl in Ht. injection Ht as <-. lia.
  + intros message Hl. vm_compute in Hl. discriminate Hl.
Defined.
(** *** Practice mode *)

Section AIPracticeModeFacts.

Import AIPracticeMode.

Lemma string_length_ind (P : string -> Prop) :
  (forall s, (forall s', (String.length s' < String.length s)%nat -> P s') -> P s) ->
  forall s, P s.
Proof.
intros H s. remember (String.length s) as n eqn:Hn.
revert s Hn. induction n as [n IH] using lt_wf_ind. intros s ->.
apply H. intros s' Hlt. by apply (IH _ Hlt).
Qed.

Lemma trimStart_length s :
  JS.trimStart s = s \/ (String.length (JS.trimStart s) < String.length s)%nat.
Proof.
induction s as [s IH] using string_length_ind.
destruct s as [|a s1]; [by left|]. cbn [JS.trimStart].
destruct (JS.is_space a).
{ right. destruct (IH s1) as [->|H]; simpl; lia. }
destruct s1 as [|b s2]; [by left|].
destruct (JS.is_space2 a b).
{ right. destruct (IH s2) as [->|H]; simpl; lia. }
destruct s2 as [|c s3]; [by left|].
destruct (JS.is_space3 a b c); [|by left].
right. destruct (IH s3) as [->|H]; simpl; lia.
Qed.

Lemma trimStart_idem s : JS.trimStart (JS.trimStart s) = JS.trimStart s.
Proof.
induction s as [s IH] using string_length_ind.
destruct s as [|a s1]; [done|]. cbn [JS.trimStart].
destruct (JS.is_space a) eqn:Ea; [apply IH; simpl; lia|].
destruct s1 as [|b s2]; [cbn [JS.trimStart]; by rewrite Ea|].
destruct (JS.is_space2 a b) eqn:Eb; [apply IH; simpl; lia|].
destruct s2 as [|c s3]; [cbn [JS.trimStart]; by rewrite Ea, Eb|].
destruct (JS.is_space3 a b c) eqn:Ec; [apply IH; simpl; lia|].
cbn [JS.trimStart]. by rewrite Ea, Eb, Ec.
Qed.

Lemma trimEnd_length s : (String.length (JS.trimEnd s) <= String.length s)%nat.
Proof.
induction s as [|c s IH]; [done|].
cbn [JS.trimEnd]. destruct (JS.trimStart (String c s)); simpl in *; lia.
Qed.

Lemma trim_fixed s : JS.trim s = s -> JS.trimStart s = s /\ JS.trimEnd s = s.
Proof.
intros H. unfold JS.trim in H.
destruct (trimStart_length s) as [E|E].
- split; [done|]. by rewrite E in H.
- pose proof (trimEnd_length (JS.trimStart s)) as L. rewrite H in L. lia.
Qed.

Lemma trimStart_one_byte c s :
  JS.one_byte c = true ->
  JS.trimStart (String c s) = if JS.is_space c then JS.trimStart s else String c s.
Proof.
intros Hc. unfold JS.one_byte in Hc. apply Nat.ltb_lt in Hc. cbn [JS.trimStart].
destruct (JS.is_space c); [done|].
destruct s as [|b s2]; [done|].
assert (JS.is_space2 c b = false) as ->.
{ unfold JS.is_space2. destruct (Nat.eqb_spec (nat_of_ascii c) 194); [lia|done]. }
destruct s2 as [|d s3]; [done|].
assert (JS.is_space3 c b d = false) as ->; [|done].
unfold JS.is_space3. cbv zeta.
destruct (Nat.eqb_spec (nat_of_ascii c) 225); [lia|].
destruct (Nat.eqb_spec (nat_of_ascii c) 226); [lia|].
destruct (Nat.eqb_spec (nat_of_ascii c) 227); [lia|].
destruct (Nat.eqb_spec (nat_of_ascii c) 239); [lia|]. done.
Qed.

Lemma trimStart_first c s :
  JS.one_byte c = true -> JS.is_space c = false -> JS.trimStart (String c s) = String c s.
Proof. intros Hc Hs. by rewrite trimStart_one_byte, Hs. Qed.

Lemma trimEnd_fixed_nonblank s : s <> "" -> JS.trimEnd s = s -> JS.trimStart s <> "".
Proof.
intros Hne Hs E. destruct s as [|c s]; [done|].
cbn [JS.trimEnd] in Hs. by rewrite E in Hs.
Qed.

Lemma trimStart_app_nonblank p s :
  Forall (fun c => JS.one_byte c = true) (String.list_ascii_of_string p) ->
  JS.trimStart s <> "" -> JS.trimStart (p +:+ s) <> "".
Proof.
intros Hp Hs. induction p as [|c p IH]; [done|].
simpl in Hp. apply Forall_cons in Hp as [Hc Hp].
change (String c p +:+ s) with (String c (p +:+ s)).
rewrite trimStart_one_byte by done.
destruct (JS.is_space c); [by apply IH|done].
Qed.

Lemma trimEnd_app p s :
  Forall (fun c => JS.one_byte c = true) (String.list_ascii_of_string p) ->
  s <> "" -> JS.trimEnd s = s -> JS.trimEnd (p +:+ s) = p +:+ s.
Proof.
intros Hp Hne Hs. induction p as [|c p IH]; [done|].
pose proof (trimStart_app_nonblank (String c p) s Hp (trimEnd_fixed_nonblank s Hne Hs)) as Hb.
simpl in Hp. apply Forall_cons in Hp as [Hc Hp].
change (String c p +:+ s) with (String c (p +:+ s)) in *.
cbn [JS.trimEnd]. rewrite (IH Hp).
by destruct (JS.trimStart (String c (p +:+ s))).
Qed.

Lemma trim_trimStart s : JS.trim (JS.trimStart s) = JS.trim s.
Proof. unfold JS.trim. by rewrite trimStart_idem. Qed.

Lemma assigned_remainder label line :
  beginsWith label line = true ->
  JS.trim (JS.replace_prefix_i label (JS.trim line)) = remainder label line.
Proof.
unfold beginsWith, JS.replace_prefix_i, remainder. intros ->. apply trim_trimStart.
Qed.

Lemma splitBars_nonEmptyTrimmed str :
  splitBars str = nonEmptyTrimmed (JS.split JS.bar str).
Proof.
unfold splitBars. induction (JS.split JS.bar str) as [|p pieces IH]; simpl; [done|].
destruct (JS.trim p) eqn:E.
- rewrite filter_cons_False by (simpl; congruence). exact IH.
- rewrite filter_cons_True by done. by rewrite IH.
Qed.

Lemma parseLine_table exercise line :
  parseLine exercise line = fold_left (assignEntry (JS.trim line)) knownLabels exercise.
Proof. reflexivity. Qed.

Lemma assignEntry_lookup line exercise label field isList f :
  assignEntry (JS.trim line) exercise (label, field, isList) !! f
  = if decide (field = f)
    then if beginsWith label line then Some (stored isList label line) else exercise !! f
    else exercise !! f.
Proof.
unfold assignEntry, assign, assignList, stored, beginsWith.
destruct (JS.test_prefix_i label (JS.trim line)) eqn:E.
- destruct isList; rewrite lookup_insert; case_decide; try done.
  + by rewrite splitBars_nonEmptyTrimmed, assigned_remainder.
  + by rewrite assigned_remainder.
- destruct isList; by case_decide.
Qed.

Lemma filter_field_nil f (table : list (string * string * bool)) :
  f ∉ map (fun entry => snd (fst entry)) table ->
  filter (fun entry : string * string * bool => snd (fst entry) = f) table = [].
Proof.
induction table as [|entry table IH]; [done|].
simpl. intros [Hne Hnotin]%not_elem_of_cons.
rewrite filter_cons_False by congruence. by apply IH.
Qed.

(** The field of a label after one line, for any table without a
    repeated field. *)
Lemma table_lookup line f (table : list (string * string * bool)) : forall exercise,
  NoDup (map (fun entry => snd (fst entry)) table) ->
  fold_left (assignEntry (JS.trim line)) table exercise !! f
  = match head (filter (fun entry => snd (fst entry) = f) table) with
    | Some (label, _, isList) =>
        if beginsWith label line then Some (stored isList label line) else exercise !! f
    | None => exercise !! f
    end.
Proof.
induction table as [|[[label field] isList] table IH]; intros exercise Hnd; [done|].
simpl in Hnd. apply NoDup_cons in Hnd as [Hnotin Hnd].
cbn [fold_left]. rewrite IH by done. rewrite assignEntry_lookup.
destruct (decide (field = f)) as [->|Hne].
- rewrite filter_cons_True by done. cbn [head].
  by rewrite filter_field_nil.
- rewrite filter_cons_False by done.
  destruct (head _) as [[[l' f'] i']|]; [|done].
  by destruct (beginsWith l' line).
Qed.

Lemma knownLabels_NoDup : NoDup (map (fun entry : string * string * bool => snd (fst entry)) knownLabels).
Proof. compute_done. Qed.

Lemma parseLine_lookup exercise line f :
  parseLine exercise line !! f
  = match labelOf f with
    | Some (label, _, isList) =>
        if beginsWith label line then Some (stored isList label line) else exercise !! f
    | None => exercise !! f
    end.
Proof. rewrite parseLine_table. apply table_lookup, knownLabels_NoDup. Qed.

(** The field of a label after all lines: the last line that begins with
    the label decides. *)
Lemma pass_lookup f lines : forall exercise,
  fold_left parseLine lines exercise !! f
  = match labelOf f with
    | Some entry => match labelled lines entry with
                    | Some v => Some v
                    | None => exercise !! f
                    end
    | None => exercise !! f
    end.
Proof.
induction lines as [|line lines IH]; intros exercise.
- simpl. by destruct (labelOf f) as [[[label field] isList]|].
- cbn [fold_left]. rewrite IH, parseLine_lookup.
  destruct (labelOf f) as [[[label field] isList]|]; [|done].
  unfold labelled.
  destruct (beginsWith label line) eqn:E.
  + rewrite filter_cons_True by done.
    change (?x :: ?l) with ([x] ++ l). rewrite last_app.
    by destruct (last (filter _ lines)).
  + rewrite filter_cons_False by (rewrite E; done). done.
Qed.

Lemma falsy_noValue v : falsy v = noValue v.
Proof. by destruct v as [[[|c s]|items]|]. Qed.

Lemma meaningful_candidates response :
  filter (fun l => meaningful l = true) (responseLines response) = candidates response.
Proof.
unfold candidates. apply list_filter_iff. intros l. unfold meaningful.
rewrite andb_true_iff, negb_true_iff. by rewrite Nat.ltb_lt.
Qed.

(** The exercise the labelled pass starts from. *)
Lemma initial_lookup response type f :
  (<["type" := Str type]> (<["raw" := Str response]> (∅ : gmap string value))) !! f
  = if String.eqb f "type" then Some (Str type)
    else if String.eqb f "raw" then Some (Str response)
    else None.
Proof.
destruct (String.eqb_spec f "type") as [->|Ht]; [by rewrite lookup_insert_eq|].
rewrite lookup_insert_ne by done.
destruct (String.eqb_spec f "raw") as [->|Hr]; [by rewrite lookup_insert_eq|].
by rewrite lookup_insert_ne.
Qed.

Lemma pass_described response type f :
  fold_left parseLine (responseLines response)
    (<["type" := Str type]> (<["raw" := Str response]> ∅)) !! f
  = described response type f.
Proof.
rewrite pass_lookup, initial_lookup. unfold described.
destruct (labelOf f) as [entry|] eqn:E; [|done].
destruct (labelled (responseLines response) entry); [done|].
destruct (String.eqb_spec f "type") as [->|_]; [discriminate E|].
destruct (String.eqb_spec f "raw") as [->|_]; [discriminate E | done].
Qed.

Lemma fallback_lookup response type f :
  fallback (responseLines response)
    (fold_left parseLine (responseLines response)
       (<["type" := Str type]> (<["raw" := Str response]> ∅))) !! f
  = describedExercise response type f.
Proof.
unfold fallback, describedExercise. rewrite !pass_described, !falsy_noValue.
destruct (_ && _ && _ && _); [|apply pass_described].
rewrite meaningful_candidates. unfold withFallback.
destruct (candidates response) as [|first [|second rest]]; [apply pass_described | |].
- destruct (String.eqb_spec f "question") as [->|Hq]; [by rewrite lookup_insert_eq|].
  rewrite lookup_insert_ne by done.
  destruct (String.eqb f "answer"); apply pass_described.
- destruct (String.eqb_spec f "question") as [->|Hq];
    [by rewrite lookup_insert_ne, lookup_insert_eq|].
  destruct (String.eqb_spec f "answer") as [->|Ha]; [by rewrite lookup_insert_eq|].
  rewrite !lookup_insert_ne by done. apply pass_described.
Qed.

End AIPracticeModeFacts.

(** C2. [parseAIResponse] works on the non-blank lines of the response.
    After the labelled pass, the field of each of the seventeen labels holds
    the trimmed remainder of the last line that begins with the label
    (case-insensitively), split on the bar into its non-empty trimmed pieces
    for OPTIONS and WORDS, and is absent when no line begins with the label;
    [type] and [raw] hold the arguments.  If then none of question, word,
    sentence and prompt holds a value, the first line longer than 10
    characters that does not start with two slashes becomes the question and
    the next such line, when present, the answer; otherwise, and for every
    other field, the result of the pass stands. *)
Theorem parseAIResponse_described (response type : string) :
  (forall line,
      line ∈ AIPracticeMode.responseLines response <->
      line ∈ JS.split JS.newline response /\ JS.trim line <> "") /\
  (forall field,
      fold_left AIPracticeMode.parseLine (AIPracticeMode.responseLines response)
        (<["type" := AIPracticeMode.Str type]>
           (<["raw" := AIPracticeMode.Str response]> ∅)) !! field
      = AIPracticeMode.described response type field) /\
  (forall field,
      AIPracticeMode.parseAIResponse response type !! field
      = AIPracticeMode.describedExercise response type field) /\
  (AIPracticeMode.described response type "question" = None ->
   AIPracticeMode.described response type "word" = None ->
   AIPracticeMode.described response type "sentence" = None ->
   AIPracticeMode.described response type "prompt" = None ->
   forall field,
     AIPracticeMode.parseAIResponse response type !! field
     = AIPracticeMode.withFallback response type field).
Proof.
split; [|split; [|split]].
- intros line. unfold AIPracticeMode.responseLines. rewrite list_elem_of_filter.
  split.
  + intros [H1 H2]. split; [done|]. intros E. by rewrite E in H1.
  + intros [H1 H2]. split; [|done]. by destruct (JS.trim line).
- apply pass_described.
- intros field. apply fallback_lookup.
- intros Hq Hw Hs Hp field.
  unfold AIPracticeMode.parseAIResponse. rewrite fallback_lookup.
  unfold AIPracticeMode.describedExercise. by rewrite Hq, Hw, Hs, Hp.
Qed.

Lemma parseAIResponse_described_witness :
  AIPracticeMode.described AIPracticeMode.plainAnswer "translation" "question" = None /\
  AIPracticeMode.parseAIResponse AIPracticeMode.plainAnswer "translation" !! "question"
  = Some (AIPracticeMode.Str "The capital of France is Paris.") /\
  AIPracticeMode.parseAIResponse AIPracticeMode.plainAnswer "translation" !! "answer"
  = Some (AIPracticeMode.Str "   Paris is the capital.") /\
  AIPracticeMode.parseAIResponse AIPracticeMode.labelledAnswer "translation" !! "question"
  = Some (AIPracticeMode.Str "I love learning new languages.") /\
  AIPracticeMode.parseAIResponse AIPracticeMode.labelledAnswer "translation" !! "options"
  = Some (AIPracticeMode.Arr ["a"; "b"; "c"]).
Proof.
destruct (parseAIResponse_described AIPracticeMode.plainAnswer "translation")
  as (_ & _ & _ & Hplain).
destruct (parseAIResponse_described AIPracticeMode.labelledAnswer "translation")
  as (_ & _ & Hlabelled & _).
split; [vm_compute; reflexivity|].
split; [rewrite Hplain by (vm_compute; reflexivity); vm_compute; reflexivity|].
split; [rewrite Hplain by (vm_compute; reflexivity); vm_compute; reflexivity|].
split; rewrite Hlabelled; vm_compute; reflexivity.
Defined.

(** *** Further properties of the progress tracker *)

Section ProgressTrackerExtFacts.

Import ProgressTracker ProgressTrackerExt.
Local Open Scope Q_scope.

Lemma or_zero_idem v : JS.or_zero (Some (JS.or_zero v)) = JS.or_zero v.
Proof.
unfold JS.or_zero. destruct v as [q|]; [|reflexivity].
destruct (Qeq_bool q 0) eqn:E; [reflexivity | by rewrite E].
Qed.

(** Reading the four modules of a tracker whose keys are the
    constructor's. *)
Lemma four_modules (ms : list (string * LearningModule)) :
  map fst ms = moduleKeys ->
  exists m1 m2 m3 m4,
    ms = [("alphabets", m1); ("vocabulary", m2); ("grammar", m3); ("assessment", m4)].
Proof.
intros H.
destruct ms as [|[k1 m1] [|[k2 m2] [|[k3 m3] [|[k4 m4] [|]]]]]; try discriminate H.
injection H as -> -> -> ->. by exists m1, m2, m3, m4.
Qed.

(** X1. What [saveProgress] writes to [sessionStorage] is what
    [loadLocalProgress] reads back: saving and loading again leaves the
    progress and the completion of every module as they were. *)
Theorem save_then_load_local (e : Env) (w : World) (key : string) :
  map fst (modules (tracker w)) = moduleKeys ->
  let w' := loadLocalProgress (saveProgress e w) in
  getModuleProgress key (tracker w') = getModuleProgress key (tracker w) /\
  isModuleComplete key (tracker w') = isModuleComplete key (tracker w) /\
  map fst (modules (tracker w')) = moduleKeys.
Proof.
intros Hkeys. destruct (four_modules _ Hkeys) as (m1 & m2 & m3 & m4 & Hms).
unfold loadLocalProgress, saveProgress, getModuleProgress, isModuleComplete.
cbn [sessionStorage tracker with_tracker set_modules modules].
rewrite Hms.
set (back := fun m => set_progress (JS.or_zero (progress m))
                        (set_completed (completed m) m)).
assert (restore
          (stringify [("alphabets", m1); ("vocabulary", m2); ("grammar", m3);
                      ("assessment", m4)])
          [("alphabets", m1); ("vocabulary", m2); ("grammar", m3); ("assessment", m4)]
        = [("alphabets", back m1); ("vocabulary", back m2); ("grammar", back m3);
           ("assessment", back m4)]) as -> by reflexivity.
cbn [get map fst].
split; [|split; [|reflexivity]].
- repeat (destruct (String.eqb _ key); [cbn [progress back set_progress]; apply or_zero_idem|]).
  reflexivity.
- repeat (destruct (String.eqb _ key); [reflexivity|]). reflexivity.
Qed.

Lemma save_then_load_local_witness :
  getModuleProgress "alphabets"
    (tracker (loadLocalProgress (saveProgress online tracker_example)))
  = getModuleProgress "alphabets" (tracker tracker_example).
Proof.
apply (save_then_load_local online tracker_example "alphabets"). reflexivity.
Defined.

Lemma restore_app saved1 saved2 ms :
  restore (saved1 ++ saved2) ms = restore saved2 (restore saved1 ms).
Proof. unfold restore. apply fold_left_app. Qed.

(** Stored modules the tracker does not have are skipped. *)
Lemma restore_foreign saved ms :
  Forall (fun ks => get (fst ks) ms = None) saved -> restore saved ms = ms.
Proof.
unfold restore. induction 1 as [|[k s] saved Hk _ IH]; [reflexivity|].
cbn [fold_left fst]. simpl in Hk. by rewrite Hk.
Qed.

Lemma get_None_keys key (ms ms' : list (string * LearningModule)) :
  map fst ms = map fst ms' -> get key ms = None -> get key ms' = None.
Proof.
revert ms'. induction ms as [|[k m] ms IH]; intros [|[k' m'] ms'] H; try discriminate H;
  [done|].
injection H as -> H. simpl. destruct (String.eqb k' key); [discriminate|]. by apply IH.
Qed.

Lemma has_key_stringify key ms :
  has_key key (stringify ms) = false -> get key ms = None.
Proof.
unfold has_key, stringify. induction ms as [|[k m] ms IH]; [done|].
simpl. destruct (String.eqb k key); [discriminate | exact IH].
Qed.

Lemma saveProgress_firestore w u :
  effectiveUserId (tracker w) = Some u ->
  JS.truthy u = true ->
  firestore (saveProgress online w) !! u
  = Some (merge (stringify (modules (tracker w))) (default [] (firestore w !! u))).
Proof.
intros Hu Ht. unfold saveProgress. cbn [firestore]. rewrite Hu, Ht.
cbn [online firestoreAvailable firestoreThrows andb negb]. apply lookup_insert_eq.
Qed.

Lemma loadProgress_fresh user w saved :
  JS.truthy (uid user) = true ->
  firestore w !! uid user = Some saved ->
  modules (tracker (loadProgress online (freshTracker user w)))
  = restore saved (modules constructor).
Proof.
intros Ht Hdoc. unfold loadProgress, freshTracker.
cbn [tracker effectiveUserId userId firestore]. rewrite Ht.
cbn [negb online firestoreAvailable firestoreThrows]. rewrite ?Ht. cbn [negb]. rewrite Hdoc. reflexivity.
Qed.

(** X2. Progress saved to Firestore is what a tracker constructed later
    for the same user loads: whatever the document held before, every
    module has the progress and the completion that were saved. *)
Theorem save_then_load_firestore (w : World) (user : User) (key : string) :
  map fst (modules (tracker w)) = moduleKeys ->
  effectiveUserId (tracker w) = Some (uid user) ->
  JS.truthy (uid user) = true ->
  let w' := loadProgress online (freshTracker user (saveProgress online w)) in
  getModuleProgress key (tracker w') = getModuleProgress key (tracker w) /\
  isModuleComplete key (tracker w') = isModuleComplete key (tracker w).
Proof.
intros Hkeys Huser Htruthy.
destruct (four_modules _ Hkeys) as (m1 & m2 & m3 & m4 & Hms).
unfold getModuleProgress, isModuleComplete. cbn zeta.
rewrite (loadProgress_fresh user _ _ Htruthy (saveProgress_firestore w _ Huser Htruthy)).
unfold merge. rewrite restore_app.
set (old := default [] (firestore w !! uid user)).
rewrite (restore_foreign (filter _ old)).
- rewrite Hms.
  set (back := fun (m c : LearningModule) =>
                 set_progress (JS.or_zero (progress m)) (set_completed (completed m) c)).
  assert (exists c1 c2 c3 c4,
    restore
      (stringify [("alphabets", m1); ("vocabulary", m2); ("grammar", m3);
                  ("assessment", m4)])
      (modules constructor)
    = [("alphabets", back m1 c1); ("vocabulary", back m2 c2); ("grammar", back m3 c3);
       ("assessment", back m4 c4)]) as (c1 & c2 & c3 & c4 & ->)
    by (do 4 eexists; reflexivity).
  cbn [get]. split.
  + repeat (destruct (String.eqb _ key);
            [cbn [progress back set_progress]; apply or_zero_idem|]).
    reflexivity.
  + repeat (destruct (String.eqb _ key); [reflexivity|]). reflexivity.
- apply Forall_forall. intros [k s] [Hk _]%list_elem_of_filter. cbn [fst] in *.
  destruct (has_key k (stringify (modules (tracker w)))) eqn:E; [by destruct Hk|].
  apply has_key_stringify in E.
  apply (get_None_keys k (modules (tracker w))); [|done].
  rewrite restore_keys. by rewrite Hkeys.
Qed.

Lemma save_then_load_firestore_witness :
  getModuleProgress "grammar"
    (tracker (loadProgress online (freshTracker learner (saveProgress online signedIn))))
  = 100.
Proof.
destruct (save_then_load_firestore signedIn learner "grammar") as [H _];
  [reflexivity | reflexivity | reflexivity |].
rewrite H. reflexivity.
Defined.

Lemma Math_round_bounds (x : Q) :
  0 <= x -> x <= 100 -> (0 <= JS.Math_round x <= 100)%Z.
Proof.
intros H0 H100. unfold JS.Math_round. split.
- change 0%Z with (Qfloor 0). apply Qfloor_resp_le. lra.
- change 100%Z with (Qfloor (100 + (1 # 2))). apply Qfloor_resp_le. lra.
Qed.

(** X3. While the invariant holds, the overall percentage that the
    progress bar and the menu display lies between 0 and 100. *)
Theorem displayed_percentage_bounds (w : World) :
  Inv w ->
  map fst (modules (tracker w)) = moduleKeys ->
  (0 <= updateProgressBar (tracker w) <= 100)%Z /\
  (0 <= percentage (generateMenuHTML (tracker w)) <= 100)%Z.
Proof.
intros (Hm & _ & _) Hkeys.
destruct (four_modules _ Hkeys) as (m1 & m2 & m3 & m4 & Hms).
unfold updateProgressBar, generateMenuHTML. cbn [percentage].
rewrite Hms in *.
assert (forall m, module_ok m -> in_range (JS.or_zero (progress m))) as Hr.
{ intros m Hok. by apply or_zero_in_range. }
apply Forall_cons in Hm as [H1%Hr Hm]. apply Forall_cons in Hm as [H2%Hr Hm].
apply Forall_cons in Hm as [H3%Hr Hm]. apply Forall_cons in Hm as [H4%Hr _].
cbn [snd] in *. unfold in_range in *.
assert (fold_left
          (fun totalProgress key =>
             match get key [("alphabets", m1); ("vocabulary", m2); ("grammar", m3);
                            ("assessment", m4)] with
             | Some m => totalProgress + JS.or_zero (progress m) * weight key
             | None => totalProgress
             end)
          (map fst [("alphabets", m1); ("vocabulary", m2); ("grammar", m3);
                    ("assessment", m4)]) 0
        = 0 + JS.or_zero (progress m1) * weight "alphabets"
          + JS.or_zero (progress m2) * weight "vocabulary"
          + JS.or_zero (progress m3) * weight "grammar"
          + JS.or_zero (progress m4) * weight "assessment") as -> by reflexivity.
rewrite !weight_quarter.
split; apply Math_round_bounds; lra.
Qed.

Lemma displayed_percentage_bounds_witness :
  (0 <= updateProgressBar (tracker tracker_example) <= 100)%Z.
Proof.
apply (displayed_percentage_bounds tracker_example).
- unfold tracker_example. apply markComplete_Inv, updateModuleProgress_Inv, initial_Inv.
- reflexivity.
Defined.

(** X4. [resetProgress], once the user confirms, leaves every module at
    progress 0 and not completed, whatever the tracker held; the overall
    percentage is 0 and the reset modules are what is saved.  When the user
    declines nothing changes. *)
Theorem resetProgress_clears (e : Env) (w : World) (key : string) :
  map fst (modules (tracker w)) = moduleKeys ->
  (userConfirms e = true ->
   getModuleProgress key (tracker (resetProgress e w)) = 0 /\
   isModuleComplete key (tracker (resetProgress e w)) = false /\
   updateProgressBar (tracker (resetProgress e w)) = 0%Z /\
   sessionStorage (resetProgress e w)
   = Some (Parsed (stringify (modules (tracker (resetProgress e w)))))) /\
  (userConfirms e = false -> resetProgress e w = w).
Proof.
intros Hkeys. destruct (four_modules _ Hkeys) as (m1 & m2 & m3 & m4 & Hms).
unfold resetProgress. split; intros ->; [|reflexivity].
rewrite saveProgress_tracker. cbn [with_tracker tracker set_modules modules].
unfold getModuleProgress, isModuleComplete, updateProgressBar.
cbn [saveProgress sessionStorage with_tracker tracker set_modules modules].
rewrite Hms.
set (zero := fun m => set_progress 0 (set_completed false m)).
assert (fold_left
          (fun ms key => update key (set_progress 0) (update key (set_completed false) ms))
          (map fst [("alphabets", m1); ("vocabulary", m2); ("grammar", m3);
                    ("assessment", m4)])
          [("alphabets", m1); ("vocabulary", m2); ("grammar", m3); ("assessment", m4)]
        = [("alphabets", zero m1); ("vocabulary", zero m2); ("grammar", zero m3);
           ("assessment", zero m4)]) as -> by reflexivity.
split; [|split; [|split; [|reflexivity]]].
- cbn [get]. repeat (destruct (String.eqb _ key); [reflexivity|]). reflexivity.
- cbn [get]. repeat (destruct (String.eqb _ key); [reflexivity|]). reflexivity.
- vm_compute. reflexivity.
Qed.

Lemma resetProgress_clears_witness :
  updateProgressBar (tracker (resetProgress online tracker_example)) = 0%Z.
Proof.
destruct (resetProgress_clears online tracker_example "grammar") as [H _];
  [reflexivity|].
apply H. reflexivity.
Defined.

End ProgressTrackerExtFacts.

(** *** Further properties of the translation widget *)

Section TranslationWidgetExtFacts.

Import TranslationWidget TranslationWidgetExt.

Variable net : network.
Variable text : string.

(** The APIs the loop asks from index [i] on: each one once, in
    increasing order, never the current one, never beyond the list. *)
Lemma fallback_log fuel : forall i translated w log r w' log2,
  fallback net text fuel i translated w log = (r, w', log2) ->
  exists log',
    log2 = log ++ log' /\
    NoDup log' /\
    Forall (fun j => (i <= j)%nat /\ j <> currentAPIIndex w /\
                     (j < length (translationAPIs w))%nat) log'.
Proof.
induction fuel as [|fuel IH]; intros i translated w log r w' log2; simpl.
- intros [= _ _ <-]. exists []. rewrite app_nil_r. repeat constructor.
- unfold bind, get_widget. destruct (Nat.eqb_spec i (currentAPIIndex w)) as [Heq|Hne].
  + intros H. destruct (IH _ _ _ _ _ _ _ H) as (log' & -> & Hs & Hf).
    exists log'. split; [done|]. split; [done|].
    eapply Forall_impl; [exact Hf|]. simpl. intros j (? & ? & ?). repeat split; [lia|done..].
  + unfold translateWithAPI at 1.
    destruct (translationAPIs w !! i) eqn:Hi.
    * assert (i < length (translationAPIs w))%nat as Hlt by (by eapply lookup_lt_Some).
      destruct (usable text (net i)).
      -- unfold put_widget, ret. intros [= _ _ <-]. exists [i]. split; [done|].
         split; [apply NoDup_singleton|]. by repeat constructor.
      -- intros H. destruct (IH _ _ _ _ _ _ _ H) as (log' & -> & Hs & Hf).
         exists (i :: log'). split; [by rewrite <- app_assoc|]. split.
         ++ constructor; [|done]. intros Hin.
            eapply Forall_forall in Hf; [|exact Hin]. lia.
         ++ constructor; [done|]. eapply Forall_impl; [exact Hf|]. simpl.
            intros j (? & ? & ?). repeat split; [lia|done..].
    * change (usable text None) with false. cbv iota.
      intros H. destruct (IH _ _ _ _ _ _ _ H) as (log' & -> & Hs & Hf).
      exists log'. split; [done|]. split; [done|].
      eapply Forall_impl; [exact Hf|]. simpl. intros j (? & ? & ?). repeat split; [lia|done..].
Qed.



Lemma fallback_index fuel : forall i translated w log r w' log2,
  fallback net text fuel i translated w log = (r, w', log2) ->
  (currentAPIIndex w < length (translationAPIs w))%nat ->
  (currentAPIIndex w' < length (translationAPIs w))%nat.
Proof.
induction fuel as [|fuel IH]; intros i translated w log r w' log2; simpl.
- by intros [= _ <- _] Hlt.
- unfold bind, get_widget. destruct (Nat.eqb_spec i (currentAPIIndex w)) as [Heq|Hne].
  + apply IH.
  + unfold translateWithAPI at 1.
    destruct (translationAPIs w !! i) eqn:Hi.
    * assert (i < length (translationAPIs w))%nat as Hlt by (by eapply lookup_lt_Some).
      destruct (usable text (net i)) eqn:Hu; [|apply IH].
      unfold put_widget, ret. by intros [= _ <- _] _.
    * apply IH.
Qed.

(** X6. [translateWithFallback] keeps the widget well formed: the list
    of APIs is not changed, the current index stays an index of the list,
    and no empty translation is cached.  For a text that is not empty the
    result is never empty. *)
Theorem translateWithFallback_wellFormed (w : t) :
  wellFormed w ->
  let '(r, w', _) := run (translateWithFallback net text) w in
  wellFormed w' /\
  translationAPIs w' = translationAPIs w /\
  (text <> "" -> r <> "").
Proof.
intros [Hidx Hcache].
unfold run, translateWithFallback, bind, get_widget.
destruct (translationCache w !! text) as [cached|] eqn:Hc.
{ unfold ret. split; [done|]. split; [done|]. intros _. by eapply Hcache. }
assert (forall t0 w2 log2,
  translationCache w2 = translationCache w ->
  translationAPIs w2 = translationAPIs w ->
  (currentAPIIndex w2 < length (translationAPIs w))%nat ->
  let '(r, w', _) :=
    match t0 with
    | Some s =>
        if JS.truthy s
        then bind (put_widget (set_translationCache (<[text:=s]> (translationCache w2)) w2))
               (fun _ => ret s)
        else ret text
    | None => ret text
    end w2 log2 in
  wellFormed w' /\ translationAPIs w' = translationAPIs w /\ (text <> "" -> r <> ""))
  as Hend.
{ intros [s|] w2 log2 Hc2 Ha2 Hi2; [destruct (JS.truthy s) eqn:Hs|];
    unfold bind, put_widget, ret, wellFormed; simpl; rewrite ?Hc2, ?Ha2.
  - split; [split; [done|]|split; [done|]].
    + apply map_Forall_insert_2; [|done]. intros ->. discriminate Hs.
    + intros _ ->. discriminate Hs.
  - done.
  - done. }
unfold translateWithAPI at 1.
destruct (translationAPIs w !! currentAPIIndex w);
  [destruct (usable text (net (currentAPIIndex w)))|change (usable text None) with false; cbv iota].
- unfold ret at 1. by apply Hend.
- destruct (fallback net text _ 0 _ w _) as [[t0 w2] log2] eqn:Hf.
  destruct (fallback_keeps _ _ _ _ _ _ _ _ _ _ Hf) as [Hk1 Hk2].
  pose proof (fallback_index _ _ _ _ _ _ _ _ Hf Hidx) as Hi. by apply Hend.
- destruct (fallback net text _ 0 _ w _) as [[t0 w2] log2] eqn:Hf.
  destruct (fallback_keeps _ _ _ _ _ _ _ _ _ _ Hf) as [Hk1 Hk2].
  pose proof (fallback_index _ _ _ _ _ _ _ _ Hf Hidx) as Hi. by apply Hend.
Qed.

(** X7. [revertTranslation] forgets every translation: afterwards a
    call of [translateWithFallback], also for a text that was cached, asks
    the current API first. *)
Theorem revertTranslation_forgets (w : t) :
  wellFormed w ->
  isTranslated (revertTranslation w) = false /\
  wellFormed (revertTranslation w) /\
  exists r w' log,
    run (translateWithFallback net text) (revertTranslation w)
    = (r, w', currentAPIIndex w :: log).
Proof.
intros [Hidx Hcache]. split; [done|]. split; [split; [done | apply map_Forall_empty]|].
unfold run, translateWithFallback, bind, get_widget.
assert (translationCache (revertTranslation w) !! text = None) as ->
  by apply lookup_empty.
unfold translateWithAPI at 1.
destruct (lookup_lt_is_Some_2 (translationAPIs (revertTranslation w))
            (currentAPIIndex (revertTranslation w)) Hidx) as [name ->].
change (currentAPIIndex (revertTranslation w)) with (currentAPIIndex w).
assert (forall t0 w2 log2,
  let '(_, _, log) :=
    match t0 with
    | Some s =>
        if JS.truthy s
        then bind (put_widget (set_translationCache (<[text:=s]> (translationCache w2)) w2))
               (fun _ => ret s)
        else ret text
    | None => ret text
    end w2 log2 in log = log2) as Hend.
{ intros [s|] w2 log2; [destruct (JS.truthy s)|]; reflexivity. }
destruct (usable text (net (currentAPIIndex w))).
- unfold ret at 1.
  specialize (Hend (net (currentAPIIndex w)) (revertTranslation w)
                ([] ++ [currentAPIIndex w])).
  destruct (match net (currentAPIIndex w) with _ => _ end (revertTranslation w) _)
    as [[r w'] log]. subst log. by exists r, w', [].
- destruct (fallback net text _ 0 _ (revertTranslation w) _) as [[t0 w2] log2] eqn:Hf.
  apply fallback_log in Hf as (log' & -> & _).
  specialize (Hend t0 w2 (([] ++ [currentAPIIndex w]) ++ log')).
  destruct (match t0 with _ => _ end w2 _) as [[r w'] log]. subst log.
  by exists r, w', log'.
Qed.

End TranslationWidgetExtFacts.

Lemma translateWithFallback_wellFormed_witness :
  TranslationWidgetExt.wellFormed (TranslationWidget.constructor "fr") /\
  TranslationWidgetExt.wellFormed
    (snd (fst (TranslationWidget.run
       (TranslationWidget.translateWithFallback TranslationWidget.third_api_answers "Hello")
       (TranslationWidget.constructor "fr")))).
Proof.
assert (TranslationWidgetExt.wellFormed (TranslationWidget.constructor "fr")) as H.
{ split; [simpl; lia | apply map_Forall_empty]. }
split; [exact H|].
pose proof (translateWithFallback_wellFormed TranslationWidget.third_api_answers "Hello"
              (TranslationWidget.constructor "fr") H) as Hw.
destruct (TranslationWidget.run _ _) as [[r w'] log]. apply Hw.
Defined.

Lemma revertTranslation_forgets_witness :
  exists r w' log,
    TranslationWidget.run
      (TranslationWidget.translateWithFallback TranslationWidget.offline "Hello")
      (TranslationWidgetExt.revertTranslation
         (snd (fst (TranslationWidget.run
            (TranslationWidget.translateWithFallback TranslationWidget.online "Hello")
            (TranslationWidget.constructor "fr")))))
    = (r, w', 0%nat :: log).
Proof.
assert (snd (fst (TranslationWidget.run
          (TranslationWidget.translateWithFallback TranslationWidget.online "Hello")
          (TranslationWidget.constructor "fr")))
        = TranslationWidget.set_translationCache (<["Hello" := "Bonjour"]> ∅)
            (TranslationWidget.constructor "fr")) as -> by reflexivity.
apply (revertTranslation_forgets TranslationWidget.offline "Hello").
split; [simpl; lia|].
apply map_Forall_insert_2; [discriminate | apply map_Forall_empty].
Defined.


Lemma batchesFrom_concat {A} (textNodes : list A) fuel : forall i,
  (length textNodes - i <= fuel)%nat ->
  concat (TranslationWidgetExt.batchesFrom fuel i textNodes) = drop i textNodes.
Proof.
induction fuel as [|fuel IH]; intros i Hfuel; simpl.
- rewrite drop_ge by lia. reflexivity.
- destruct (Nat.ltb_spec i (length textNodes)) as [Hlt|Hge].
  + simpl. rewrite IH by (unfold TranslationWidgetExt.batchSize; lia).
    unfold TranslationWidgetExt.slice.
    replace (i + TranslationWidgetExt.batchSize - i)%nat
      with TranslationWidgetExt.batchSize by lia.
    rewrite <- (drop_drop textNodes TranslationWidgetExt.batchSize i).
    apply take_drop.
  + rewrite drop_ge by lia. reflexivity.
Qed.

Lemma batchesFrom_sizes {A} (textNodes : list A) fuel : forall i,
  Forall (fun batch => (1 <= length batch <= 5)%nat)
    (TranslationWidgetExt.batchesFrom fuel i textNodes).
Proof.
induction fuel as [|fuel IH]; intros i; simpl; [constructor|].
destruct (Nat.ltb_spec i (length textNodes)) as [Hlt|Hge]; [|constructor].
constructor; [|apply IH].
unfold TranslationWidgetExt.slice, TranslationWidgetExt.batchSize.
rewrite length_take, length_drop. lia.
Qed.

Lemma batchesFrom_count {A} (textNodes : list A) fuel : forall i,
  (length textNodes - i <= fuel)%nat ->
  length (TranslationWidgetExt.batchesFrom fuel i textNodes)
  = ((length textNodes - i + 4) / 5)%nat.
Proof.
induction fuel as [|fuel IH]; intros i Hfuel; cbn [TranslationWidgetExt.batchesFrom].
- replace (length textNodes - i)%nat with 0%nat by lia. reflexivity.
- destruct (Nat.ltb_spec i (length textNodes)) as [Hlt|Hge].
  + cbn [length]. rewrite IH by (unfold TranslationWidgetExt.batchSize; lia).
    unfold TranslationWidgetExt.batchSize.
    set (n := length textNodes) in *. clearbody n.
    pose proof (Nat.div_mod_eq (n - i + 4) 5).
    pose proof (Nat.div_mod_eq (n - (i + 5) + 4) 5).
    pose proof (Nat.mod_upper_bound (n - i + 4) 5).
    pose proof (Nat.mod_upper_bound (n - (i + 5) + 4) 5).
    lia.
  + replace (length textNodes - i)%nat with 0%nat by lia. reflexivity.
Qed.

(** X8. [translateAllNodes] cuts the text nodes into batches that,
    put end to end, are the nodes in their order; every batch has between
    one and five nodes, and there are ceil(n / 5) of them. *)
Theorem batches_partition {A} (textNodes : list A) :
  concat (TranslationWidgetExt.batches textNodes) = textNodes /\
  Forall (fun batch => (1 <= length batch <= 5)%nat)
    (TranslationWidgetExt.batches textNodes) /\
  length (TranslationWidgetExt.batches textNodes) = ((length textNodes + 4) / 5)%nat.
Proof.
unfold TranslationWidgetExt.batches. split; [|split].
- rewrite batchesFrom_concat by lia. apply drop_0.
- apply batchesFrom_sizes.
- rewrite batchesFrom_count by lia. by rewrite Nat.sub_0_r.
Qed.

Lemma notText_letter c :
  TranslationWidgetExt.notText c
  = negb (TranslationWidgetExt.isLetter c || Ascii.eqb c "_"%char).
Proof.
destruct c as [[] [] [] [] [] [] [] []]; reflexivity.
Qed.

Lemma all_notText s :
  TranslationWidgetExt.all TranslationWidgetExt.notText s
  = negb (TranslationWidgetExt.hasLetter s).
Proof.
induction s as [|c s IH]; [reflexivity|].
cbn [TranslationWidgetExt.all TranslationWidgetExt.hasLetter].
rewrite IH, notText_letter. by rewrite <- negb_orb.
Qed.

(** X9. [translateAllNodes] sends a text to the translator exactly when
    it has at least two code units and contains a letter (a-z, A-Z) or an
    underscore; digits, white space, punctuation and code units above 127
    alone never are sent. *)
Theorem skipped_without_letter (originalText : string) :
  TranslationWidgetExt.skipped originalText = false <->
  (2 <= String.length originalText)%nat /\
  TranslationWidgetExt.hasLetter originalText = true.
Proof.
unfold TranslationWidgetExt.skipped. rewrite all_notText.
destruct (Nat.ltb_spec (String.length originalText) 2) as [Hlt|Hge]; simpl.
- split; [discriminate | lia].
- destruct originalText as [|c s]; [simpl in Hge; lia|].
  cbn [JS.truthy andb]. rewrite negb_false_iff. split; [by split | by intros [_ ?]].
Qed.

(** *** Further properties of the dictionary *)

(** X10. What [saveToCache] stores, [getFromCache] returns for one
    hour: up to [cacheExpiry] milliseconds later the saved result comes
    back and the dictionary is unchanged; later than that the answer is
    [null] and the entry is deleted. *)
Theorem dictionary_cache_round_trip (now now' : Z) (key : string)
    (r : Dictionary.LookupResult) (d : Dictionary.t) :
  ((now' - now <= Dictionary.cacheExpiry d)%Z ->
   Dictionary.getFromCache now' key (Dictionary.saveToCache now key r d)
   = (Dictionary.saveToCache now key r d, Some r)) /\
  ((Dictionary.cacheExpiry d < now' - now)%Z ->
   Dictionary.getFromCache now' key (Dictionary.saveToCache now key r d)
   = (Dictionary.set_cache (delete key (Dictionary.cache d)) d, None)).
Proof.
unfold Dictionary.getFromCache, Dictionary.saveToCache.
cbn [Dictionary.cache Dictionary.set_cache Dictionary.cacheExpiry].
rewrite lookup_insert_eq. cbn [Dictionary.savedAt Dictionary.data].
split; intros H.
- destruct (Z.ltb_spec (Dictionary.cacheExpiry d) (now' - now)); [lia | reflexivity].
- destruct (Z.ltb_spec (Dictionary.cacheExpiry d) (now' - now)); [|lia].
  by rewrite delete_insert_eq.
Qed.

Lemma dictionary_cache_round_trip_witness :
  Dictionary.getFromCache 3600000 "cat-en-ta"
    (Dictionary.saveToCache 0 "cat-en-ta"
       {| Dictionary.word := "cat"; Dictionary.resultSourceLang := "en";
          Dictionary.resultTargetLang := "ta"; Dictionary.fullResponse := "poonai";
          Dictionary.timestamp := 0 |} Dictionary.constructor)
  = (Dictionary.saveToCache 0 "cat-en-ta"
       {| Dictionary.word := "cat"; Dictionary.resultSourceLang := "en";
          Dictionary.resultTargetLang := "ta"; Dictionary.fullResponse := "poonai";
          Dictionary.timestamp := 0 |} Dictionary.constructor,
     Some {| Dictionary.word := "cat"; Dictionary.resultSourceLang := "en";
             Dictionary.resultTargetLang := "ta"; Dictionary.fullResponse := "poonai";
             Dictionary.timestamp := 0 |}).
Proof.
apply dictionary_cache_round_trip. simpl. lia.
Defined.

(** X11. A word that was looked up is served from the cache for one
    hour: the same word, whatever white space surrounds it, with the same
    languages returns the result of the first lookup, sends no request, and
    does so even while another request of the dictionary is in flight. *)
Theorem lookup_served_from_cache (now now' later : Z) (word word' sl tl content : string)
    (d : Dictionary.t) (busy : bool) :
  blank word' = false ->
  JS.trim word' = JS.trim word ->
  (later - now' <= Dictionary.cacheExpiry d)%Z ->
  exists r,
    snd (Dictionary.lookup_finish now now' word sl tl (Dictionary.Content content) d)
    = Dictionary.Return r /\
    let d1 := Dictionary.set_isProcessing busy
                (fst (Dictionary.lookup_finish now now' word sl tl
                        (Dictionary.Content content) d)) in
    Dictionary.lookup_start later word' sl tl d1 = (d1, Dictionary.Done (Dictionary.Return r)).
Proof.
intros Hblank Htrim Hfresh.
unfold Dictionary.lookup_finish, Dictionary.performAILookup_finish, Dictionary.queryAI_finish.
eexists. split; [reflexivity|].
cbn [fst]. unfold Dictionary.lookup_start. unfold blank in Hblank. rewrite Hblank, Htrim.
unfold Dictionary.getFromCache, Dictionary.saveToCache.
cbn [Dictionary.cache Dictionary.set_cache Dictionary.set_isProcessing
     Dictionary.cacheExpiry].
rewrite lookup_insert_eq. cbn [Dictionary.savedAt Dictionary.data].
destruct (Z.ltb_spec (Dictionary.cacheExpiry d) (later - now')); [lia | reflexivity].
Qed.

Lemma lookup_served_from_cache_witness :
  exists r,
    Dictionary.lookup_start 5000 "cat" "en" "ta"
      (Dictionary.set_isProcessing true DictionaryExt.afterLookup)
    = (Dictionary.set_isProcessing true DictionaryExt.afterLookup,
       Dictionary.Done (Dictionary.Return r)).
Proof.
destruct (lookup_served_from_cache 1000 1001 5000 " cat " "cat" "en" "ta"
            "TRANSLATION: poonai" dictionary_in_flight true)
  as (r & _ & H); [reflexivity | reflexivity | simpl; lia |].
exists r. exact H.
Defined.

(** X12. A lookup that fails is not remembered: the cache is left as it
    was, the busy flag is cleared, the error is reported with the prefix
    "Dictionary AI lookup failed: ", and the next lookup of the word sends
    its request again. *)
Theorem failed_lookup_is_retried (now now' later : Z) (word sl tl : string)
    (r : Dictionary.response) (d : Dictionary.t) :
  blank word = false ->
  (forall content, r <> Dictionary.Content content) ->
  Dictionary.cache d !! Dictionary.cacheKey (JS.trim word) sl tl = None ->
  let '(d1, res) := Dictionary.lookup_finish now now' word sl tl r d in
  Dictionary.cache d1 = Dictionary.cache d /\
  Dictionary.isProcessing d1 = false /\
  (exists message, res = Dictionary.Throw ("Dictionary AI lookup failed: " +:+ message)) /\
  exists req, Dictionary.lookup_start later word sl tl d1
              = (Dictionary.set_isProcessing true d1, Dictionary.Requested req).
Proof.
intros Hblank Hfail Hmiss.
unfold Dictionary.lookup_finish, Dictionary.performAILookup_finish, Dictionary.queryAI_finish.
assert (forall message,
  let d1 := Dictionary.set_isProcessing false d in
  Dictionary.cache d1 = Dictionary.cache d /\
  Dictionary.isProcessing d1 = false /\
  (exists m, Dictionary.Throw (A:=Dictionary.LookupResult)
               ("Dictionary AI lookup failed: " +:+ message)
             = Dictionary.Throw ("Dictionary AI lookup failed: " +:+ m)) /\
  exists req, Dictionary.lookup_start later word sl tl d1
              = (Dictionary.set_isProcessing true d1, Dictionary.Requested req)) as Hgoal.
{ intros message d1. split; [done|]. split; [done|]. split; [by eexists|].
  unfold Dictionary.lookup_start. unfold blank in Hblank. rewrite Hblank.
  unfold Dictionary.getFromCache. cbn [d1 Dictionary.cache Dictionary.set_isProcessing].
  rewrite Hmiss. unfold Dictionary.performAILookup_start, Dictionary.queryAI_start.
  cbn [Dictionary.isProcessing]. by eexists. }
destruct r as [message|detail| |content]; try apply Hgoal.
by destruct (Hfail content).
Qed.

Lemma failed_lookup_is_retried_witness :
  Dictionary.isProcessing
    (fst (Dictionary.lookup_finish 0 1 "cat" "en" "ta"
            (Dictionary.NotOk "Unauthorized") dictionary_in_flight)) = false.
Proof.
pose proof (failed_lookup_is_retried 0 1 2 "cat" "en" "ta"
              (Dictionary.NotOk "Unauthorized") dictionary_in_flight) as H.
destruct (Dictionary.lookup_finish _ _ _ _ _ _ _) as [d1 res].
apply H; [reflexivity | discriminate | reflexivity].
Defined.

Section DictionaryKeys.

Import DictionaryExt.

Lemma append_cons c s t : String c s +:+ t = String c (s +:+ t).
Proof. reflexivity. Qed.

Lemma append_nil t : "" +:+ t = t.
Proof. reflexivity. Qed.

Lemma hyphens_app s1 s2 : hyphens (s1 +:+ s2) = (hyphens s1 + hyphens s2)%nat.
Proof.
induction s1 as [|c s1 IH]; [done|].
rewrite append_cons. cbn [hyphens]. rewrite IH. lia.
Qed.

(** Cutting a string at a hyphen is unambiguous once the number of
    hyphens after the cut is known. *)
Lemma cut_at_hyphen w : forall w' r r',
  w +:+ "-" +:+ r = w' +:+ "-" +:+ r' ->
  hyphens r = hyphens r' ->
  w = w' /\ r = r'.
Proof.
induction w as [|c w IH]; intros [|c' w'] r r' Heq Hh;
  repeat (rewrite append_nil in Heq || rewrite append_cons in Heq).
- by injection Heq as ->.
- injection Heq as <- ->. rewrite hyphens_app in Hh.
  cbn [hyphens] in Hh. rewrite Ascii.eqb_refl in Hh. lia.
- injection Heq as -> <-. rewrite hyphens_app in Hh.
  cbn [hyphens] in Hh. rewrite Ascii.eqb_refl in Hh. lia.
- injection Heq as -> Heq. destruct (IH _ _ _ Heq Hh) as [-> ->]. done.
Qed.

(** X13. [lookup] keeps distinct queries apart: when the language codes
    contain no hyphen (as the codes of the language selectors do), two
    queries have the same cache key only if they have the same word and the
    same languages. *)
Theorem cacheKey_injective (word sl tl word' sl' tl' : string) :
  hyphens sl = 0%nat -> hyphens tl = 0%nat ->
  hyphens sl' = 0%nat -> hyphens tl' = 0%nat ->
  Dictionary.cacheKey word sl tl = Dictionary.cacheKey word' sl' tl' ->
  word = word' /\ sl = sl' /\ tl = tl'.
Proof.
intros Hs Ht Hs' Ht' Hkey. unfold Dictionary.cacheKey in Hkey.
apply cut_at_hyphen in Hkey as [-> Hrest].
- apply cut_at_hyphen in Hrest as [-> ->]; [done | congruence].
- rewrite !hyphens_app. change (hyphens "-") with 1%nat. lia.
Qed.

Lemma cacheKey_injective_witness :
  Dictionary.cacheKey "well-known" "en" "ta" = Dictionary.cacheKey "well-known" "en" "ta" /\
  ("well-known" = "well-known" /\ "en" = "en" /\ "ta" = "ta").
Proof.
split; [reflexivity|].
apply (cacheKey_injective "well-known" "en" "ta" "well-known" "en" "ta");
  reflexivity.
Defined.

End DictionaryKeys.

(** X14. The search history never holds more than ten entries, and
    after [addToHistory] its newest entry comes first, unless the history
    panel is shown and the entry names a language the dictionary does not
    support; then, when some other entry is valid, only the valid entries
    are kept. *)
Theorem search_history_bounded (now : Z) (container : bool) (w sl tl : string)
    (d : Dictionary.t) (stored : list DictionaryExt.SearchItem) :
  let item := {| DictionaryExt.word := w; DictionaryExt.sourceLang := sl;
                 DictionaryExt.targetLang := tl; DictionaryExt.timestamp := now |} in
  let stored' := DictionaryExt.addToHistory now container w sl tl d stored in
  (length stored' <= 10)%nat /\
  (container = false \/ DictionaryExt.supported d item = true ->
   head stored' = Some item) /\
  (container = true ->
   Exists (fun i => DictionaryExt.supported d i = true) (take 10 (item :: stored)) ->
   Forall (fun i => DictionaryExt.supported d i = true) stored').
Proof.
intros item stored'. subst stored'. unfold DictionaryExt.addToHistory.
fold item. set (history := take 10 (item :: stored)).
assert (length history <= 10)%nat as Hlen by (unfold history; rewrite length_take; lia).
assert (head history = Some item) as Hhead by reflexivity.
unfold DictionaryExt.loadSearchHistory.
destruct container; cbn [negb].
- destruct history as [|first rest] eqn:Hh; [discriminate Hhead|].
  injection Hhead as ->.
  destruct (filter _ (item :: rest)) as [|v valid] eqn:Hf.
  + split; [done|]. split; [done|]. intros _ Hex.
    apply Exists_exists in Hex as (i & Hin & Hi).
    assert (i ∈ filter (fun i => DictionaryExt.supported d i = true) (item :: rest)) as Hin'
      by (by apply list_elem_of_filter).
    rewrite Hf in Hin'. by apply elem_of_nil in Hin'.
  + split; [|split].
    * rewrite <- Hf.
      etrans; [apply length_filter | exact Hlen].
    * intros [?|Hsup]; [done|]. rewrite filter_cons_True in Hf by done.
      by injection Hf as <- _.
    * intros _ _. rewrite <- Hf. apply Forall_forall.
      by intros i [Hi _]%list_elem_of_filter.
- split; [done|]. split; [done|]. discriminate.
Qed.

Lemma search_history_bounded_witness :
  head (DictionaryExt.addToHistory 7 true "cat" "en" "ta" Dictionary.constructor [])
  = Some {| DictionaryExt.word := "cat"; DictionaryExt.sourceLang := "en";
            DictionaryExt.targetLang := "ta"; DictionaryExt.timestamp := 7 |}.
Proof.
apply (search_history_bounded 7 true "cat" "en" "ta" Dictionary.constructor []).
right. vm_compute. reflexivity.
Defined.

(** *** Further properties of the chat assistant *)

Section AIAssistantExtFacts.

Import AIAssistantExt.

Lemma addToHistory_length now u r a :
  AIAssistant.maxHistoryLength a = 10%Z ->
  (length (AIAssistant.conversationHistory (AIAssistant.addToHistory now u r a)) <= 10)%nat.
Proof.
intros Hmax. unfold AIAssistant.addToHistory. rewrite Hmax.
destruct (Z.ltb_spec 10 (Z.of_nat (length (AIAssistant.conversationHistory a ++
  [{| AIAssistant.user := u; AIAssistant.assistant := r; AIAssistant.timestamp := now;
      AIAssistant.language := AIAssistant.selectedLanguage a |}]))));
  cbn [AIAssistant.conversationHistory AIAssistant.set_conversationHistory].
- rewrite Array_slice_last by lia. rewrite length_drop. lia.
- lia.
Qed.

Lemma run_ok a o : assistant_ok a -> assistant_ok (run a o).
Proof.
intros (Hlen & Hmax & Hprov & Hlang). destruct o as [p|l| |prompt|now prompt o]; simpl.
- unfold setProvider. destruct (AIAssistant.validProvider p) eqn:E; by repeat split.
- unfold setLanguage. destruct (languageMap !! l) eqn:E; by repeat split.
- repeat split; [simpl; lia | done..].
- unfold AIAssistant.sendMessage_start.
  destruct (negb _ || negb _); [by repeat split|].
  destruct (AIAssistant.isProcessing a); [by repeat split|].
  cbn [AIAssistant.apiProvider AIAssistant.set_isProcessing]. rewrite Hprov.
  by repeat split.
- destruct o as [response|message]; cbn [AIAssistant.sendMessage_finish fst].
  + split; [|split; [|split]]; cbn [AIAssistant.set_isProcessing
      AIAssistant.conversationHistory AIAssistant.maxHistoryLength AIAssistant.apiProvider
      AIAssistant.selectedLanguage].
    * by apply addToHistory_length.
    * unfold AIAssistant.addToHistory. by destruct (_ <? _)%Z.
    * unfold AIAssistant.addToHistory. by destruct (_ <? _)%Z.
    * unfold AIAssistant.addToHistory. by destruct (_ <? _)%Z.
  + by repeat split.
Qed.

(** X15. In every state the constructor and the methods [setProvider],
    [setLanguage], [clearHistory] and [sendMessage] lead
    to: the history has at most ten entries, the provider is one of groq,
    huggingface and ollama, so that [sendMessage] never answers "Unknown
    provider", and the selected language is a key of [languageMap], so that
    [getCurrentLanguage] does not throw. *)
Theorem assistant_stays_valid (a : AIAssistant.t) :
  reachable a ->
  (length (AIAssistant.conversationHistory a) <= 10)%nat /\
  AIAssistant.validProvider (AIAssistant.apiProvider a) = true /\
  is_Some (getCurrentLanguage a) /\
  forall prompt,
    snd (AIAssistant.sendMessage_start prompt a)
    <> AIAssistant.Returned "⚠️ Unknown provider".
Proof.
intros [ops ->].
assert (assistant_ok (fold_left run ops AIAssistant.constructor)) as (Hlen & _ & Hprov & Hlang).
{ assert (assistant_ok AIAssistant.constructor) as H0.
  { split; [simpl; lia|]. split; [done|]. split; [done|]. by eexists. }
  revert H0. generalize AIAssistant.constructor.
  induction ops as [|o ops IH]; intros a0 H0; [done|].
  simpl. apply IH. by apply run_ok. }
split; [done|]. split; [done|]. split.
- unfold getCurrentLanguage. destruct Hlang as [[name code] ->]. by eexists.
- intros prompt. unfold AIAssistant.sendMessage_start.
  destruct (negb _ || negb _); [discriminate|].
  destruct (AIAssistant.isProcessing _); [discriminate|].
  cbn [AIAssistant.apiProvider AIAssistant.set_isProcessing]. rewrite Hprov. discriminate.
Qed.

Lemma assistant_stays_valid_witness :
  reachable (fold_left run session AIAssistant.constructor) /\
  AIAssistant.validProvider
    (AIAssistant.apiProvider (fold_left run session AIAssistant.constructor)) = true.
Proof.
assert (reachable (fold_left run session AIAssistant.constructor)) as H by (by exists session).
split; [exact H|]. apply (assistant_stays_valid _ H).
Defined.

(** X16. [testConnection] ends with the provider it found at its start,
    whatever provider it tried, however the request ended and whatever
    happened to the assistant while the request was in flight, and it
    always reports success: a failure of the provider arrives as the text
    of the response.  A busy assistant or an unknown provider is reported
    as a success too, without any request.  While the request is in flight
    the provider is the tested one and the assistant is busy; a test that
    the provider answers is recorded in the conversation history. *)
Theorem testConnection_restores_provider (provider : option string) (a : AIAssistant.t) :
  (0 < AIAssistant.maxHistoryLength a)%Z ->
  match testConnection_start provider a with
  | (a', Tested r) =>
      a' = a /\ success r = true /\
      (AIAssistant.isProcessing a = true -> response r = AIAssistant.busy_reply)
  | (a1, Testing originalProvider testProvider) =>
      AIAssistant.isProcessing a = false /\
      AIAssistant.apiProvider a1 = testProvider /\
      AIAssistant.isProcessing a1 = true /\
      (forall now o a',
         let '(a2, r) := testConnection_finish now originalProvider testProvider o a' in
         AIAssistant.apiProvider a2 = AIAssistant.apiProvider a /\
         AIAssistant.isProcessing a2 = false /\
         success r = true) /\
      forall now o,
        let '(a2, r) := testConnection_finish now originalProvider testProvider o a1 in
        match o with
        | AIAssistant.Answer reply =>
            response r = reply /\
            exists older,
              AIAssistant.conversationHistory a2
              = older ++ [ {| AIAssistant.user := testPrompt;
                              AIAssistant.assistant := reply;
                              AIAssistant.timestamp := now;
                              AIAssistant.language := AIAssistant.selectedLanguage a |} ]
        | AIAssistant.Thrown _ =>
            AIAssistant.conversationHistory a2 = AIAssistant.conversationHistory a
        end
  end.
Proof.
intros Hmax.
unfold testConnection_start.
set (given := match provider with Some p => if JS.truthy p then Some p else None | None => None end).
set (a0 := match given with Some p => set_apiProvider p a | None => a end).
assert (AIAssistant.conversationHistory a0 = AIAssistant.conversationHistory a /\
        AIAssistant.selectedLanguage a0 = AIAssistant.selectedLanguage a /\
        AIAssistant.maxHistoryLength a0 = AIAssistant.maxHistoryLength a /\
        AIAssistant.isProcessing a0 = AIAssistant.isProcessing a /\
        AIAssistant.apiProvider a0 = default (AIAssistant.apiProvider a) given /\
        set_apiProvider (AIAssistant.apiProvider a) a0 = a)
  as (Hh & Hl & Hm & Hb & Hp & Hback) by (unfold a0; destruct given, a; done).
unfold AIAssistant.sendMessage_start.
change (negb (JS.truthy testPrompt) || negb (JS.truthy (JS.trim testPrompt))) with false.
cbv iota.
destruct (AIAssistant.isProcessing a0) eqn:Hbusy; [by rewrite Hback|].
cbn [AIAssistant.apiProvider AIAssistant.set_isProcessing].
destruct (AIAssistant.validProvider (AIAssistant.apiProvider a0)).
2:{ split; [|split; [done|]].
    - rewrite <- Hback at 2. by destruct a0; simpl in *; subst.
    - rewrite <- Hb. discriminate. }
split; [by rewrite <- Hb|]. split; [done|]. split; [done|]. split.
{ intros now [reply|message] a'; by cbn. }
intros now [reply|message]; cbn [testConnection_finish AIAssistant.sendMessage_finish].
- split; [done|].
  cbn [set_apiProvider AIAssistant.conversationHistory AIAssistant.set_isProcessing].
  unfold AIAssistant.addToHistory.
  cbn [AIAssistant.conversationHistory AIAssistant.set_isProcessing
       AIAssistant.maxHistoryLength AIAssistant.selectedLanguage].
  rewrite Hl, Hm.
  destruct (Z.ltb_spec (AIAssistant.maxHistoryLength a)
    (Z.of_nat (length (AIAssistant.conversationHistory a0 ++
      [{| AIAssistant.user := testPrompt; AIAssistant.assistant := reply;
          AIAssistant.timestamp := now;
          AIAssistant.language := AIAssistant.selectedLanguage a |}])))) as [Hlt|Hge];
    cbn [AIAssistant.conversationHistory AIAssistant.set_conversationHistory].
  + rewrite Array_slice_last by done.
    rewrite length_app in *. simpl in *.
    eexists. rewrite drop_app_le by lia. reflexivity.
  + by eexists.
- by cbn.
Qed.

Lemma testConnection_restores_provider_witness :
  (0 < AIAssistant.maxHistoryLength AIAssistant.constructor)%Z /\
  AIAssistant.apiProvider
    (fst (testConnection_finish "2024-01-01T00:00:00.000Z" "groq" "ollama"
            (AIAssistant.Thrown "Ollama failed: Ollama is not running. Start it with: ollama serve")
            (fst (testConnection_start (Some "ollama") AIAssistant.constructor))))
  = "groq".
Proof.
assert (0 < AIAssistant.maxHistoryLength AIAssistant.constructor)%Z as H by reflexivity.
split; [exact H|].
pose proof (testConnection_restores_provider (Some "ollama") AIAssistant.constructor H) as T.
change (testConnection_start (Some "ollama") AIAssistant.constructor)
  with (AIAssistant.set_isProcessing true (set_apiProvider "ollama" AIAssistant.constructor),
        Testing "groq" "ollama") in T |- *.
destruct T as (_ & _ & _ & T & _).
specialize (T "2024-01-01T00:00:00.000Z"
  (AIAssistant.Thrown "Ollama failed: Ollama is not running. Start it with: ollama serve")
  (AIAssistant.set_isProcessing true (set_apiProvider "ollama" AIAssistant.constructor))).
cbn [fst].
destruct (testConnection_finish _ _ _ _ _) as [a2 r]. apply T.
Defined.

(** X17. The request to Groq carries the system prompt first, the
    prompt of the user last, and between them the last five exchanges of
    the history at most, each as a user message followed by the answer: at
    most twelve messages, whatever the length of the history. *)
Theorem groqMessages_bounded (systemPrompt prompt : string) (a : AIAssistant.t) :
  let messages := groqMessages systemPrompt prompt a in
  length messages
  = (2 + 2 * Nat.min 5 (length (AIAssistant.conversationHistory a)))%nat /\
  (length messages <= 12)%nat /\
  head messages = Some {| role := "system"; content := systemPrompt |} /\
  last messages = Some {| role := "user"; content := prompt |} /\
  exists recent older,
    AIAssistant.conversationHistory a = older ++ recent /\
    (length recent <= 5)%nat /\
    messages
    = {| role := "system"; content := systemPrompt |}
      :: concat (map (fun item =>
                        [ {| role := "user"; content := AIAssistant.user item |};
                          {| role := "assistant"; content := AIAssistant.assistant item |} ])
                   recent)
      ++ [ {| role := "user"; content := prompt |} ].
Proof.
intros messages. subst messages. unfold groqMessages.
change (-5)%Z with (- (5))%Z. rewrite Array_slice_last by lia.
change (Z.to_nat 5) with 5%nat.
set (h := AIAssistant.conversationHistory a).
set (recent := drop (length h - 5) h).
assert (length recent = Nat.min 5 (length h)) as Hrecent
  by (unfold recent; rewrite length_drop; lia).
assert (forall l : list AIAssistant.HistoryEntry,
  length (concat (map (fun item =>
            [ {| role := "user"; content := AIAssistant.user item |};
              {| role := "assistant"; content := AIAssistant.assistant item |} ]) l))
  = (2 * length l)%nat) as Hpairs.
{ induction l as [|x l IH]; simpl; [done|]. rewrite IH. lia. }
split; [|split; [|split; [|split]]].
- rewrite !length_app, Hpairs, Hrecent. cbn [length]. lia.
- rewrite !length_app, Hpairs, Hrecent. cbn [length]. lia.
- reflexivity.
- rewrite app_assoc. apply last_snoc.
- exists recent, (take (length h - 5) h). split; [unfold recent; by rewrite take_drop|].
  split; [lia | reflexivity].
Qed.

End AIAssistantExtFacts.

(** *** The translator *)

Section TranslatorFacts.

Import Translator.

Lemma translate_start_busy text sl tl tr :
  isProcessing tr = true ->
  fst (translate_start text sl tl tr) = tr /\
  isRequested (snd (translate_start text sl tl tr)) = false.
Proof.
intros Hb. unfold translate_start.
destruct (negb _ || negb _); [done|].
destruct (cache tr !! _); [done|]. by rewrite Hb.
Qed.

Lemma translateBatch_start_busy texts sl tl tr :
  isProcessing tr = true ->
  fst (translateBatch_start texts sl tl tr) = tr /\
  filter (fun c => isRequested c = true) (snd (translateBatch_start texts sl tl tr)) = [].
Proof.
intros Hb. induction texts as [|text rest IH]; [done|].
cbn [translateBatch_start].
destruct (translate_start_busy text sl tl tr Hb) as [H1 H2].
destruct (translate_start text sl tl tr) as [tr1 c]. simpl in H1, H2. subst tr1.
destruct IH as [H3 H4].
destruct (translateBatch_start rest sl tl tr) as [tr2 cs]. simpl in *.
split; [done|]. rewrite filter_cons_False; [done|]. by rewrite H2.
Qed.

(** X18. A batch sends at most one request, however many texts it has:
    the calls of [translate] start one after the other before any request
    settles, and the first that reaches [queryAI] makes the translator
    busy for all that follow.  A translator that is already busy sends
    none. *)
Theorem translateBatch_one_request (texts : list string) (sl tl : string) (tr : t) :
  let calls := snd (translateBatch_start texts sl tl tr) in
  (length (filter (fun c => isRequested c = true) calls) <= 1)%nat /\
  (isProcessing tr = true ->
   length (filter (fun c => isRequested c = true) calls) = 0%nat).
Proof.
cbn zeta. split.
- revert tr. induction texts as [|text rest IH]; intros tr; [simpl; lia|].
  cbn [translateBatch_start].
  destruct (translate_start text sl tl tr) as [tr1 c] eqn:E.
  destruct (isRequested c) eqn:Hc.
  + assert (isProcessing tr1 = true) as Hb.
    { unfold translate_start in E.
      destruct (negb _ || negb _); [by inversion E; subst|].
      destruct (cache tr !! _); [by inversion E; subst|].
      destruct (isProcessing tr); inversion E; by subst. }
    pose proof (translateBatch_start_busy rest sl tl tr1 Hb) as [_ H].
    destruct (translateBatch_start rest sl tl tr1) as [tr2 cs]. simpl in *.
    rewrite filter_cons_True by done. rewrite H. simpl. lia.
  + specialize (IH tr1).
    destruct (translateBatch_start rest sl tl tr1) as [tr2 cs]. simpl in *.
    rewrite filter_cons_False by (by rewrite Hc). done.
- intros Hb. pose proof (translateBatch_start_busy texts sl tl tr Hb) as [_ H].
  by rewrite H.
Qed.

Lemma translateBatch_one_request_witness :
  isProcessing (set_isProcessing true constructor) = true /\
  length (filter (fun c => isRequested c = true)
            (snd (translateBatch_start ["cat"; "dog"] "en" "ta"
                    (set_isProcessing true constructor)))) = 0%nat.
Proof.
assert (isProcessing (set_isProcessing true constructor) = true) as H by reflexivity.
split; [exact H|].
apply (translateBatch_one_request ["cat"; "dog"] "en" "ta"
         (set_isProcessing true constructor)). exact H.
Defined.

Lemma settle_resolved r texts sl tl tr :
  settle r (map (fun x => Resolved (failure x sl tl)) texts) tr
  = (tr, Fulfilled (map (fun x => failure x sl tl) texts)).
Proof.
induction texts as [|x texts IH]; [done|].
cbn [map settle]. by rewrite IH.
Qed.

(** X19. Of a batch of texts that are not blank and not in the cache,
    given to an idle translator, only the first is translated: every
    other text comes back unchanged, marked as an error with confidence
    0, without a request, whatever the API answers. *)
Theorem translateBatch_translates_first_only
    (text : string) (rest : list string) (sl tl : string) (r : response) (tr : t) :
  isProcessing tr = false ->
  Forall (fun x => blank x = false /\ cache tr !! cacheKey x sl tl = None) (text :: rest) ->
  translateBatch (text :: rest) sl tl r tr
  = (fst (translate_finish text sl tl r (set_isProcessing true tr)),
     Fulfilled (snd (translate_finish text sl tl r (set_isProcessing true tr))
                :: map (fun x => failure x sl tl) rest)).
Proof.
intros Hidle Hall. apply Forall_cons in Hall as [[Hblank Hmiss] Hrest].
unfold translateBatch. cbn [translateBatch_start].
unfold translate_start at 1. unfold blank in Hblank. rewrite Hblank, Hmiss, Hidle.
assert (translateBatch_start rest sl tl (set_isProcessing true tr)
        = (set_isProcessing true tr, map (fun x => Resolved (failure x sl tl)) rest)) as ->.
{ induction Hrest as [|x rest [Hx Hc] _ IH]; [done|].
  cbn [translateBatch_start map]. unfold translate_start.
  unfold blank in Hx. rewrite Hx. cbn [cache set_isProcessing isProcessing].
  rewrite Hc. by rewrite IH. }
cbn [settle].
destruct (translate_finish text sl tl r (set_isProcessing true tr)) as [tr' res].
by rewrite settle_resolved.
Qed.

Lemma translateBatch_translates_first_only_witness :
  translateBatch ["cat"; "dog"; "bird"] "en" "ta" (Content " பூனை ") constructor
  = (fst (translate_finish "cat" "en" "ta" (Content " பூனை ")
            (set_isProcessing true constructor)),
     Fulfilled (snd (translate_finish "cat" "en" "ta" (Content " பூனை ")
                       (set_isProcessing true constructor))
                :: map (fun x => failure x "en" "ta") ["dog"; "bird"])).
Proof.
apply (translateBatch_translates_first_only "cat" ["dog"; "bird"] "en" "ta").
- reflexivity.
- repeat constructor.
Defined.

(** X20. [translate] never rejects for a text that is not blank.  A
    translation that succeeded is kept: the same call later resolves to
    the same object without a request, even while the translator is busy,
    and the cache never expires.  A failure resolves to the text itself
    and leaves the cache as it was, so the next call asks again. *)
Theorem translate_caches_successes (text sl tl : string) (r : response) (tr : t) :
  blank text = false ->
  (forall tr0, (exists r0, snd (translate_start text sl tl tr0) = Resolved r0)
               \/ snd (translate_start text sl tl tr0) = Requested text sl tl) /\
  let '(tr1, res) := translate_finish text sl tl r tr in
  original res = text /\
  isProcessing tr1 = false /\
  match r with
  | Content _ =>
      error res = false /\
      forall busy,
        translate_start text sl tl (set_isProcessing busy tr1)
        = (set_isProcessing busy tr1, Resolved res)
  | Failed =>
      res = failure text sl tl /\
      cache tr1 = cache tr /\
      (cache tr !! cacheKey text sl tl = None ->
       translate_start text sl tl tr1 = (set_isProcessing true tr1, Requested text sl tl))
  end.
Proof.
intros Hblank. unfold blank in Hblank. split.
- intros tr0. unfold translate_start. rewrite Hblank.
  destruct (cache tr0 !! _) as [c|]; [left; by exists c|].
  destruct (isProcessing tr0); [left; by eexists|]. by right.
- destruct r as [|c]; cbn [translate_finish].
  + split; [done|]. split; [done|]. split; [done|]. split; [done|].
    intros Hmiss. unfold translate_start. rewrite Hblank.
    cbn [cache set_isProcessing isProcessing]. by rewrite Hmiss.
  + split; [done|]. split; [done|]. split; [done|].
    intros busy. unfold translate_start. rewrite Hblank.
    cbn [cache set_isProcessing isProcessing]. by rewrite lookup_insert_eq.
Qed.

Lemma translate_caches_successes_witness :
  blank "cat" = false /\
  translate_start "cat" "en" "ta"
    (set_isProcessing true (fst (translate_finish "cat" "en" "ta" (Content "பூனை") constructor)))
  = (set_isProcessing true (fst (translate_finish "cat" "en" "ta" (Content "பூனை") constructor)),
     Resolved (snd (translate_finish "cat" "en" "ta" (Content "பூனை") constructor))).
Proof.
assert (blank "cat" = false) as H by reflexivity.
split; [exact H|].
pose proof (translate_caches_successes "cat" "en" "ta" (Content "பூனை") constructor H)
  as [_ T].
destruct (translate_finish "cat" "en" "ta" (Content "பூனை") constructor) as [tr1 res].
destruct T as (_ & _ & _ & T). apply (T true).
Defined.

End TranslatorFacts.

(** *** Navigation of the page manager *)

Section NavigationFacts.

Import Navigation.

Variable pathname : string -> option string.
Variable authenticated : bool.
Variable fetch :
  option PageConnectionManager.target
  -> PageConnectionManager.settled PageConnectionManager.Response.

Lemma loadPage_history page m :
  navigationHistory (loadPage fetch page m) = navigationHistory m /\
  pushState (loadPage fetch page m) = pushState m /\
  location (loadPage fetch page m) = location m /\
  back (loadPage fetch page m) = back m.
Proof.
unfold loadPage. by destruct (fetchPageContent fetch page).
Qed.

(** X21. [navigateTo] records the page it leaves in the navigation
    history in every case.  A visitor who is not authenticated is sent to
    the sign-in page for every target but botinteraction: the current page
    and the content stay, nothing is pushed to the browser history.
    Otherwise the URL is pushed to the browser history even when the page
    could not be loaded, in which case the current page and the content
    stay as they were. *)
Theorem navigateTo_outcomes (now : Z) (url targetPage : string) (m : t) :
  extractPageFromUrl pathname url = Some targetPage ->
  exists m',
    navigateTo pathname authenticated fetch now url m = Some m' /\
    navigationHistory m'
    = navigationHistory m ++ [ {| page := currentPage m; timestamp := now |} ] /\
    back m' = back m /\
    if bool_decide (targetPage <> "botinteraction") && negb authenticated
    then currentPage m' = currentPage m /\ content m' = content m /\
         pushState m' = pushState m /\
         location m' = Some "../pages/botinteraction.html"
    else pushState m' = pushState m ++ [ (targetPage, url) ] /\
         location m' = location m /\
         match fetchPageContent fetch targetPage with
         | PageConnectionManager.Return html =>
             currentPage m' = targetPage /\ content m' = Some html
         | PageConnectionManager.Throw _ =>
             currentPage m' = currentPage m /\ content m' = content m
         end.
Proof.
intros Hpage. unfold navigateTo. rewrite Hpage.
assert (requiresAuthentication targetPage = bool_decide (targetPage <> "botinteraction")) as ->.
{ unfold requiresAuthentication.
  destruct (decide (targetPage = "botinteraction")) as [->|Hne]; [done|].
  rewrite (bool_decide_eq_true_2 (targetPage <> _)) by done.
  rewrite bool_decide_eq_false_2; [done|]. by intros ->%list_elem_of_singleton. }
destruct (bool_decide _ && negb authenticated).
- eexists. split; [done|]. by repeat split.
- eexists. split; [done|].
  destruct (loadPage_history targetPage
    (set_navigationHistory
       (navigationHistory m ++ [{| page := currentPage m; timestamp := now |}]) m))
    as (Hh & Hp & Hl & Hb).
  cbn [navigationHistory back pushState location currentPage content].
  rewrite Hh, Hb, Hp, Hl. split; [done|]. split; [done|]. split; [done|]. split; [done|].
  unfold loadPage. by destruct (fetchPageContent fetch targetPage).
Qed.

Lemma last_Some_snoc {A} (l : list A) (x : A) :
  List.last (map Some (l ++ [x])) None = Some x.
Proof.
rewrite map_app. simpl. by rewrite last_last.
Qed.

Lemma goBack_swap now rest previous m :
  navigationHistory m = rest ++ [previous] ->
  plain pathname (page previous) ->
  loads authenticated fetch (page previous) ->
  currentPage (goBack pathname authenticated fetch now m) = page previous /\
  navigationHistory (goBack pathname authenticated fetch now m)
  = rest ++ [ {| page := currentPage m; timestamp := now |} ] /\
  back (goBack pathname authenticated fetch now m) = back m.
Proof.
intros Hh Hplain [Hauth [html Hload]]. unfold goBack.
rewrite Hh, last_Some_snoc, removelast_last.
unfold navigateTo. unfold plain in Hplain. rewrite Hplain, Hauth.
cbn [default]. unfold loadPage. rewrite Hload. by cbn.
Qed.

(** X22. [goBack] goes one step back and no further: it shows the
    page on top of the navigation history and puts the page it left in
    its place, so the history keeps its length, and a second [goBack]
    returns to the page the first one left.  The pages are page names
    that [extractPageFromUrl] gives back as they are, and they can be
    shown. *)
Theorem goBack_twice (now now' : Z) (rest : list Entry) (previous : Entry) (m : t) :
  navigationHistory m = rest ++ [previous] ->
  plain pathname (page previous) ->
  plain pathname (currentPage m) ->
  loads authenticated fetch (page previous) ->
  loads authenticated fetch (currentPage m) ->
  let m1 := goBack pathname authenticated fetch now m in
  let m2 := goBack pathname authenticated fetch now' m1 in
  currentPage m1 = page previous /\
  length (navigationHistory m1) = length (navigationHistory m) /\
  currentPage m2 = currentPage m /\
  map page (navigationHistory m2) = map page (navigationHistory m) /\
  back m2 = back m.
Proof.
intros Hh Hp Hc Hlp Hlc m1 m2.
destruct (goBack_swap now rest previous m Hh Hp Hlp) as (H1 & H2 & H3).
fold m1 in H1, H2, H3.
assert (plain pathname (page {| page := currentPage m; timestamp := now |})) as Hc' by done.
assert (loads authenticated fetch (page {| page := currentPage m; timestamp := now |}))
  as Hlc' by done.
destruct (goBack_swap now' rest _ m1 H2 Hc' Hlc') as (H4 & H5 & H6).
fold m2 in H4, H5, H6.
split; [done|]. split; [by rewrite H2, Hh, !length_app|].
split; [done|]. split; [|congruence].
rewrite H5, Hh, !map_app, H1. done.
Qed.

End NavigationFacts.

Lemma run_history pathname m o :
  (forall url, is_Some (pathname url)) ->
  Navigation.navigationHistory m <> [] ->
  (length (Navigation.navigationHistory m)
   <= length (Navigation.navigationHistory (Navigation.run pathname m o)))%nat /\
  Navigation.back (Navigation.run pathname m o) = Navigation.back m.
Proof.
intros Htotal Hne.
assert (forall a f now url m0,
  exists m', Navigation.navigateTo pathname a f now url m0 = Some m' /\
    length (Navigation.navigationHistory m')
    = S (length (Navigation.navigationHistory m0)) /\
    Navigation.back m' = Navigation.back m0) as Hnav.
{ intros a f now url m0.
  unfold Navigation.navigateTo, Navigation.extractPageFromUrl.
  destruct (Htotal url) as [path ->].
  destruct (Navigation.requiresAuthentication _ && negb a).
  - eexists. split; [done|]. cbn. rewrite length_app. simpl. split; [lia|done].
  - eexists. split; [done|].
    cbn [Navigation.navigationHistory Navigation.back].
    destruct (loadPage_history f (Navigation.pageOfPath path)
      (Navigation.set_navigationHistory
         (Navigation.navigationHistory m0
          ++ [{| Navigation.page := Navigation.currentPage m0;
                 Navigation.timestamp := now |}]) m0)) as (-> & _ & _ & ->).
    cbn. rewrite length_app. simpl. split; [lia|done]. }
destruct o as [a f now url|a f now]; cbn [Navigation.run].
- destruct (Hnav a f now url m) as (m' & -> & Hl & Hb). simpl. split; [lia|done].
- unfold Navigation.goBack.
  destruct (exists_last Hne) as (rest & previous & Hh).
  rewrite Hh, last_Some_snoc, removelast_last.
  destruct (Hnav a f now (Navigation.page previous)
              (Navigation.set_navigationHistory rest m)) as (m' & -> & Hl & Hb).
  simpl in *. rewrite length_app. simpl. split; [lia|done].
Qed.

Lemma navigateTo_outcomes_witness :
  Navigation.extractPageFromUrl Navigation.rooted "pages/alphabets.html" = Some "alphabets" /\
  exists m',
    Navigation.navigateTo Navigation.rooted false Navigation.everyPage 5
      "pages/alphabets.html" Navigation.visited = Some m' /\
    Navigation.location m' = Some "../pages/botinteraction.html".
Proof.
assert (Navigation.extractPageFromUrl Navigation.rooted "pages/alphabets.html"
        = Some "alphabets") as H by reflexivity.
split; [exact H|].
destruct (navigateTo_outcomes Navigation.rooted false Navigation.everyPage 5
            "pages/alphabets.html" "alphabets" Navigation.visited H)
  as (m' & Hm & _ & _ & Hcase).
exists m'. split; [exact Hm|]. apply Hcase.
Defined.

Lemma goBack_twice_witness :
  Navigation.currentPage
    (Navigation.goBack Navigation.rooted true Navigation.everyPage 4
       (Navigation.goBack Navigation.rooted true Navigation.everyPage 3 Navigation.visited))
  = Navigation.currentPage Navigation.visited.
Proof.
apply (goBack_twice Navigation.rooted true Navigation.everyPage 3 4
         [ {| Navigation.page := ""; Navigation.timestamp := 1 |} ]
         {| Navigation.page := "home"; Navigation.timestamp := 2 |} Navigation.visited).
- reflexivity.
- reflexivity.
- reflexivity.
- split; [reflexivity | by eexists].
- split; [reflexivity | by eexists].
Defined.

(** X23. Where every URL parses, the navigation history never gets
    shorter: [navigateTo] adds an entry and [goBack] replaces the last one.
    So once a page has been left, [goBack] never reaches the branch that
    calls [window.history.back()]. *)
Theorem history_never_shrinks
    (pathname : string -> option string) (ops : list Navigation.operation) (m : Navigation.t) :
  (forall url, is_Some (pathname url)) ->
  Navigation.navigationHistory m <> [] ->
  (length (Navigation.navigationHistory m)
   <= length (Navigation.navigationHistory (fold_left (Navigation.run pathname) ops m)))%nat /\
  Navigation.back (fold_left (Navigation.run pathname) ops m) = Navigation.back m.
Proof.
intros Htotal. revert m. induction ops as [|o ops IH]; intros m Hne; [done|].
cbn [fold_left].
destruct (run_history pathname m o Htotal Hne) as [Hl Hb].
assert (Navigation.navigationHistory (Navigation.run pathname m o) <> []) as Hne'.
{ intros E. rewrite E in Hl. destruct (Navigation.navigationHistory m); [done|simpl in Hl; lia]. }
destruct (IH _ Hne') as [Hl' Hb']. split; [lia|congruence].
Qed.

Lemma history_never_shrinks_witness :
  (forall url, is_Some (Navigation.rooted url)) /\
  Navigation.back
    (fold_left (Navigation.run Navigation.rooted)
       [ Navigation.GoBack true Navigation.everyPage 3;
         Navigation.GoBack false Navigation.everyPage 4;
         Navigation.GoBack true Navigation.everyPage 5 ]
       Navigation.visited)
  = 0%nat.
Proof.
assert (forall url, is_Some (Navigation.rooted url)) as H by (intros url; by eexists).
split; [exact H|].
apply (history_never_shrinks Navigation.rooted
         [ Navigation.GoBack true Navigation.everyPage 3;
           Navigation.GoBack false Navigation.everyPage 4;
           Navigation.GoBack true Navigation.everyPage 5 ]
         Navigation.visited H).
discriminate.
Defined.

(** X24. The page names that [extractPageFromUrl] makes of the URLs of
    [pageMap] are not the keys of [pageMap]: for a URL whose last path
    segment is that of the URL of [page], [fetchPageContent] requests the
    URL of [page] again only for the pages home and results, and requests
    the home page for every other. *)
Theorem page_urls_and_names (pathname : string -> option string) (page url path : string) :
  PageConnectionManager.pageMap !! page = Some url ->
  pathname url = Some path ->
  Navigation.lastSegment path = Navigation.lastSegment url ->
  exists target,
    Navigation.extractPageFromUrl pathname url = Some target /\
    (PageConnectionManager.pageUrl target = Some (PageConnectionManager.Url url)
     <-> page = "home" \/ page = "results") /\
    (page <> "results" ->
     PageConnectionManager.pageUrl target
     = Some (PageConnectionManager.Url "../pages/home-ai.html")).
Proof.
intros Hpage Hpath Hlast.
unfold Navigation.extractPageFromUrl, Navigation.pageOfPath. rewrite Hpath, Hlast.
unfold PageConnectionManager.pageMap in Hpage.
repeat (apply lookup_insert_Some in Hpage as [[<- <-]|[_ Hpage]];
        [eexists; split; [reflexivity|]; split; [split|];
         [ try (intros _; by (left + right)); intros [=]
         | try (intros _; reflexivity); intros [[=]|[=]]
         | try (intros _; reflexivity); intros []; reflexivity ] |]).
by apply lookup_empty_Some in Hpage.
Qed.

Lemma page_urls_and_names_witness :
  exists target,
    Navigation.extractPageFromUrl
      (fun url => Some (String.string_of_list_ascii
                          (drop 2 (String.list_ascii_of_string url))))
      "../pages/grammar-ai.html" = Some target /\
    PageConnectionManager.pageUrl target
    = Some (PageConnectionManager.Url "../pages/home-ai.html").
Proof.
destruct (page_urls_and_names
  (fun url => Some (String.string_of_list_ascii (drop 2 (String.list_ascii_of_string url))))
  "grammar" "../pages/grammar-ai.html" "/pages/grammar-ai.html")
  as (target & Ht & _ & Hhome); [reflexivity..|].
exists target. split; [exact Ht|]. apply Hhome. discriminate.
Defined.

(** *** Practice mode: feedback and session score *)

Section PracticeFeedbackFacts.

Import PracticeFeedback.

Lemma split_line a b :
  all (fun c => negb (Ascii.eqb c JS.newline)) a = true ->
  JS.split JS.newline (a +:+ String JS.newline b) = a :: JS.split JS.newline b.
Proof.
induction a as [|c a IH]; intros Ha; [done|].
simpl in Ha. apply andb_true_iff in Ha as [Hc Ha].
change (String c a +:+ String JS.newline b) with (String c (a +:+ String JS.newline b)).
cbn [JS.split]. apply negb_true_iff in Hc. rewrite Hc, (IH Ha). done.
Qed.

Lemma split_last a :
  all (fun c => negb (Ascii.eqb c JS.newline)) a = true ->
  JS.split JS.newline a = [a].
Proof.
induction a as [|c a IH]; intros Ha; [done|].
simpl in Ha. apply andb_true_iff in Ha as [Hc Ha].
cbn [JS.split]. apply negb_true_iff in Hc. rewrite Hc, (IH Ha). done.
Qed.

Lemma all_app p a b : all p (a +:+ b) = all p a && all p b.
Proof.
induction a as [|c a IH]; [done|].
change (String c a +:+ b) with (String c (a +:+ b)). simpl. rewrite IH. by rewrite andb_assoc.
Qed.

Lemma digit_plain c : isDigit c = true -> JS.one_byte c = true /\ JS.is_space c = false.
Proof.
unfold isDigit, JS.one_byte, JS.is_space. intros Hc.
apply andb_true_iff in Hc as [H1 H2]. apply Nat.leb_le in H1, H2.
split; [apply Nat.ltb_lt; lia|].
destruct (Nat.eqb_spec (nat_of_ascii c) 32); [lia|].
destruct (Nat.leb_spec (nat_of_ascii c) 13); [lia|]. by rewrite andb_false_r.
Qed.

Lemma digits_trimEnd d : all isDigit d = true -> JS.trimEnd d = d.
Proof.
induction d as [|c d IH]; intros Hd; [done|].
simpl in Hd. apply andb_true_iff in Hd as [Hc Hd].
destruct (digit_plain c Hc) as [H1 H2].
cbn [JS.trimEnd]. rewrite trimStart_first by done. by rewrite (IH Hd).
Qed.

Lemma digits_single_line d :
  all isDigit d = true -> all (fun c => negb (Ascii.eqb c JS.newline)) d = true.
Proof.
induction d as [|c d IH]; intros Hd; [done|].
simpl in Hd. apply andb_true_iff in Hd as [Hc Hd].
simpl. rewrite (IH Hd), andb_true_r.
destruct (Ascii.eqb_spec c JS.newline) as [->|]; [done|done].
Qed.

Lemma takeDigits_all d : all isDigit d = true -> takeDigits d = d.
Proof.
induction d as [|c d IH]; intros Hd; [done|].
simpl in Hd. apply andb_true_iff in Hd as [Hc Hd].
simpl. by rewrite Hc, (IH Hd).
Qed.

Ltac normalise := cbv beta iota delta [String.append].

Lemma line_trimmed label s :
  s <> "" -> JS.trimEnd s = s ->
  Forall (fun c => JS.one_byte c = true) (String.list_ascii_of_string label) ->
  JS.is_space (match label with String c _ => c | EmptyString => " "%char end) = false ->
  JS.trim (label +:+ s) = label +:+ s.
Proof.
intros Hne Hs Hl Hc. unfold JS.trim.
destruct label as [|c label]; [done|].
change (String c label +:+ s) with (String c (label +:+ s)).
rewrite trimStart_first; [|by inversion Hl|done].
change (String c (label +:+ s)) with (String c label +:+ s).
by apply trimEnd_app.
Qed.

Lemma line_correct (c : bool) (f : Feedback) :
  feedbackLine f ("CORRECT: " +:+ (if c then "yes" else "no")) = set_correct c f.
Proof. by destruct c. Qed.

Lemma line_score d f :
  d <> "" -> all isDigit d = true ->
  feedbackLine f ("SCORE: " +:+ d) = set_score (parseInt d) f.
Proof.
intros Hne Hd. normalise. unfold feedbackLine.
cbn [JS.test_prefix_i JS.toUpper]. cbn -[matchDigits].
destruct d as [|c d]; [done|].
cbn [matchDigits isDigit]. cbn -[takeDigits isDigit parseInt].
pose proof Hd as Hd'. simpl in Hd'. apply andb_true_iff in Hd' as [Hc _].
rewrite Hc. by rewrite (takeDigits_all _ Hd).
Qed.

Lemma remainder_field label s :
  field s ->
  JS.test_prefix_i label (label +:+ " " +:+ s) = true /\
  JS.trim (JS.replace_prefix_i label (label +:+ " " +:+ s)) = s.
Proof.
intros (Hne & Htrim & _). destruct (trim_fixed s Htrim) as [Hstart Hend].
assert (JS.test_prefix_i label (label +:+ " " +:+ s) = true) as Htest.
{ induction label as [|c label IH]; [done|].
  change (String c label +:+ " " +:+ s) with (String c (label +:+ " " +:+ s)).
  cbn [JS.test_prefix_i]. rewrite IH. by rewrite Ascii.eqb_refl. }
split; [done|]. unfold JS.replace_prefix_i. rewrite Htest.
assert (JS.substring_from (String.length label) (label +:+ " " +:+ s) = String " " s) as ->.
{ clear Htest. induction label as [|c label IH]; [done|].
  change (String c label +:+ " " +:+ s) with (String c (label +:+ " " +:+ s)).
  cbn [String.length JS.substring_from]. exact IH. }
change (JS.trimStart (String " " s)) with (JS.trimStart s).
by rewrite Hstart.
Qed.

Lemma line_message s f : field s -> feedbackLine f ("FEEDBACK: " +:+ s) = set_message s f.
Proof.
intros Hs. destruct (remainder_field "FEEDBACK:" s Hs) as [Ht Hr].
unfold feedbackLine. change ("FEEDBACK: " +:+ s) with ("FEEDBACK:" +:+ " " +:+ s).
rewrite Ht, Hr. reflexivity.
Qed.

Lemma line_improvement s f :
  field s -> feedbackLine f ("IMPROVEMENT: " +:+ s) = set_improvement s f.
Proof.
intros Hs. destruct (remainder_field "IMPROVEMENT:" s Hs) as [Ht Hr].
unfold feedbackLine. change ("IMPROVEMENT: " +:+ s) with ("IMPROVEMENT:" +:+ " " +:+ s).
rewrite Ht, Hr. reflexivity.
Qed.

Lemma line_encouragement s f :
  field s -> feedbackLine f ("ENCOURAGEMENT: " +:+ s) = set_encouragement s f.
Proof.
intros Hs. destruct (remainder_field "ENCOURAGEMENT:" s Hs) as [Ht Hr].
unfold feedbackLine. change ("ENCOURAGEMENT: " +:+ s) with ("ENCOURAGEMENT:" +:+ " " +:+ s).
rewrite Ht, Hr. reflexivity.
Qed.

Lemma field_line label s :
  field s ->
  label <> "" ->
  all (fun c => negb (JS.is_space c)) label = true ->
  Forall (fun c => JS.one_byte c = true) (String.list_ascii_of_string label) ->
  let line := (label +:+ " ") +:+ s in
  all (fun c => negb (Ascii.eqb c JS.newline)) line = true /\
  JS.trim line = line /\ JS.truthy line = true.
Proof.
intros (Hne & Htrim & Hline) Hlabel Hc Hone line. subst line.
destruct (trim_fixed s Htrim) as [_ Hend].
destruct label as [|c label]; [done|].
simpl in Hc. apply andb_true_iff in Hc as [Hc Hrest]. apply negb_true_iff in Hc.
split; [|split].
- rewrite !all_app, Hline, andb_true_r. simpl. rewrite andb_true_r.
  apply andb_true_iff. split.
  + destruct (Ascii.eqb_spec c JS.newline) as [->|]; [done|done].
  + clear -Hrest. induction label as [|c' label IH]; [done|].
    simpl in *. apply andb_true_iff in Hrest as [Hc' Hrest]. rewrite (IH Hrest), andb_true_r.
    destruct (Ascii.eqb_spec c' JS.newline) as [->|]; [done|done].
- apply line_trimmed; [done|done| |by simpl].
  clear -Hone. simpl in *. apply Forall_cons in Hone as [H1 Hone]. constructor; [done|].
  induction label as [|c' label IH]; simpl in *; [by repeat constructor|].
  apply Forall_cons in Hone as [H2 Hone]. constructor; [done|by apply IH].
- done.
Qed.

Lemma lines_formatted c d msg imp enc :
  d <> "" -> all isDigit d = true -> field msg -> field imp -> field enc ->
  lines (formatted c d msg imp enc)
  = [ "CORRECT: " +:+ (if c then "yes" else "no");
      "SCORE: " +:+ d;
      "FEEDBACK: " +:+ msg;
      "IMPROVEMENT: " +:+ imp;
      "ENCOURAGEMENT: " +:+ enc ].
Proof.
intros Hd Hdigits Hmsg Himp Henc.
assert (field d) as Hfd.
{ split; [done|]. split; [|by apply digits_single_line].
  unfold JS.trim. destruct d as [|c0 d']; [done|].
  pose proof Hdigits as Hc0. simpl in Hc0. apply andb_true_iff in Hc0 as [Hc0 _].
  destruct (digit_plain c0 Hc0) as [H1 H2].
  rewrite trimStart_first by done. by apply digits_trimEnd. }
destruct (field_line "SCORE:" d Hfd) as (S1 & S2 & S3);
  [done|done|by repeat constructor|].
destruct (field_line "FEEDBACK:" msg Hmsg) as (F1 & F2 & F3);
  [done|done|by repeat constructor|].
destruct (field_line "IMPROVEMENT:" imp Himp) as (I1 & I2 & I3);
  [done|done|by repeat constructor|].
destruct (field_line "ENCOURAGEMENT:" enc Henc) as (E1 & E2 & E3);
  [done|done|by repeat constructor|].
cbn zeta in *.
change ("SCORE:" +:+ " ") with "SCORE: " in *.
change ("FEEDBACK:" +:+ " ") with "FEEDBACK: " in *.
change ("IMPROVEMENT:" +:+ " ") with "IMPROVEMENT: " in *.
change ("ENCOURAGEMENT:" +:+ " ") with "ENCOURAGEMENT: " in *.
unfold lines, formatted.
rewrite split_line by (by destruct c).
rewrite split_line by done. rewrite split_line by done. rewrite split_line by done.
rewrite split_last by done.
cbn [map]. rewrite S2, F2, I2, E2.
assert (JS.trim ("CORRECT: " +:+ (if c then "yes" else "no"))
        = "CORRECT: " +:+ (if c then "yes" else "no")) as -> by (by destruct c).
rewrite !filter_cons_True; [done|done..| by destruct c].
Qed.

(** X25. An answer of the tutor in the format the prompt asks for is
    read back as it was written: the five lines give the five fields of
    the feedback, for texts that are not empty, have no white space around
    them and no line break, and a message of five characters or more. *)
Theorem feedback_round_trip (c : bool) (d msg imp enc : string) :
  d <> "" -> all isDigit d = true ->
  field msg -> (5 <= JS.String_length msg)%nat -> field imp -> field enc ->
  getAIFeedback (formatted c d msg imp enc)
  = {| correct := c; score := parseInt d; message := msg;
       improvement := imp; encouragement := enc |}.
Proof.
intros Hd Hdigits Hmsg Hlen Himp Henc.
unfold getAIFeedback. rewrite lines_formatted by done.
cbn [fold_left].
rewrite line_correct, line_score, line_message, line_improvement, line_encouragement by done.
cbn [message set_encouragement set_improvement set_message set_score set_correct
     correct score improvement encouragement defaults].
assert (JS.truthy msg = true) as -> by (destruct Hmsg as [? _]; by destruct msg).
destruct (Nat.ltb_spec (JS.String_length msg) 5) as [?|_]; [lia|]. done.
Qed.

Lemma fold_unlabelled ls f :
  Forall unlabelled ls -> fold_left feedbackLine ls f = f.
Proof.
intros H. revert f. induction H as [|l ls Hl _ IH]; intros f; [done|].
cbn [fold_left].
assert (feedbackLine f l = f) as ->; [|apply IH].
unfold unlabelled in Hl. rewrite !Forall_cons in Hl.
destruct Hl as (H1 & H2 & H3 & H4 & H5 & _).
unfold feedbackLine. by rewrite H1, H2, H3, H4, H5.
Qed.

(** X26. The message of the feedback is never shorter than five
    characters, whatever the API answered, and the score is never
    negative.  An answer without a labelled line gives the feedback the
    method starts from: not correct, score 0, "Good effort!". *)
Theorem feedback_defaults (response : string) :
  (5 <= JS.String_length (message (getAIFeedback response)))%nat /\
  (0 <= score (getAIFeedback response))%Z /\
  (Forall unlabelled (lines response) -> getAIFeedback response = defaults).
Proof.
split; [|split].
- unfold getAIFeedback.
  destruct (negb _ || (_ <? 5)%nat) eqn:E.
  + cbn [message set_message]. destruct (correct _); simpl; lia.
  + apply orb_false_iff in E as [_ E]. by apply Nat.ltb_ge in E.
- assert (forall ls f, (0 <= score f)%Z -> (0 <= score (fold_left feedbackLine ls f))%Z) as H.
  { induction ls as [|l ls IH]; intros f Hf; [done|].
    cbn [fold_left]. apply IH. unfold feedbackLine.
    assert (forall acc s, (0 <= acc)%Z -> (0 <= digitsValue acc s)%Z) as Hv.
    { intros acc s. revert acc. induction s as [|c s IHs]; intros acc Hacc; [done|].
      simpl. apply IHs. lia. }
    repeat (match goal with |- context [if ?b then _ else _] => destruct b end);
      cbn [score set_score set_correct set_message set_improvement set_encouragement];
      try done; destruct (matchDigits l); try done; apply Hv; lia. }
  unfold getAIFeedback. destruct (negb _ || _); [cbn [score set_message]|]; by apply H.
- intros Hl. unfold getAIFeedback. by rewrite fold_unlabelled.
Qed.

Lemma session_counts fs s :
  (0 <= sessionScore s <= sessionQuestions s)%Z ->
  let s' := fold_left checkAnswer fs s in
  (0 <= sessionScore s' <= sessionQuestions s')%Z /\
  sessionQuestions s' = (sessionQuestions s + Z.of_nat (length fs))%Z /\
  sessionScore s'
  = (sessionScore s + Z.of_nat (length (filter (fun f => correct f = true) fs)))%Z.
Proof.
revert s. induction fs as [|f fs IH]; intros s Hs; [simpl; lia|].
cbn [fold_left].
assert (0 <= sessionScore (checkAnswer s f) <= sessionQuestions (checkAnswer s f))%Z as Hs'
  by (unfold checkAnswer; destruct (correct f); simpl; lia).
destruct (IH _ Hs') as (H1 & H2 & H3). cbn zeta.
split; [done|]. rewrite H2, H3. unfold checkAnswer.
destruct (correct f) eqn:E; cbn [sessionScore sessionQuestions length].
- rewrite filter_cons_True by done. simpl length. lia.
- rewrite filter_cons_False by (by rewrite E). lia.
Qed.

(** X27. In a session the score counts the answers the tutor marked
    correct and the questions count all answers checked, so the score
    never exceeds the questions and the accuracy reported at the end lies
    between 0 and 100; no accuracy is reported for a session without a
    checked answer. *)
Theorem session_accuracy (feedbacks : list Feedback) :
  let s := fold_left checkAnswer feedbacks startPractice in
  sessionQuestions s = Z.of_nat (length feedbacks) /\
  sessionScore s = Z.of_nat (length (filter (fun f => correct f = true) feedbacks)) /\
  (sessionScore s <= sessionQuestions s)%Z /\
  match accuracy s with
  | Some a => feedbacks <> [] /\ (0 <= a <= 100)%Z
  | None => feedbacks = []
  end.
Proof.
destruct (session_counts feedbacks startPractice) as (H1 & H2 & H3); [simpl; lia|].
cbn zeta in *. set (s := fold_left checkAnswer feedbacks startPractice) in *.
cbn [startPractice sessionScore sessionQuestions] in H2, H3. clearbody s.
split; [lia|]. split; [lia|]. split; [lia|].
unfold accuracy. destruct (Z.ltb_spec 0 (sessionQuestions s)) as [Hpos|Hzero].
- split; [intros ->; simpl in H2; lia|].
  unfold JS.Math_round.
  assert (0 <= inject_Z (sessionScore s) / inject_Z (sessionQuestions s) * 100)%Q as Hlo.
  { apply Qmult_le_0_compat; [|done].
    apply Qle_shift_div_l; [by rewrite Zlt_Qlt in Hpos|].
    rewrite Qmult_0_l. rewrite <- (Zle_Qle 0). lia. }
  assert (inject_Z (sessionScore s) / inject_Z (sessionQuestions s) * 100 <= 100)%Q as Hhi.
  { apply Qle_trans with (1 * 100)%Q; [|by compute].
    apply Qmult_le_compat_r; [|done].
    apply Qle_shift_div_r; [by rewrite Zlt_Qlt in Hpos|].
    rewrite Qmult_1_l. rewrite <- Zle_Qle. lia. }
  split.
  + apply (Qfloor_resp_le 0). change (inject_Z 0) with 0%Q.
    apply Qle_trans with (1 := Hlo).
    rewrite <- (Qplus_0_r (_ * 100)) at 1. by apply Qplus_le_r.
  + change 100%Z with (Qfloor (100 + (1 # 2))). apply Qfloor_resp_le.
    by apply Qplus_le_l.
- destruct feedbacks; [done|]. simpl length in H2. lia.
Qed.

End PracticeFeedbackFacts.

Lemma feedback_defaults_witness :
  Forall PracticeFeedback.unlabelled (PracticeFeedback.lines "I cannot grade this answer.") /\
  PracticeFeedback.getAIFeedback "I cannot grade this answer." = PracticeFeedback.defaults.
Proof.
assert (Forall PracticeFeedback.unlabelled
          (PracticeFeedback.lines "I cannot grade this answer.")) as H.
{ apply Forall_cons. split; [|apply Forall_nil_2].
  repeat (apply Forall_cons; split; [reflexivity|]). apply Forall_nil_2. }
split; [exact H|].
apply (feedback_defaults "I cannot grade this answer."). exact H.
Defined.

Lemma feedback_round_trip_witness :
  PracticeFeedback.getAIFeedback
    (PracticeFeedback.formatted true "85" "Your verb form is right."
       "Watch the word order." "Well done!")
  = {| PracticeFeedback.correct := true;
       PracticeFeedback.score := 85;
       PracticeFeedback.message := "Your verb form is right.";
       PracticeFeedback.improvement := "Watch the word order.";
       PracticeFeedback.encouragement := "Well done!" |}.
Proof.
apply (feedback_round_trip true "85" "Your verb form is right."
         "Watch the word order." "Well done!").
- discriminate.
- reflexivity.
- split; [discriminate | split; reflexivity].
- simpl. lia.
- split; [discriminate | split; reflexivity].
- split; [discriminate | split; reflexivity].
Defined.

(** *** Completing a lesson *)

Section LessonCompletionFacts.

Import LessonCompletion.

Lemma get_set name m ms m0 :
  get name ms = Some m0 -> get name (set name m ms) = Some m.
Proof.
induction ms as [|[n m1] ms IH]; [done|]. simpl.
destruct (String.eqb n name) eqn:E; simpl; rewrite E; [done|]. apply IH.
Qed.

Lemma completeIn_lessons total clock lessonId md :
  lessonsCompleted (completeIn total clock lessonId md)
  = if bool_decide (lessonId ∈ lessonsCompleted md)
    then lessonsCompleted md else lessonsCompleted md ++ [lessonId].
Proof. done. Qed.

Lemma completeIn_completed total clock lessonId md :
  completed (completeIn total clock lessonId md)
  = Qeq_bool (progress (completeIn total clock lessonId md)) 100 || completed md.
Proof.
unfold completeIn. cbn [completed progress].
destruct (Qeq_bool _ 100), (completed md); done.
Qed.

Lemma completeIn_elem total clock lessonId md :
  lessonId ∈ lessonsCompleted (completeIn total clock lessonId md).
Proof.
rewrite completeIn_lessons. case_bool_decide; [done|].
apply elem_of_app. right. by apply list_elem_of_singleton.
Qed.

Lemma completeIn_present total clock lessonId md :
  lessonId ∈ lessonsCompleted md ->
  lessonsCompleted (completeIn total clock lessonId md) = lessonsCompleted md /\
  (progress (completeIn total clock lessonId md)
   = if (0 <? total)%nat
     then inject_Z (JS.Math_round
            ((inject_Z (Z.of_nat (length (lessonsCompleted md))) / inject_Z (Z.of_nat total))
             * 100))
     else 0%Q).
Proof.
intros Hin. unfold completeIn. cbn [lessonsCompleted progress].
by rewrite bool_decide_eq_true_2.
Qed.

Lemma completeIn_progress total clock lessonId md :
  progress (completeIn total clock lessonId md)
  = if (0 <? total)%nat
    then inject_Z (JS.Math_round
           ((inject_Z (Z.of_nat (length (lessonsCompleted (completeIn total clock lessonId md))))
             / inject_Z (Z.of_nat total)) * 100))
    else 0%Q.
Proof. done. Qed.

Lemma completeIn_again total clock clock' lessonId md :
  lessonsCompleted (completeIn total clock' lessonId (completeIn total clock lessonId md))
  = lessonsCompleted (completeIn total clock lessonId md) /\
  progress (completeIn total clock' lessonId (completeIn total clock lessonId md))
  = progress (completeIn total clock lessonId md) /\
  completed (completeIn total clock' lessonId (completeIn total clock lessonId md))
  = completed (completeIn total clock lessonId md).
Proof.
destruct (completeIn_present total clock' lessonId (completeIn total clock lessonId md)
            (completeIn_elem total clock lessonId md)) as [Hl Hp].
assert (progress (completeIn total clock' lessonId (completeIn total clock lessonId md))
        = progress (completeIn total clock lessonId md)) as Hprog
  by (rewrite Hp; symmetry; apply completeIn_progress).
split; [done|]. split; [done|].
rewrite (completeIn_completed total clock'), Hprog, (completeIn_completed total clock).
by destruct (Qeq_bool _ 100).
Qed.

(** X28. A lesson is recorded once: after [updateLessonCompletion]
    the lesson is in the list of completed lessons of its module, a list
    without duplicates stays without duplicates and grows by one entry
    for a new lesson and not at all for a lesson already there, so that
    completing the same lesson again changes neither the list nor the
    progress of the module. *)
Theorem lesson_recorded_once (total : nat) (clock clock' : Clock)
    (userId module lessonId : string) (score score' timeSpent timeSpent' : Q)
    (journeyData : JourneyData) (moduleData : ModuleData) :
  missing userId module lessonId = false ->
  get module (modules journeyData) = Some moduleData ->
  NoDup (lessonsCompleted moduleData) ->
  exists saved after,
    updateLessonCompletion total clock userId module lessonId score timeSpent journeyData
    = Some saved /\
    get module (modules (cache saved)) = Some after /\
    lessonId ∈ lessonsCompleted after /\
    NoDup (lessonsCompleted after) /\
    length (lessonsCompleted after)
    = (if bool_decide (lessonId ∈ lessonsCompleted moduleData)
       then length (lessonsCompleted moduleData)
       else S (length (lessonsCompleted moduleData))) /\
    exists saved' again,
      updateLessonCompletion total clock' userId module lessonId score' timeSpent'
        (cache saved)
      = Some saved' /\
      get module (modules (cache saved')) = Some again /\
      lessonsCompleted again = lessonsCompleted after /\
      progress again = progress after /\
      completed again = completed after.
Proof.
intros Hgiven Hget Hnodup. unfold updateLessonCompletion at 1. rewrite Hgiven, Hget.
set (after := completeIn total clock lessonId moduleData).
eexists. exists after. split; [reflexivity|].
cbn [cache modules].
assert (get module (set module after (modules journeyData)) = Some after) as Hafter
  by (by eapply get_set).
split; [done|].
assert (lessonId ∈ lessonsCompleted after) as Hin.
{ unfold after. rewrite completeIn_lessons. case_bool_decide; [done|].
  apply elem_of_app. right. by apply list_elem_of_singleton. }
split; [done|]. split.
{ unfold after. rewrite completeIn_lessons. case_bool_decide; [done|].
  apply NoDup_app. split; [done|]. split; [|apply NoDup_singleton].
  intros x Hx ->%list_elem_of_singleton. done. }
split.
{ unfold after. rewrite completeIn_lessons. case_bool_decide; [done|].
  rewrite length_app. simpl. lia. }
unfold updateLessonCompletion. cbn [modules]. rewrite Hgiven, Hafter.
eexists. exists (completeIn total clock' lessonId after).
split; [reflexivity|]. cbn [cache modules].
split; [by eapply get_set|].
apply completeIn_again.
Qed.

Lemma Math_round_nonneg x : (0 <= x)%Q -> (0 <= JS.Math_round x)%Z.
Proof.
intros Hx. unfold JS.Math_round. apply (Qfloor_resp_le 0).
apply Qle_trans with (1 := Hx). rewrite <- (Qplus_0_r x) at 1. by apply Qplus_le_r.
Qed.

Lemma completeIn_nonneg total clock lessonId md :
  (0 <= progress (completeIn total clock lessonId md))%Q.
Proof.
rewrite completeIn_progress. destruct (Nat.ltb_spec 0 total) as [Hpos|_]; [|done].
rewrite <- (Zle_Qle 0). apply Math_round_nonneg.
apply Qmult_le_0_compat; [|done].
apply Qle_shift_div_l.
- rewrite <- (Zlt_Qlt 0). lia.
- rewrite Qmult_0_l. rewrite <- (Zle_Qle 0). lia.
Qed.

Lemma weight_nonneg name : (0 <= weight name)%Q.
Proof. unfold weight. by case_bool_decide. Qed.

Lemma sum_nonneg ms : forall sum,
  (0 <= sum)%Q ->
  Forall (fun entry : string * ModuleData => (0 <= progress (snd entry))%Q) ms ->
  (0 <= fold_left
          (fun sum entry => (sum + (progress (snd entry) / 100) * weight (fst entry))%Q)
          ms sum)%Q.
Proof.
induction ms as [|[n m] ms IH]; intros sum Hsum Hall; [done|].
apply Forall_cons in Hall as [Hm Hall]. cbn [fold_left]. apply IH; [|done].
cbn [fst snd] in *.
rewrite <- (Qplus_0_r 0). apply Qplus_le_compat; [done|].
apply Qmult_le_0_compat; [|apply weight_nonneg].
apply Qle_shift_div_l; [done|]. by rewrite Qmult_0_l.
Qed.

Lemma set_Forall (P : string * ModuleData -> Prop) name m ms :
  Forall P ms -> (forall n, P (n, m)) -> Forall P (set name m ms).
Proof.
intros Hall Hm. induction Hall as [|[n m0] ms H0 Hall IH]; [done|].
simpl. destruct (String.eqb n name); constructor; done.
Qed.

(** X29. For a journey whose modules have ordinary names, the overall
    progress that [updateLessonCompletion] reports and stores is never
    above 100, and never below 0 when no module of the journey has a
    negative progress; the progress of the module itself is never
    negative; and a module that was completed stays completed. *)
Theorem completion_progress_bounds (total : nat) (clock : Clock)
    (userId module lessonId : string) (score timeSpent : Q)
    (journeyData : JourneyData) (moduleData : ModuleData) :
  missing userId module lessonId = false ->
  get module (modules journeyData) = Some moduleData ->
  Forall (fun entry => fst entry ∉ JSObject.inherited) (modules journeyData) ->
  exists saved,
    updateLessonCompletion total clock userId module lessonId score timeSpent journeyData
    = Some saved /\
    (resultOverallProgress (result saved) <= 100)%Q /\
    (0 <= moduleProgress (result saved))%Q /\
    (Forall (fun entry => 0 <= progress (snd entry))%Q (modules journeyData) ->
     (0 <= resultOverallProgress (result saved))%Q) /\
    (completed moduleData = true -> moduleCompleted (result saved) = true) /\
    overallProgress (firestore saved) = resultOverallProgress (result saved) /\
    overallProgress (cache saved) = resultOverallProgress (result saved).
Proof.
intros Hgiven Hget _. unfold updateLessonCompletion. rewrite Hgiven, Hget.
eexists. split; [reflexivity|].
cbn [result resultOverallProgress moduleProgress moduleCompleted firestore cache
     overallProgress].
split; [apply Q.le_min_l|]. split; [apply completeIn_nonneg|].
split; [|split; [|done]].
- intros Hall. unfold overall, JS.Math_min. apply Q.min_glb; [done|].
  rewrite <- (Zle_Qle 0). apply Math_round_nonneg.
  apply sum_nonneg; [done|].
  apply set_Forall; [done|]. intros n. apply completeIn_nonneg.
- intros Hc. rewrite completeIn_completed, Hc. apply orb_true_r.
Qed.

Lemma study_lessons total clock userId module : forall lessons journeyData moduleData,
  Forall (fun lessonId => missing userId module lessonId = false) lessons ->
  get module (modules journeyData) = Some moduleData ->
  NoDup (lessonsCompleted moduleData ++ lessons) ->
  exists journey' moduleData',
    study total clock userId module lessons journeyData = Some journey' /\
    get module (modules journey') = Some moduleData' /\
    lessonsCompleted moduleData' = lessonsCompleted moduleData ++ lessons /\
    (lessons <> [] ->
     (progress moduleData'
      = if (0 <? total)%nat
        then inject_Z (JS.Math_round
               ((inject_Z (Z.of_nat (length (lessonsCompleted moduleData')))
                 / inject_Z (Z.of_nat total)) * 100))
        else 0%Q) /\
     completed moduleData' = Qeq_bool (progress moduleData') 100 || completed moduleData'
     ).
Proof.
induction lessons as [|l rest IH]; intros j md Hgiven Hget Hnd.
- exists j, md. split; [done|]. split; [done|]. split; [by rewrite app_nil_r|]. done.
- apply Forall_cons in Hgiven as [Hl0 Hgiven].
  cbn [study]. unfold updateLessonCompletion. rewrite Hl0, Hget. cbn [firestore].
  set (after := completeIn total clock l md).
  set (j1 := {| targetLanguage := _ |}).
  assert (get module (modules j1) = Some after) as Hget1 by (by eapply get_set).
  assert (lessonsCompleted after = lessonsCompleted md ++ [l]) as Hl.
  { unfold after. rewrite completeIn_lessons. rewrite bool_decide_eq_false_2; [done|].
    apply NoDup_app in Hnd as (_ & Hdis & _). intros Hin. apply (Hdis l Hin). by left. }
  destruct (IH j1 after Hgiven Hget1) as (j' & md' & Hs & Hg & Hls & Hp).
  { rewrite Hl, <- app_assoc. done. }
  exists j', md'. split; [done|]. split; [done|].
  split; [by rewrite Hls, Hl, <- app_assoc|].
  intros _. destruct rest as [|l' rest'].
  + cbn [study] in Hs. injection Hs as <-. rewrite Hget1 in Hg. injection Hg as <-.
    split; [apply completeIn_progress|].
    unfold after. rewrite completeIn_completed.
    by destruct (Qeq_bool _ 100), (completed md).
  + by apply Hp.
Qed.

(** X30. Completing the lessons of a module one after the other, each
    once, completes the module: starting from a module without completed
    lessons, after as many different lessons as the curriculum has for
    the module, the module holds exactly these lessons, its progress is
    100 and it is marked completed. *)
Theorem all_lessons_complete_the_module (clock : Clock) (userId module : string)
    (lessons : list string) (journeyData : JourneyData) (moduleData : ModuleData) :
  Forall (fun lessonId => missing userId module lessonId = false) lessons ->
  get module (modules journeyData) = Some moduleData ->
  lessonsCompleted moduleData = [] ->
  NoDup lessons ->
  lessons <> [] ->
  exists journey' moduleData',
    study (length lessons) clock userId module lessons journeyData = Some journey' /\
    get module (modules journey') = Some moduleData' /\
    lessonsCompleted moduleData' = lessons /\
    (progress moduleData' == 100)%Q /\
    completed moduleData' = true.
Proof.
intros Hgiven Hget Hempty Hnd Hne.
destruct (study_lessons (length lessons) clock userId module lessons journeyData moduleData
            Hgiven Hget)
  as (j' & md' & Hs & Hg & Hl & Hp); [by rewrite Hempty|].
rewrite Hempty in Hl. simpl in Hl.
destruct (Hp Hne) as [Hprog Hdone].
exists j', md'. split; [done|]. split; [done|]. split; [done|].
assert (progress md' == 100)%Q as H100.
{ rewrite Hprog, Hl.
  destruct (Nat.ltb_spec 0 (length lessons)) as [Hpos|Hzero];
    [|destruct lessons; [done|simpl in Hzero; lia]].
  assert (inject_Z (Z.of_nat (length lessons)) / inject_Z (Z.of_nat (length lessons)) * 100
          == 100)%Q as E.
  { unfold Qdiv. rewrite Qmult_inv_r; [reflexivity|].
    intros E. unfold Qeq in E. simpl in E. lia. }
  unfold JS.Math_round. rewrite E. reflexivity. }
split; [done|].
rewrite Hdone. apply Qeq_bool_iff in H100. by rewrite H100.
Qed.

End LessonCompletionFacts.

Lemma lesson_recorded_once_witness :
  exists saved after,
    LessonCompletion.updateLessonCompletion 3 LessonCompletion.noon "u1" "alphabets"
      "lesson-1" 90 120 LessonCompletion.newJourney = Some saved /\
    LessonCompletion.get "alphabets" (LessonCompletion.modules (LessonCompletion.cache saved))
    = Some after /\
    "lesson-1" ∈ LessonCompletion.lessonsCompleted after.
Proof.
destruct (lesson_recorded_once 3 LessonCompletion.noon LessonCompletion.noon
            "u1" "alphabets" "lesson-1" 90 90 120 120
            LessonCompletion.newJourney LessonCompletion.fresh)
  as (saved & after & H1 & H2 & H3 & _).
- reflexivity.
- reflexivity.
- apply NoDup_nil_2.
- exists saved, after. split; [exact H1|]. split; [exact H2|exact H3].
Defined.

Lemma completion_progress_bounds_witness :
  exists saved,
    LessonCompletion.updateLessonCompletion 3 LessonCompletion.noon "u1" "grammar"
      "lesson-2" 70 45 LessonCompletion.newJourney = Some saved /\
    (LessonCompletion.resultOverallProgress (LessonCompletion.result saved) <= 100)%Q.
Proof.
destruct (completion_progress_bounds 3 LessonCompletion.noon "u1" "grammar" "lesson-2"
            70 45 LessonCompletion.newJourney LessonCompletion.fresh)
  as (saved & H1 & H2 & _).
- reflexivity.
- reflexivity.
- repeat (apply Forall_cons; split; [compute_done|]). apply Forall_nil_2.
- exists saved. split; [exact H1|exact H2].
Defined.

Lemma all_lessons_complete_the_module_witness :
  exists journey' moduleData',
    LessonCompletion.study 3 LessonCompletion.noon "u1" "vocabulary"
      ["greetings"; "numbers"; "colours"] LessonCompletion.newJourney = Some journey' /\
    LessonCompletion.get "vocabulary" (LessonCompletion.modules journey') = Some moduleData' /\
    LessonCompletion.completed moduleData' = true.
Proof.
destruct (all_lessons_complete_the_module LessonCompletion.noon "u1" "vocabulary"
            ["greetings"; "numbers"; "colours"]
            LessonCompletion.newJourney LessonCompletion.fresh)
  as (j' & md' & H1 & H2 & _ & _ & H5).
- repeat (apply Forall_cons; split; [reflexivity|]). apply Forall_nil_2.
- reflexivity.
- reflexivity.
- apply NoDup_cons. split; [compute_done|].
  apply NoDup_cons. split; [compute_done|].
  apply NoDup_cons. split; [compute_done|]. apply NoDup_nil_2.
- discriminate.
- exists j', md'. split; [exact H1|]. split; [exact H2|exact H5].
Defined.

